(** * Vita3K Vulkan renderer: recording state machine and fence-wait dispatcher

    A shallow embedding of [vita3k/renderer/src/vulkan/context.cpp]:
    [VKContext::wait_thread_function], [set_context],
    [VKContext::start_recording], [VKContext::start_render_pass],
    [VKContext::stop_render_pass] and [VKContext::stop_recording].

    The render thread's functions are written in a state-and-failure monad
    over a [World] (the context, the heap of render targets it points into,
    the Vulkan device's handle allocator and the trace of calls made to
    external collaborators).  Failure stands for C++ undefined behaviour
    (null or dangling pointer dereference, out-of-range [operator[]]).
    The dispatcher thread is a step function over the requests it pops. *)

From Stdlib Require Import ZArith List Lia.
From stdpp Require Import base option list gmap strings.

Local Open Scope Z_scope.

(** Records are C++ structs: a projection applied to a struct literal
    computes, and a struct is determined by its fields. *)
Set Primitive Projections.

(** ** Handles and plain data *)

(** Vulkan handles ([vk::Fence], [vk::CommandBuffer], ...) are opaque
    integers; [0] is the null handle ([nullptr] / [VK_NULL_HANDLE]). *)
Abbreviation Handle := Z (only parsing).
Definition null_handle : Handle := 0.

(** [vk::Format] values used by name in the source (Vulkan's own numbering). *)
Definition eR8G8B8A8Unorm : Z := 37.
Definition eR8G8B8A8Srgb : Z := 43.

(** [SceGxmNotification]: a guest address ([0] when empty) and the value to
    store there. *)
Record SceGxmNotification := {
  address : Z;
  value : Z;
}.

(** The fields of [SceGxmColorSurface] the file reads or writes. *)
Record SceGxmColorSurface := {
  colorFormat : Z;
  gamma : Z;
  data : Z;           (* data.address() *)
  downscale : bool;
}.

(** The fields of [SceGxmDepthStencilSurface] the file reads. *)
Record SceGxmDepthStencilSurface := {
  zlsControl : Z;
  depthData : Z;      (* depthData.address() *)
  stencilData : Z;    (* stencilData.address() *)
  backgroundDepth : Z; (* a float, only copied: kept as its raw bits *)
  control_content : Z; (* control.content *)
}.

(** [context.record]. *)
Record GxmRecordState := {
  color_surface : SceGxmColorSurface;
  depth_stencil_surface : SceGxmDepthStencilSurface;
  color_base_format : Z;
  is_gamma_corrected : bool;
  is_maskupdate : bool;
  two_sided : Z;
}.

(** [VKRenderTarget].  [width] and [height] are unsigned machine integers
    (they initialise a [vk::Extent2D] without narrowing); the indices
    [fence_idx] and [cmd_buffer_idx] never exceed the size of the vector
    they index on any defined path, so they are kept as [nat]. *)
Record VKRenderTarget := {
  multisample_mode : bool;
  width : Z;
  height : Z;
  mask_view : Handle;                     (* mask.view *)
  cmd_buffers : list (list Handle);       (* one vector per in-flight frame *)
  pre_cmd_buffers : list (list Handle);
  fences : list Handle;
  fence_idx : nat;
  cmd_buffer_idx : nat;
  last_used_frame : Z;
}.

(** One in-flight frame's resources ([frame()]). *)
Record FrameObject := {
  render_pool : Handle;
  prerender_pool : Handle;
  descriptor_pool : Handle;
  rendered_fences : list Handle;
}.

Record FeatureState := {
  use_mask_bit : bool;
  support_memory_mapping : bool;
}.

(** The parts of [VKState] reached through [context.state]. *)
Record VKState := {
  features : FeatureState;
  disable_surface_sync : bool;
  attachments_layout : Handle;            (* pipeline_cache.attachments_layout *)
}.

(** What [current_color_attachment] points to. *)
Record Image := { view : Handle }.

(** What [current_visibility_buffer] points to. *)
Record VisibilityBuffer := {
  query_pool : Handle;
  gpu_buffer : Handle;
  buffer_offset : Z;
}.

(** ** Completion requests *)

Inductive WaitThreadRequest :=
| NotificationRequest (notifications : SceGxmNotification * SceGxmNotification)
                      (fence : Handle)
| FrameDoneRequest (frame_timestamp : Z)
| PostSurfaceSyncRequest (cache_info : Handle).

(** Modelled from the spec: the [Queue] class behind [request_queue] (a
    utility header, not among the sources).  "An ordered, unbounded
    sequence of Completion Requests; pop is blocking and returns closed
    (empty) once no more items will ever arrive"; delivery is FIFO.  The
    list holds the items pushed and not yet popped, oldest first; the
    dispatcher is run on the requests pushed before the queue is closed. *)
Definition Queue := list WaitThreadRequest.

Definition queue_push (r : WaitThreadRequest) (q : Queue) : Queue := q ++ [r].

Definition queue_pop (q : Queue) : option (WaitThreadRequest * Queue) :=
  match q with
  | [] => None
  | r :: q' => Some (r, q')
  end.

(** ** The rendering context *)

Record VKContext := {
  state : VKState;
  record : GxmRecordState;
  render_target : option nat;             (* VKRenderTarget*, [None] = nullptr *)
  current_render_target : option nat;
  scene_timestamp : Z;
  frame_timestamp : Z;
  current_frame_idx : nat;
  frames : list FrameObject;
  is_recording : bool;
  in_renderpass : bool;
  render_cmd : Handle;
  prerender_cmd : Handle;
  viewport : Z;                           (* only passed on *)
  scissor : Z;                            (* only passed on *)
  current_render_pass : Handle;
  current_framebuffer : Handle;
  current_color_attachment : option Image;
  current_ds_attachment : option Image;
  current_framebuffer_height : Z;
  last_vert_texture_count : Z;
  last_frag_texture_count : Z;
  vertex_textures : list Handle;          (* the [sampler] of each slot *)
  fragment_textures : list Handle;
  rendertarget_set : Handle;
  refresh_pipeline : bool;
  current_pipeline : Handle;
  is_in_query : bool;
  current_visibility_buffer : option VisibilityBuffer;
  current_query_idx : Z;
  visibility_max_used_idx : Z;
  request_queue : Queue;
}.

(** ** Field updates

    [x.f = v] on a struct is a copy of the record with one field replaced.
    The setters are generated from the eta-expansion of each record: the
    projection being set is abstracted out of it and replaced by the new
    value. *)

Definition eta_SceGxmColorSurface (x : SceGxmColorSurface) :=
  Build_SceGxmColorSurface (colorFormat x) (gamma x) (data x) (downscale x).

Definition eta_GxmRecordState (x : GxmRecordState) :=
  Build_GxmRecordState (color_surface x) (depth_stencil_surface x)
    (color_base_format x) (is_gamma_corrected x) (is_maskupdate x) (two_sided x).

Definition eta_VKRenderTarget (x : VKRenderTarget) :=
  Build_VKRenderTarget (multisample_mode x) (width x) (height x) (mask_view x)
    (cmd_buffers x) (pre_cmd_buffers x) (fences x) (fence_idx x)
    (cmd_buffer_idx x) (last_used_frame x).

Definition eta_FrameObject (x : FrameObject) :=
  Build_FrameObject (render_pool x) (prerender_pool x) (descriptor_pool x)
    (rendered_fences x).

Definition eta_VKContext (x : VKContext) :=
  Build_VKContext (state x) (record x) (render_target x)
    (current_render_target x) (scene_timestamp x) (frame_timestamp x)
    (current_frame_idx x) (frames x) (is_recording x) (in_renderpass x)
    (render_cmd x) (prerender_cmd x) (viewport x) (scissor x)
    (current_render_pass x) (current_framebuffer x)
    (current_color_attachment x) (current_ds_attachment x)
    (current_framebuffer_height x) (last_vert_texture_count x)
    (last_frag_texture_count x) (vertex_textures x) (fragment_textures x)
    (rendertarget_set x) (refresh_pipeline x) (current_pipeline x)
    (is_in_query x) (current_visibility_buffer x) (current_query_idx x)
    (visibility_max_used_idx x) (request_queue x).

Ltac setter eta proj :=
  let v := fresh "v" in let x := fresh "x" in
  intros v x;
  let e := eval cbv beta delta [eta] in (eta x) in
  let p := eval pattern (proj x) in e in
  lazymatch p with
  | ?F _ => let t := eval cbv beta in (F v) in exact t
  end.

Definition set_downscale : bool -> SceGxmColorSurface -> SceGxmColorSurface :=
  ltac:(setter eta_SceGxmColorSurface downscale).

Definition set_color_surface : SceGxmColorSurface -> GxmRecordState -> GxmRecordState :=
  ltac:(setter eta_GxmRecordState color_surface).
Definition set_color_base_format : Z -> GxmRecordState -> GxmRecordState :=
  ltac:(setter eta_GxmRecordState color_base_format).
Definition set_is_gamma_corrected : bool -> GxmRecordState -> GxmRecordState :=
  ltac:(setter eta_GxmRecordState is_gamma_corrected).
Definition set_is_maskupdate : bool -> GxmRecordState -> GxmRecordState :=
  ltac:(setter eta_GxmRecordState is_maskupdate).

Definition set_width : Z -> VKRenderTarget -> VKRenderTarget :=
  ltac:(setter eta_VKRenderTarget width).
Definition set_height : Z -> VKRenderTarget -> VKRenderTarget :=
  ltac:(setter eta_VKRenderTarget height).
Definition set_cmd_buffers : list (list Handle) -> VKRenderTarget -> VKRenderTarget :=
  ltac:(setter eta_VKRenderTarget cmd_buffers).
Definition set_pre_cmd_buffers : list (list Handle) -> VKRenderTarget -> VKRenderTarget :=
  ltac:(setter eta_VKRenderTarget pre_cmd_buffers).
Definition set_fences : list Handle -> VKRenderTarget -> VKRenderTarget :=
  ltac:(setter eta_VKRenderTarget fences).
Definition set_fence_idx : nat -> VKRenderTarget -> VKRenderTarget :=
  ltac:(setter eta_VKRenderTarget fence_idx).
Definition set_cmd_buffer_idx : nat -> VKRenderTarget -> VKRenderTarget :=
  ltac:(setter eta_VKRenderTarget cmd_buffer_idx).
Definition set_last_used_frame : Z -> VKRenderTarget -> VKRenderTarget :=
  ltac:(setter eta_VKRenderTarget last_used_frame).

Definition set_rendered_fences : list Handle -> FrameObject -> FrameObject :=
  ltac:(setter eta_FrameObject rendered_fences).

Definition set_record : GxmRecordState -> VKContext -> VKContext :=
  ltac:(setter eta_VKContext record).
Definition set_render_target : option nat -> VKContext -> VKContext :=
  ltac:(setter eta_VKContext render_target).
Definition set_scene_timestamp : Z -> VKContext -> VKContext :=
  ltac:(setter eta_VKContext scene_timestamp).
Definition set_frames : list FrameObject -> VKContext -> VKContext :=
  ltac:(setter eta_VKContext frames).
Definition set_is_recording : bool -> VKContext -> VKContext :=
  ltac:(setter eta_VKContext is_recording).
Definition set_in_renderpass : bool -> VKContext -> VKContext :=
  ltac:(setter eta_VKContext in_renderpass).
Definition set_render_cmd : Handle -> VKContext -> VKContext :=
  ltac:(setter eta_VKContext render_cmd).
Definition set_prerender_cmd : Handle -> VKContext -> VKContext :=
  ltac:(setter eta_VKContext prerender_cmd).
Definition set_current_render_pass : Handle -> VKContext -> VKContext :=
  ltac:(setter eta_VKContext current_render_pass).
Definition set_current_framebuffer : Handle -> VKContext -> VKContext :=
  ltac:(setter eta_VKContext current_framebuffer).
Definition set_current_color_attachment : option Image -> VKContext -> VKContext :=
  ltac:(setter eta_VKContext current_color_attachment).
Definition set_current_ds_attachment : option Image -> VKContext -> VKContext :=
  ltac:(setter eta_VKContext current_ds_attachment).
Definition set_current_framebuffer_height : Z -> VKContext -> VKContext :=
  ltac:(setter eta_VKContext current_framebuffer_height).
Definition set_last_vert_texture_count : Z -> VKContext -> VKContext :=
  ltac:(setter eta_VKContext last_vert_texture_count).
Definition set_last_frag_texture_count : Z -> VKContext -> VKContext :=
  ltac:(setter eta_VKContext last_frag_texture_count).
Definition set_vertex_textures : list Handle -> VKContext -> VKContext :=
  ltac:(setter eta_VKContext vertex_textures).
Definition set_fragment_textures : list Handle -> VKContext -> VKContext :=
  ltac:(setter eta_VKContext fragment_textures).
Definition set_rendertarget_set : Handle -> VKContext -> VKContext :=
  ltac:(setter eta_VKContext rendertarget_set).
Definition set_refresh_pipeline : bool -> VKContext -> VKContext :=
  ltac:(setter eta_VKContext refresh_pipeline).
Definition set_current_pipeline : Handle -> VKContext -> VKContext :=
  ltac:(setter eta_VKContext current_pipeline).
Definition set_is_in_query : bool -> VKContext -> VKContext :=
  ltac:(setter eta_VKContext is_in_query).
Definition set_visibility_max_used_idx : Z -> VKContext -> VKContext :=
  ltac:(setter eta_VKContext visibility_max_used_idx).
Definition set_request_queue : Queue -> VKContext -> VKContext :=
  ltac:(setter eta_VKContext request_queue).

(** ** External collaborators

    Every call that leaves the file (the Vulkan device and queue, command
    buffer recording, the surface and pipeline caches, the [sync_*] state
    helpers, the logger) is recorded, with its arguments, in a trace.  The
    [sync_*] helpers are handed the context; they record commands into its
    command buffers and leave its fields alone. *)

Inductive Event :=
| LogError (msg : string)
| LogWarn (msg : string)
| AllocateCommandBuffers (commandPool : Handle) (commandBufferCount : Z)
                         (result : Handle)
| CreateFence (result : Handle)
| CmdBegin (cmd : Handle)               (* begin, eOneTimeSubmit *)
| CmdSetViewport (cmd : Handle) (vp : Z)
| CmdSetScissor (cmd : Handle) (sc : Z)
| SyncDepthBias
| SyncPointLineWidth (is_set : bool)
| SyncStencilFunc (is_back : bool)
| SyncMask
| CmdBeginRenderPass (cmd renderPass framebuffer : Handle)
                     (extent_width extent_height : Z) (depth stencil : Z)
| AllocateDescriptorSets (descriptorPool layout result : Handle)
| UpdateDescriptorSets (count : Z) (dstSet color_view mask_image_view : Handle)
| CmdEndRenderPass (cmd : Handle)
| CmdEndQuery (cmd pool : Handle) (query : Z)
| CmdCopyQueryPoolResults (cmd pool : Handle) (firstQuery queryCount : Z)
                          (dstBuffer : Handle) (dstOffset : Z)
| CmdEnd (cmd : Handle)
| QueueSubmit (cmds : list Handle) (fence : Handle)
| SetRenderTarget (rt : option nat)
| PerformSurfaceSync (result : option Handle)
| RetrieveRenderPass (format zls : Z) (result : Handle)
| RetrieveFramebufferHandle (color : option SceGxmColorSurface)
                            (ds : option SceGxmDepthStencilSurface)
                            (render_pass : Handle) (w h : Z) (result : Handle).

(** What the dispatcher thread does, in order. *)
Inductive WaitEvent :=
| WaitForFences (fs : list Handle) (result : Z)
| WaitLogError (msg : string)
| AssertFailed
| LockNotificationMutex
| GuestWrite (addr val : Z)
| UnlockNotificationMutex
| NotifyAllNotificationReady
| LockNewFrameMutex
| SetLastFrameWaited (ts : Z)
| UnlockNewFrameMutex
| NotifyOneNewFrame
| PerformPostSurfaceSync (cache_info : Handle).

(** [vk::Result::eSuccess]. *)
Definition eSuccess : Z := 0.

(** Constants, types and functions declared in headers that are not among
    the sources, taken as parameters.  The results of stateful
    collaborators may depend on everything that happened before (the
    trace so far). *)
Record Externals := {
  (** width in bits of the unsigned type of [VKRenderTarget::width] and
      [height] *)
  extent_bits : Z;
  (** [SceGxmDepthStencilControl::stencil_bits] *)
  stencil_bits : Z;
  SCE_GXM_COLOR_BASE_FORMAT_U8U8U8U8 : Z;
  SCE_GXM_TWO_SIDED_ENABLED : Z;
  (** [gxm::get_base_format] *)
  get_base_format : Z -> Z;
  (** [color::translate_format] *)
  translate_format : Z -> Z;
  (** [pipeline_cache.retrieve_render_pass] *)
  retrieve_render_pass : list Event -> Z -> Z -> Handle;
  (** [surface_cache.retrieve_framebuffer_handle]: the framebuffer
      returned, and what the call leaves in the three out-parameters
      (given their previous contents) *)
  retrieve_framebuffer_handle :
    list Event -> option SceGxmColorSurface ->
    option SceGxmDepthStencilSurface -> Handle ->
    option Image * option Image * Z -> Z -> Z ->
    Handle * (option Image * option Image * Z);
  (** [surface_cache.perform_surface_sync]: a sync handle, or null *)
  perform_surface_sync : list Event -> option Handle;
  (** the [vk::Result] of [device.waitForFences] with an unbounded timeout *)
  wait_for_fences_result : list WaitEvent -> list Handle -> Z;
}.

(** ** The render thread's world *)

Record World := {
  ctx : VKContext;
  (** the render targets [render_target] and [current_render_target] may
      point to, by address *)
  targets : gmap nat VKRenderTarget;
  (** the device's allocator: the next handle it gives out *)
  next_handle : Z;
  (** the function-local [static bool has_happened] of [start_recording] *)
  has_happened : bool;
  trace : list Event;
}.

Definition eta_World (x : World) :=
  Build_World (ctx x) (targets x) (next_handle x) (has_happened x) (trace x).

Definition set_ctx : VKContext -> World -> World := ltac:(setter eta_World ctx).
Definition set_targets : gmap nat VKRenderTarget -> World -> World :=
  ltac:(setter eta_World targets).
Definition set_next_handle : Z -> World -> World :=
  ltac:(setter eta_World next_handle).
Definition set_has_happened : bool -> World -> World :=
  ltac:(setter eta_World has_happened).
Definition set_trace : list Event -> World -> World :=
  ltac:(setter eta_World trace).

(** A computation reads and changes the world and returns a value, or has
    undefined behaviour ([None]). *)
Definition M (A : Type) : Type := World -> option (A * World).

#[export] Instance M_ret : MRet M := fun A a w => Some (a, w).

#[export] Instance M_bind : MBind M := fun A B k m w =>
  match m w with
  | Some (a, w') => k a w'
  | None => None
  end.

Definition undefined {A} : M A := fun _ => None.

Definition get_ctx : M VKContext := fun w => Some (ctx w, w).

Definition modify_ctx (f : VKContext -> VKContext) : M unit :=
  fun w => Some (tt, set_ctx (f (ctx w)) w).

Definition emit (e : Event) : M unit :=
  fun w => Some (tt, set_trace (trace w ++ [e]) w).

Definition history : M (list Event) := fun w => Some (trace w, w).

Definition when (b : bool) (m : M unit) : M unit := if b then m else mret tt.

(** [*p] for a render-target pointer: null and dangling pointers are
    undefined. *)
Definition load (p : option nat) : M VKRenderTarget :=
  fun w => match p with
           | Some a => match targets w !! a with
                       | Some rt => Some (rt, w)
                       | None => None
                       end
           | None => None
           end.

(** An assignment through a render-target pointer. *)
Definition modify_target (p : option nat) (f : VKRenderTarget -> VKRenderTarget)
  : M unit :=
  fun w => match p with
           | Some a => match targets w !! a with
                       | Some rt => Some (tt, set_targets (<[a := f rt]> (targets w)) w)
                       | None => None
                       end
           | None => None
           end.

(** [p->field] for the other pointers of the context. *)
Definition deref {A} (p : option A) : M A :=
  match p with
  | Some a => mret a
  | None => undefined
  end.

(** [v[i]]: out of range is undefined. *)
Definition index {A} (v : list A) (i : nat) : M A := deref (v !! i).

(** The device hands out a handle it has not given out before. *)
Definition fresh_handle : M Handle :=
  fun w => Some (next_handle w, set_next_handle (next_handle w + 1) w).

Definition LOG_ERROR (msg : string) : M unit := emit (LogError msg).

Definition LOG_WARN_IF (cond : bool) (msg : string) : M unit :=
  when cond (emit (LogWarn msg)).

Definition get_has_happened : M bool := fun w => Some (has_happened w, w).

Definition put_has_happened (b : bool) : M unit :=
  fun w => Some (tt, set_has_happened b w).

(** [state.device.allocateCommandBuffers(info)[0]] with
    [commandBufferCount = 1]. *)
Definition allocateCommandBuffers (commandPool : Handle) : M Handle :=
  h ← fresh_handle;
  emit (AllocateCommandBuffers commandPool 1 h);;
  mret h.

Definition createFence : M Handle :=
  h ← fresh_handle;
  emit (CreateFence h);;
  mret h.

Definition allocateDescriptorSets (descriptorPool layout : Handle) : M Handle :=
  h ← fresh_handle;
  emit (AllocateDescriptorSets descriptorPool layout h);;
  mret h.

(** [frame()]: the resources of the frame being recorded,
    [frames[current_frame_idx]]. *)
Definition frame : M FrameObject :=
  c ← get_ctx;
  index (frames c) (current_frame_idx c).

(** [v.insert(v.begin() + pos, x)]. *)
Definition vector_insert {A} (pos : nat) (x : A) (v : list A) : list A :=
  take pos v ++ x :: drop pos v.

(** [vs[i].push_back(x)], for [i] in range. *)
Definition push_back_at {A} (i : nat) (x : A) (vs : list (list A))
  : list (list A) :=
  alter (fun v => v ++ [x]) i vs.

(** ** The recording state machine *)

Section RenderThread.
Context (ext : Externals).

(** The body of the "safety check" of [start_recording]: one more
    command buffer in each of the two per-frame vectors, one more fence. *)
Definition grow_pools (rtp : option nat) : M unit :=
  happened ← get_has_happened;
  LOG_WARN_IF (negb happened)
    "Render Target is using more scenes per frame than what was planned!";;
  put_has_happened true;;
  c ← get_ctx;
  fr ← frame;
  rt ← load rtp;
  _ ← index (cmd_buffers rt) (current_frame_idx c);
  cmd ← allocateCommandBuffers (render_pool fr);
  modify_target rtp (fun rt =>
    set_cmd_buffers (push_back_at (current_frame_idx c) cmd (cmd_buffers rt)) rt);;
  fr ← frame;
  _ ← index (pre_cmd_buffers rt) (current_frame_idx c);
  pre ← allocateCommandBuffers (prerender_pool fr);
  modify_target rtp (fun rt =>
    set_pre_cmd_buffers
      (push_back_at (current_frame_idx c) pre (pre_cmd_buffers rt)) rt);;
  (* make sure the next fence used is the one we created *)
  rt ← load rtp;
  if (fence_idx rt <=? length (fences rt))%nat then
    fence ← createFence;
    modify_target rtp (fun rt =>
      set_fences (vector_insert (fence_idx rt) fence (fences rt)) rt)
  else undefined.

Definition start_recording : M unit :=
  c ← get_ctx;
  if is_recording c then
    LOG_ERROR "Attempt to start recording while already recording"
  else
    match render_target c with
    | None => LOG_ERROR "Recording started without a set command buffer"
    | Some _ =>
      let rtp := render_target c in
      rt ← load rtp;
      when (negb (last_used_frame rt =? frame_timestamp c))
        ((* reset idx if we are in a new frame *)
         modify_target rtp (set_cmd_buffer_idx 0%nat);;
         modify_target rtp (set_last_used_frame (frame_timestamp c)));;
      (* safety check *)
      rt ← load rtp;
      bufs ← index (cmd_buffers rt) (current_frame_idx c);
      when (cmd_buffer_idx rt =? length bufs)%nat (grow_pools rtp);;
      rt ← load rtp;
      bufs ← index (cmd_buffers rt) (current_frame_idx c);
      cmd ← index bufs (cmd_buffer_idx rt);
      modify_ctx (set_render_cmd cmd);;
      pre_bufs ← index (pre_cmd_buffers rt) (current_frame_idx c);
      pre ← index pre_bufs (cmd_buffer_idx rt);
      modify_ctx (set_prerender_cmd pre);;
      modify_target rtp (fun rt => set_cmd_buffer_idx (S (cmd_buffer_idx rt)) rt);;
      emit (CmdBegin cmd);;
      emit (CmdBegin pre);;
      modify_ctx (set_is_recording true);;
      (* set all the dynamic state here *)
      emit (CmdSetViewport cmd (viewport c));;
      emit (CmdSetScissor cmd (scissor c));;
      emit SyncDepthBias;;
      emit (SyncPointLineWidth true);;
      emit (SyncStencilFunc false);;
      when (two_sided (record c) =? SCE_GXM_TWO_SIDED_ENABLED ext)
        (emit (SyncStencilFunc true))
    end.

(** The loop of [start_render_pass] over the first 16 texture slots. *)
Definition clear_samplers (v : list Handle) : M (list Handle) :=
  if (16 <=? length v)%nat then
    mret (foldl (fun acc i => <[i := null_handle]> acc) v (seq 0 16))
  else undefined.

Definition start_render_pass : M unit :=
  c ← get_ctx;
  if in_renderpass c then
    LOG_ERROR "Starting render pass while already in render pass"
  else
    when (negb (is_recording c)) start_recording;;
    (* make sure we are not keeping any texture from the previous pass *)
    modify_ctx (set_last_vert_texture_count (-1));;   (* ~0 *)
    modify_ctx (set_last_frag_texture_count (-1));;
    vt ← clear_samplers (vertex_textures c);
    ft ← clear_samplers (fragment_textures c);
    modify_ctx (set_vertex_textures vt);;
    modify_ctx (set_fragment_textures ft);;
    c ← get_ctx;
    rt ← load (render_target c);
    let ds := depth_stencil_surface (record c) in
    emit (CmdBeginRenderPass (render_cmd c) (current_render_pass c)
            (current_framebuffer c) (width rt) (height rt)
            (backgroundDepth ds)
            (Z.land (control_content ds) (stencil_bits ext)));;
    (* create and update the rendertarget descriptor set *)
    fr ← frame;
    set ← allocateDescriptorSets (descriptor_pool fr)
            (attachments_layout (state c));
    modify_ctx (set_rendertarget_set set);;
    color ← deref (current_color_attachment c);
    emit (UpdateDescriptorSets
            (if use_mask_bit (features (state c)) then 2 else 1)
            set (view color) (mask_view rt));;
    modify_ctx (set_refresh_pipeline true);;
    modify_ctx (set_current_pipeline null_handle);;
    modify_ctx (set_in_renderpass true).

Definition stop_render_pass : M unit :=
  c ← get_ctx;
  if negb (in_renderpass c) then
    LOG_ERROR "Stopping render pass while not in render pass"
  else
    emit (CmdEndRenderPass (render_cmd c));;
    modify_ctx (set_in_renderpass false).

(** [request_queue.push(r)]. *)
Definition push_request (r : WaitThreadRequest) : M unit :=
  modify_ctx (fun c => set_request_queue (queue_push r (request_queue c)) c).

(** [frame().rendered_fences.push_back(fence)]. *)
Definition push_rendered_fence (fence : Handle) : M unit :=
  fr ← frame;
  modify_ctx (fun c =>
    set_frames (<[current_frame_idx c :=
                   set_rendered_fences (rendered_fences fr ++ [fence]) fr]>
                (frames c)) c).

Definition do_perform_surface_sync : M (option Handle) :=
  h ← history;
  let r := perform_surface_sync ext h in
  emit (PerformSurfaceSync r);;
  mret r.

Definition stop_recording (notif1 notif2 : SceGxmNotification) : M unit :=
  c ← get_ctx;
  if negb (is_recording c) then
    LOG_ERROR "Stopping recording while not recording"
  else
    (* do this before ending the render pass *)
    when (is_in_query c)
      (vb ← deref (current_visibility_buffer c);
       emit (CmdEndQuery (render_cmd c) (query_pool vb) (current_query_idx c));;
       modify_ctx (set_is_in_query false));;
    when (in_renderpass c) stop_render_pass;;
    when (negb (visibility_max_used_idx c =? -1))
      (vb ← deref (current_visibility_buffer c);
       emit (CmdCopyQueryPoolResults (render_cmd c) (query_pool vb) 0
               (visibility_max_used_idx c + 1) (gpu_buffer vb)
               (buffer_offset vb));;
       modify_ctx (set_visibility_max_used_idx (-1)));;
    surface_info ←
      (if support_memory_mapping (features (state c))
          && negb (disable_surface_sync (state c))
       then do_perform_surface_sync
       else mret None);
    emit (CmdEnd (prerender_cmd c));;
    emit (CmdEnd (render_cmd c));;
    let rtp := render_target c in
    rt ← load rtp;
    fence ← index (fences rt) (fence_idx rt);
    modify_target rtp (fun rt => set_fence_idx (S (fence_idx rt)) rt);;
    rt ← load rtp;
    when (fence_idx rt =? length (fences rt))%nat
      (modify_target rtp (set_fence_idx 0%nat));;
    (* the prerender cmd must be submitted before the render cmd *)
    emit (QueueSubmit [prerender_cmd c; render_cmd c] fence);;
    push_rendered_fence fence;;
    when (support_memory_mapping (features (state c)))
      ((* send it to the wait queue *)
       push_request (NotificationRequest (notif1, notif2) fence);;
       match surface_info with
       | Some info => push_request (PostSurfaceSyncRequest info)
       | None => mret tt
       end);;
    rt ← load rtp;
    when (multisample_mode rt && negb (downscale (color_surface (record c))))
      ((* revert changes made in set_context *)
       modify_target rtp (fun rt => set_width (width rt / 2) rt);;
       modify_target rtp (fun rt => set_height (height rt / 2) rt));;
    modify_ctx (set_render_cmd null_handle);;
    modify_ctx (set_prerender_cmd null_handle);;
    modify_ctx (set_is_recording false).

(** ** The context binder *)

(** [x *= 2] on a render-target dimension: the product wraps to the
    width of the field's unsigned type. *)
Definition double_extent (x : Z) : Z := (x * 2) mod 2 ^ extent_bits ext.

Definition modify_record (f : GxmRecordState -> GxmRecordState) : M unit :=
  modify_ctx (fun c => set_record (f (record c)) c).

Definition set_context (rt : option nat) (features_arg : FeatureState)
  : M unit :=
  c ← get_ctx;
  modify_ctx (set_render_target
                (match rt with
                 | Some _ => rt
                 | None => current_render_target c
                 end));;
  c ← get_ctx;
  let rt := render_target c in
  modify_ctx (set_scene_timestamp ((scene_timestamp c + 1) mod 2 ^ 64));;
  let surface := color_surface (record c) in
  (* set these values for the pipeline cache *)
  modify_record (set_color_base_format
                   (get_base_format ext (colorFormat surface)));;
  modify_record (set_is_gamma_corrected (negb (gamma surface =? 0)));;
  c ← get_ctx;
  let vk_format := translate_format ext (color_base_format (record c)) in
  let vk_format :=
    if negb (gamma surface =? 0) && (vk_format =? eR8G8B8A8Unorm)
    then eR8G8B8A8Srgb else vk_format in
  fin ←
    (if data surface =? 0 then
       (* set back default values *)
       modify_record (fun r =>
         set_color_surface (set_downscale false (color_surface r)) r);;
       modify_record (set_is_gamma_corrected false);;
       modify_record (set_is_maskupdate false);;
       modify_record (set_color_base_format
                        (SCE_GXM_COLOR_BASE_FORMAT_U8U8U8U8 ext));;
       mret (true, eR8G8B8A8Unorm)
     else mret (false, vk_format)) : M (bool * Z);
  let color_is_null : bool := fst fin in
  let vk_format : Z := snd fin in
  c ← get_ctx;
  target ← load rt;
  when (multisample_mode target
        && negb (downscale (color_surface (record c))))
    ((* using MSAA without downscaling: multiply the width and height of
        the render target by 2 *)
     modify_target rt (fun t => set_width (double_extent (width t)) t);;
     modify_target rt (fun t => set_height (double_extent (height t)) t));;
  let ds := depth_stencil_surface (record c) in
  let ds_is_null : bool := (depthData ds =? 0) && (stencilData ds =? 0) in
  emit (SetRenderTarget rt);;
  start_recording;;
  c ← get_ctx;
  h ← history;
  let zls := zlsControl (depth_stencil_surface (record c)) in
  let pass := retrieve_render_pass ext h vk_format zls in
  emit (RetrieveRenderPass vk_format zls pass);;
  modify_ctx (set_current_render_pass pass);;
  c ← get_ctx;
  target ← load rt;
  h ← history;
  (* the two surface pointers are null or point into [context.record] *)
  let color_surface_fin :=
    if color_is_null then None else Some (color_surface (record c)) in
  let ds_surface_fin :=
    if ds_is_null then None else Some (depth_stencil_surface (record c)) in
  let found :=
    retrieve_framebuffer_handle ext h color_surface_fin ds_surface_fin
      (current_render_pass c)
      (current_color_attachment c, current_ds_attachment c,
       current_framebuffer_height c)
      (width target) (height target) in
  emit (RetrieveFramebufferHandle color_surface_fin ds_surface_fin
          (current_render_pass c) (width target) (height target)
          (fst found));;
  modify_ctx (set_current_color_attachment (fst (fst (snd found))));;
  modify_ctx (set_current_ds_attachment (snd (fst (snd found))));;
  modify_ctx (set_current_framebuffer_height (snd (snd found)));;
  modify_ctx (set_current_framebuffer (fst found));;
  when (use_mask_bit (features (state c))) (emit SyncMask);;
  start_render_pass.

End RenderThread.

(** ** The fence-wait / notification dispatcher *)

(** The state of the dispatcher thread: its local vector [fences], guest
    memory, [last_frame_waited], and what it has done so far.

    [mem] keeps, for a guest address, the value last stored through a
    notification pointer to that address.  The pointee type of
    [SceGxmNotification::address], and with it the width of such a store,
    is declared outside this file: a store is one cell at its address, and
    [mem] says nothing about the bytes next to it.  Nor does it say what
    [perform_post_surface_sync], which is handed the guest memory, does to
    it: that call is an event of the trace only. *)
Record WaitThread := {
  pending_fences : list Handle;
  mem : gmap Z Z;
  last_frame_waited : Z;
  wait_trace : list WaitEvent;
}.

Definition eta_WaitThread (x : WaitThread) :=
  Build_WaitThread (pending_fences x) (mem x) (last_frame_waited x) (wait_trace x).

Definition set_pending_fences : list Handle -> WaitThread -> WaitThread :=
  ltac:(setter eta_WaitThread pending_fences).
Definition set_mem : gmap Z Z -> WaitThread -> WaitThread :=
  ltac:(setter eta_WaitThread mem).
Definition set_last_frame_waited : Z -> WaitThread -> WaitThread :=
  ltac:(setter eta_WaitThread last_frame_waited).
Definition set_wait_trace : list WaitEvent -> WaitThread -> WaitThread :=
  ltac:(setter eta_WaitThread wait_trace).

Definition did (e : WaitEvent) (st : WaitThread) : WaitThread :=
  set_wait_trace (wait_trace st ++ [e]) st.

(** [*n.address.get(mem) = n.value], guarded by [if (n.address)]: one
    store through the notification's pointer, kept as the cell at its
    address. *)
Definition deliver (n : SceGxmNotification) (st : WaitThread) : WaitThread :=
  if address n =? 0 then st
  else did (GuestWrite (address n) (value n))
           (set_mem (<[address n := value n]> (mem st)) st).

Section Dispatcher.
Context (ext : Externals).

(** The lambda [wait_for_fences].  The boolean tells whether the thread
    goes on.

    Modelled from the spec: the [assert] macro (from a system header;
    what it expands to is fixed by the build).  "A wait failure is a
    fatal protocol error, reported and treated as an assertion
    violation", "reported as a hard assertion failure": a failed wait
    ends the dispatcher at the [assert(false)]. *)
Definition wait_for_fences (st : WaitThread) : WaitThread * bool :=
  match pending_fences st with
  | [] => (st, true)
  | _ :: _ =>
    let result :=
      wait_for_fences_result ext (wait_trace st) (pending_fences st) in
    let st := did (WaitForFences (pending_fences st) result) st in
    if negb (result =? eSuccess) then
      (did AssertFailed (did (WaitLogError "Could not wait for fences.") st),
       false)
    else
      (* don't reset them *)
      (set_pending_fences [] st, true)
  end.

(** The three alternatives of the [std::visit]. *)
Definition handle_request (r : WaitThreadRequest) (st : WaitThread)
  : WaitThread * bool :=
  match r with
  | NotificationRequest (n0, n1) fence =>
    let st := set_pending_fences (pending_fences st ++ [fence]) st in
    if negb (address n0 =? 0) || negb (address n1 =? 0) then
      let (st, ok) := wait_for_fences st in
      if ok then
        let st := did LockNotificationMutex st in
        let st := deliver n0 st in
        let st := deliver n1 st in
        (* unlocking before a notify should be faster *)
        let st := did UnlockNotificationMutex st in
        (did NotifyAllNotificationReady st, true)
      else (st, false)
    else (st, true)
  | FrameDoneRequest ts =>
    let (st, ok) := wait_for_fences st in
    if ok then
      let st := did LockNewFrameMutex st in
      let st := did (SetLastFrameWaited ts) (set_last_frame_waited ts st) in
      let st := did UnlockNewFrameMutex st in
      (did NotifyOneNewFrame st, true)
    else (st, false)
  | PostSurfaceSyncRequest info =>
    let (st, ok) := wait_for_fences st in
    if ok then (did (PerformPostSurfaceSync info) st, true)
    else (st, false)
  end.

(** The [while (true)] loop: pop, stop when the queue is closed, visit.
    The two cases are those of [queue_pop] (see [wait_thread_loop_pop]). *)
Fixpoint wait_thread_loop (q : Queue) (st : WaitThread) : WaitThread * bool :=
  match q with
  | [] => (st, true)
  | r :: q' =>
    let (st', ok) := handle_request r st in
    if ok then wait_thread_loop q' st' else (st', false)
  end.

(** [wait_thread_function]: the local vector starts empty. *)
Definition wait_thread_function (q : Queue) (st : WaitThread)
  : WaitThread * bool :=
  wait_thread_loop q (set_pending_fences [] st).

End Dispatcher.

(** ** A concrete configuration

    A 16-bit extent, the GXM and Vulkan constants at their usual values, a
    render target pre-sized for two scenes per frame and two in-flight
    frames.  Used to run the functions on concrete inputs. *)

Definition example_ext : Externals := {|
  extent_bits := 16;
  stencil_bits := 255;
  SCE_GXM_COLOR_BASE_FORMAT_U8U8U8U8 := 0;
  SCE_GXM_TWO_SIDED_ENABLED := 1;
  get_base_format := fun f => Z.land f 520093696;   (* 0x1F000000 *)
  translate_format := fun b => if b =? 0 then eR8G8B8A8Unorm else 97;
  retrieve_render_pass := fun _ fmt _ => 1000 + fmt;
  retrieve_framebuffer_handle := fun _ color _ _ _ _ h =>
    (2000, (Some {| view := 2001 |}, Some {| view := 2002 |}, h));
  perform_surface_sync := fun h => if Nat.even (length h) then Some 3000 else None;
  wait_for_fences_result := fun _ _ => eSuccess;
|}.

Definition example_target : VKRenderTarget := {|
  multisample_mode := true;
  width := 960;
  height := 544;
  mask_view := 50;
  cmd_buffers := [[10; 11]; [12; 13]];
  pre_cmd_buffers := [[20; 21]; [22; 23]];
  fences := [30; 31];
  fence_idx := 0;
  cmd_buffer_idx := 0;
  last_used_frame := 0;
|}.

Definition example_frame (n : Z) : FrameObject := {|
  render_pool := 60 + n;
  prerender_pool := 70 + n;
  descriptor_pool := 80 + n;
  rendered_fences := [];
|}.

Definition example_context : VKContext := {|
  state := {| features := {| use_mask_bit := true;
                             support_memory_mapping := true |};
              disable_surface_sync := false;
              attachments_layout := 90 |};
  record := {| color_surface := {| colorFormat := 0; gamma := 0;
                                   data := 4096; downscale := false |};
               depth_stencil_surface := {| zlsControl := 3; depthData := 8192;
                                           stencilData := 0;
                                           backgroundDepth := 1065353216;
                                           control_content := 511 |};
               color_base_format := 0;
               is_gamma_corrected := false;
               is_maskupdate := true;
               two_sided := 0 |};
  render_target := None;
  current_render_target := Some 7%nat;
  scene_timestamp := 0;
  frame_timestamp := 1;
  current_frame_idx := 0;
  frames := [example_frame 0; example_frame 1];
  is_recording := false;
  in_renderpass := false;
  render_cmd := null_handle;
  prerender_cmd := null_handle;
  viewport := 1;
  scissor := 2;
  current_render_pass := null_handle;
  current_framebuffer := null_handle;
  current_color_attachment := None;
  current_ds_attachment := None;
  current_framebuffer_height := 0;
  last_vert_texture_count := 0;
  last_frag_texture_count := 0;
  vertex_textures := replicate 16 5;
  fragment_textures := replicate 16 6;
  rendertarget_set := null_handle;
  refresh_pipeline := false;
  current_pipeline := null_handle;
  is_in_query := false;
  current_visibility_buffer := None;
  current_query_idx := 0;
  visibility_max_used_idx := -1;
  request_queue := [];
|}.

Definition example_world : World := {|
  ctx := example_context;
  targets := {[ 7%nat := example_target ]};
  next_handle := 100;
  has_happened := false;
  trace := [];
|}.

(** ** Vocabulary of the statements

    What the theorems below say about a call is written with the
    following functions of the state the call starts from. *)

Section Vocabulary.
Context (ext : Externals).

(** The command-buffer index a recording session starts from: zero in a
    new frame. *)
Definition scene_base (c : VKContext) (rt : VKRenderTarget) : nat :=
  if last_used_frame rt =? frame_timestamp c then cmd_buffer_idx rt
  else 0%nat.

(** The render target after its pools have grown by the handles [h],
    [h + 1] and [h + 2]. *)
Definition grown (c : VKContext) (h : Handle) (rt : VKRenderTarget)
  : VKRenderTarget :=
  set_fences (vector_insert (fence_idx rt) (h + 2) (fences rt))
    (set_pre_cmd_buffers
       (push_back_at (current_frame_idx c) (h + 1) (pre_cmd_buffers rt))
       (set_cmd_buffers
          (push_back_at (current_frame_idx c) h (cmd_buffers rt)) rt)).

(** The calls made while the pools grow. *)
Definition growth_events (c : VKContext) (h : Handle) (happened : bool)
  : list Event :=
  match frames c !! current_frame_idx c with
  | Some fr =>
    (if happened then []
     else [LogWarn "Render Target is using more scenes per frame than what was planned!"]) ++
    [AllocateCommandBuffers (render_pool fr) 1 h;
     AllocateCommandBuffers (prerender_pool fr) 1 (h + 1);
     CreateFence (h + 2)]
  | None => []
  end.

(** The calls that begin the two command buffers and set the dynamic
    state. *)
Definition begin_events (c : VKContext) (cmd pre : Handle) : list Event :=
  [CmdBegin cmd; CmdBegin pre; CmdSetViewport cmd (viewport c);
   CmdSetScissor cmd (scissor c); SyncDepthBias; SyncPointLineWidth true;
   SyncStencilFunc false] ++
  (if two_sided (record c) =? SCE_GXM_TWO_SIDED_ENABLED ext
   then [SyncStencilFunc true] else []).

(** A texture array whose first 16 samplers are null. *)
Definition cleared (v : list Handle) : list Handle :=
  replicate 16 null_handle ++ drop 16 v.

(** The calls [stop_recording] makes before it ends the command
    buffers. *)
Definition end_query_events (c : VKContext) : list Event :=
  if is_in_query c then
    match current_visibility_buffer c with
    | Some vb =>
      [CmdEndQuery (render_cmd c) (query_pool vb) (current_query_idx c)]
    | None => []
    end
  else [].

Definition end_render_pass_events (c : VKContext) : list Event :=
  if in_renderpass c then [CmdEndRenderPass (render_cmd c)] else [].

Definition copy_query_events (c : VKContext) : list Event :=
  if visibility_max_used_idx c =? -1 then []
  else
    match current_visibility_buffer c with
    | Some vb =>
      [CmdCopyQueryPoolResults (render_cmd c) (query_pool vb) 0
         (visibility_max_used_idx c + 1) (gpu_buffer vb) (buffer_offset vb)]
    | None => []
    end.

Definition surface_sync_events (c : VKContext) (info : option Handle)
  : list Event :=
  if support_memory_mapping (features (state c))
     && negb (disable_surface_sync (state c))
  then [PerformSurfaceSync info] else [].

(** The requests [stop_recording] sends to the wait queue. *)
Definition wait_requests (c : VKContext) (n1 n2 : SceGxmNotification)
    (fence : Handle) (info : option Handle) : list WaitThreadRequest :=
  if support_memory_mapping (features (state c)) then
    NotificationRequest (n1, n2) fence ::
    match info with
    | Some i => [PostSurfaceSyncRequest i]
    | None => []
    end
  else [].

(** The fence index after one more fence has been used. *)
Definition ring_advance (rt : VKRenderTarget) : nat :=
  if (S (fence_idx rt) =? length (fences rt))%nat then 0%nat
  else S (fence_idx rt).

(** Whether the scene is rendered at twice the size of the target. *)
Definition upscaled (c : VKContext) (rt : VKRenderTarget) : bool :=
  multisample_mode rt && negb (downscale (color_surface (record c))).

(** The render target [set_context] binds: the one given, or the
    current one. *)
Definition bound_target (rt : option nat) (c : VKContext) : option nat :=
  match rt with
  | Some _ => rt
  | None => current_render_target c
  end.

(** Whether the configured color surface has no backing memory. *)
Definition color_is_null (r : GxmRecordState) : bool :=
  data (color_surface r) =? 0.

(** The format [set_context] asks the render pass for. *)
Definition scene_format (r : GxmRecordState) : Z :=
  if color_is_null r then eR8G8B8A8Unorm
  else
    let f := translate_format ext
               (get_base_format ext (colorFormat (color_surface r))) in
    if negb (gamma (color_surface r) =? 0) && (f =? eR8G8B8A8Unorm)
    then eR8G8B8A8Srgb else f.

(** The record [set_context] leaves. *)
Definition scene_record (r : GxmRecordState) : GxmRecordState :=
  if color_is_null r then
    set_color_base_format (SCE_GXM_COLOR_BASE_FORMAT_U8U8U8U8 ext)
      (set_is_maskupdate false
         (set_is_gamma_corrected false
            (set_color_surface (set_downscale false (color_surface r)) r)))
  else
    set_is_gamma_corrected (negb (gamma (color_surface r) =? 0))
      (set_color_base_format
         (get_base_format ext (colorFormat (color_surface r))) r).

(** The render target with both dimensions doubled. *)
Definition doubled (rt : VKRenderTarget) : VKRenderTarget :=
  set_height (double_extent ext (height rt))
    (set_width (double_extent ext (width rt)) rt).

(** The surface pointers handed to the framebuffer lookup. *)
Definition color_surface_fin (r0 r : GxmRecordState)
  : option SceGxmColorSurface :=
  if color_is_null r0 then None else Some (color_surface r).

Definition ds_surface_fin (r0 r : GxmRecordState)
  : option SceGxmDepthStencilSurface :=
  if (depthData (depth_stencil_surface r0) =? 0)
     && (stencilData (depth_stencil_surface r0) =? 0)
  then None else Some (depth_stencil_surface r).

End Vocabulary.

(** The world after an error has been logged and nothing else done. *)
Definition log_error (msg : string) (w : World) : World :=
  set_trace (trace w ++ [LogError msg]) w.

(** Classes of events. *)
Definition is_submit (e : Event) : bool :=
  match e with QueueSubmit _ _ => true | _ => false end.

Definition is_cache_lookup (e : Event) : bool :=
  match e with
  | RetrieveRenderPass _ _ _ | RetrieveFramebufferHandle _ _ _ _ _ _ => true
  | _ => false
  end.

(** The calls [set_context] makes itself, and none of the four
    recording functions does. *)
Definition is_scene_setup (e : Event) : bool :=
  match e with
  | SetRenderTarget _ | SyncMask => true
  | _ => is_cache_lookup e
  end.

Definition is_surface_sync (e : Event) : bool :=
  match e with PerformSurfaceSync _ => true | _ => false end.

Definition is_begin_render_pass (e : Event) : bool :=
  match e with CmdBeginRenderPass _ _ _ _ _ _ _ => true | _ => false end.

(** What the four recording functions leave alone in the context. *)
Definition same_binding (c c' : VKContext) : Prop :=
  state c' = state c /\ record c' = record c /\
  render_target c' = render_target c /\
  current_render_target c' = current_render_target c /\
  scene_timestamp c' = scene_timestamp c /\
  frame_timestamp c' = frame_timestamp c /\
  current_frame_idx c' = current_frame_idx c.

(** What the render-pass functions, and the recording functions apart
    from the un-doubling, leave alone in a render target. *)
Definition same_extent (rt rt' : VKRenderTarget) : Prop :=
  multisample_mode rt' = multisample_mode rt /\
  width rt' = width rt /\ height rt' = height rt /\
  mask_view rt' = mask_view rt.

(** The pools of a render target. *)
Definition same_pools (rt rt' : VKRenderTarget) : Prop :=
  cmd_buffers rt' = cmd_buffers rt /\
  pre_cmd_buffers rt' = pre_cmd_buffers rt /\
  fences rt' = fences rt.

(** ** Vocabulary for the dispatcher *)

(** The fences the thread has seen signaled: those of its successful
    waits, in order. *)
Definition signaled (tr : list WaitEvent) : list Handle :=
  flat_map (fun e => match e with
                     | WaitForFences fs r => if r =? eSuccess then fs else []
                     | _ => []
                     end) tr.

(** The fences the requests of a queue carry, in order. *)
Definition fences_of (q : Queue) : list Handle :=
  flat_map (fun r => match r with
                     | NotificationRequest _ fence => [fence]
                     | _ => []
                     end) q.

(** The guest write a notification asks for, if it has an address. *)
Definition writes (n : SceGxmNotification) : list WaitEvent :=
  if address n =? 0 then [] else [GuestWrite (address n) (value n)].

Definition store (n : SceGxmNotification) (m : gmap Z Z) : gmap Z Z :=
  if address n =? 0 then m else <[address n := value n]> m.

(** Whether handling a request starts with a flush of the batch. *)
Definition flushes (r : WaitThreadRequest) : bool :=
  match r with
  | NotificationRequest (n0, n1) _ =>
    negb (address n0 =? 0) || negb (address n1 =? 0)
  | _ => true
  end.

(** What handling a request does once the batch is flushed. *)
Definition effects_of (r : WaitThreadRequest) : list WaitEvent :=
  match r with
  | NotificationRequest (n0, n1) _ =>
    if flushes r then
      [LockNotificationMutex] ++ writes n0 ++ writes n1 ++
      [UnlockNotificationMutex; NotifyAllNotificationReady]
    else []
  | FrameDoneRequest ts =>
    [LockNewFrameMutex; SetLastFrameWaited ts; UnlockNewFrameMutex;
     NotifyOneNewFrame]
  | PostSurfaceSyncRequest info => [PerformPostSurfaceSync info]
  end.

(** The events of a failed wait on the batch [fs]. *)
Definition failed_wait (fs : list Handle) (result : Z) : list WaitEvent :=
  [WaitForFences fs result; WaitLogError "Could not wait for fences.";
   AssertFailed].

(** Side effects visible outside the thread. *)
Definition is_side_effect (e : WaitEvent) : bool :=
  match e with
  | GuestWrite _ _ | NotifyAllNotificationReady | SetLastFrameWaited _
  | NotifyOneNewFrame | PerformPostSurfaceSync _ => true
  | _ => false
  end.

(** The state in which a request meets the flush: its fence joins the
    batch first. *)
Definition batched (r : WaitThreadRequest) (st : WaitThread) : WaitThread :=
  set_pending_fences (pending_fences st ++ fences_of [r]) st.

(** The state after the effects of a request. *)
Definition effected (r : WaitThreadRequest) (st : WaitThread) : WaitThread :=
  set_wait_trace (wait_trace st ++ effects_of r)
    match r with
    | NotificationRequest (n0, n1) _ =>
      if flushes r then set_mem (store n1 (store n0 (mem st))) st else st
    | FrameDoneRequest ts => set_last_frame_waited ts st
    | PostSurfaceSyncRequest _ => st
    end.


(** Whether a request is a notification request without any address. *)
Definition only_batched (r : WaitThreadRequest) : bool := negb (flushes r).

(** ** Scenes *)

(** One scene as the renderer drives it: [set_context], then (after the
    draw calls, which are not in this file) [stop_recording]. *)
Definition scene (ext : Externals) (rt : option nat) (features : FeatureState)
    (notif1 notif2 : SceGxmNotification) : M unit :=
  set_context ext rt features;;
  stop_recording ext notif1 notif2.

(** [n] scenes in a row. *)
Fixpoint scenes (ext : Externals) (rt : option nat) (features : FeatureState)
    (notif1 notif2 : SceGxmNotification) (n : nat) : M unit :=
  match n with
  | O => mret tt
  | S n =>
    scene ext rt features notif1 notif2;;
    scenes ext rt features notif1 notif2 n
  end.

Definition is_warning (e : Event) : bool :=
  match e with LogWarn _ => true | _ => false end.

(** ** Concrete runs *)

(** The world a computation leaves ([w] itself where it is undefined). *)
Definition run {A} (m : M A) (w : World) : World :=
  match m w with
  | Some (_, w') => w'
  | None => w
  end.

Definition example_features : FeatureState :=
  {| use_mask_bit := true; support_memory_mapping := true |}.

(** A notification without an address, and two with one. *)
Definition no_notification : SceGxmNotification := {| address := 0; value := 0 |}.
Definition notification_a : SceGxmNotification := {| address := 4096; value := 1 |}.
Definition notification_b : SceGxmNotification := {| address := 4100; value := 2 |}.

(** One scene: bind the current render target, record, submit. *)
Definition example_scene : M unit :=
  set_context example_ext None example_features;;
  stop_recording example_ext notification_a no_notification.

(** The example world with its render target bound, between two scenes. *)
Definition example_bound_world : World :=
  set_ctx (set_render_target (Some 7%nat) example_context) example_world.

(** The example world inside a scene: recording, in a render pass. *)
Definition example_recording_world : World :=
  run (set_context example_ext None example_features) example_world.

(** The example world after two scenes of the same frame. *)
Definition example_world_after_two : World :=
  run example_scene (run example_scene example_world).

(** A render target as wide as half the range of its width field. *)
Definition example_wide_world : World :=
  set_targets {[ 7%nat := set_width 32768 example_target ]} example_world.

(** The example world with memory mapping unsupported, inside a scene. *)
Definition example_unmapped_world : World :=
  let w := example_recording_world in
  set_ctx {| state := {| features := {| use_mask_bit := true;
                                        support_memory_mapping := false |};
                         disable_surface_sync := false;
                         attachments_layout := 90 |};
             record := record (ctx w);
             render_target := render_target (ctx w);
             current_render_target := current_render_target (ctx w);
             scene_timestamp := scene_timestamp (ctx w);
             frame_timestamp := frame_timestamp (ctx w);
             current_frame_idx := current_frame_idx (ctx w);
             frames := frames (ctx w);
             is_recording := is_recording (ctx w);
             in_renderpass := in_renderpass (ctx w);
             render_cmd := render_cmd (ctx w);
             prerender_cmd := prerender_cmd (ctx w);
             viewport := viewport (ctx w);
             scissor := scissor (ctx w);
             current_render_pass := current_render_pass (ctx w);
             current_framebuffer := current_framebuffer (ctx w);
             current_color_attachment := current_color_attachment (ctx w);
             current_ds_attachment := current_ds_attachment (ctx w);
             current_framebuffer_height := current_framebuffer_height (ctx w);
             last_vert_texture_count := last_vert_texture_count (ctx w);
             last_frag_texture_count := last_frag_texture_count (ctx w);
             vertex_textures := vertex_textures (ctx w);
             fragment_textures := fragment_textures (ctx w);
             rendertarget_set := rendertarget_set (ctx w);
             refresh_pipeline := refresh_pipeline (ctx w);
             current_pipeline := current_pipeline (ctx w);
             is_in_query := is_in_query (ctx w);
             current_visibility_buffer := current_visibility_buffer (ctx w);
             current_query_idx := current_query_idx (ctx w);
             visibility_max_used_idx := visibility_max_used_idx (ctx w);
             request_queue := request_queue (ctx w) |} w.

(** The example world with a color surface without backing memory. *)
Definition example_null_color_world : World :=
  set_ctx
    (set_record
       (set_color_surface
          {| colorFormat := 0; gamma := 1; data := 0; downscale := true |}
          (record example_context))
       example_context)
    example_world.

(** A dispatcher thread at its start. *)
Definition example_thread : WaitThread :=
  {| pending_fences := []; mem := ∅; last_frame_waited := 0; wait_trace := [] |}.

(** A dispatcher whose waits fail. *)
Definition failing_ext : Externals :=
  {| extent_bits := 16;
     stencil_bits := 255;
     SCE_GXM_COLOR_BASE_FORMAT_U8U8U8U8 := 0;
     SCE_GXM_TWO_SIDED_ENABLED := 1;
     get_base_format := get_base_format example_ext;
     translate_format := translate_format example_ext;
     retrieve_render_pass := retrieve_render_pass example_ext;
     retrieve_framebuffer_handle := retrieve_framebuffer_handle example_ext;
     perform_surface_sync := perform_surface_sync example_ext;
     wait_for_fences_result := fun _ _ => 1 |}.

(** The example world with a gamma-corrected color surface. *)
Definition example_gamma_world : World :=
  set_ctx
    (set_record
       (set_color_surface
          {| colorFormat := 0; gamma := 1; data := 4096; downscale := false |}
          (record example_context))
       example_context)
    example_world.

(** The example world inside a scene with a query open and results to
    copy. *)
Definition example_query_world : World :=
  let w := example_recording_world in
  set_ctx {| state := state (ctx w);
             record := record (ctx w);
             render_target := render_target (ctx w);
             current_render_target := current_render_target (ctx w);
             scene_timestamp := scene_timestamp (ctx w);
             frame_timestamp := frame_timestamp (ctx w);
             current_frame_idx := current_frame_idx (ctx w);
             frames := frames (ctx w);
             is_recording := is_recording (ctx w);
             in_renderpass := in_renderpass (ctx w);
             render_cmd := render_cmd (ctx w);
             prerender_cmd := prerender_cmd (ctx w);
             viewport := viewport (ctx w);
             scissor := scissor (ctx w);
             current_render_pass := current_render_pass (ctx w);
             current_framebuffer := current_framebuffer (ctx w);
             current_color_attachment := current_color_attachment (ctx w);
             current_ds_attachment := current_ds_attachment (ctx w);
             current_framebuffer_height := current_framebuffer_height (ctx w);
             last_vert_texture_count := last_vert_texture_count (ctx w);
             last_frag_texture_count := last_frag_texture_count (ctx w);
             vertex_textures := vertex_textures (ctx w);
             fragment_textures := fragment_textures (ctx w);
             rendertarget_set := rendertarget_set (ctx w);
             refresh_pipeline := refresh_pipeline (ctx w);
             current_pipeline := current_pipeline (ctx w);
             is_in_query := true;
             current_visibility_buffer :=
               Some {| query_pool := 40; gpu_buffer := 41; buffer_offset := 64 |};
             current_query_idx := 5;
             visibility_max_used_idx := 5;
             request_queue := request_queue (ctx w) |} w.

(** The example world recording, outside a render pass. *)
Definition example_started_world : World :=
  run (start_recording example_ext) example_bound_world.

(** The example world recording, between two render passes. *)
Definition example_between_passes : World :=
  run stop_render_pass example_recording_world.

(** A surface cache whose sync always has a handle to give. *)
Definition syncing_ext : Externals :=
  {| extent_bits := 16;
     stencil_bits := 255;
     SCE_GXM_COLOR_BASE_FORMAT_U8U8U8U8 := 0;
     SCE_GXM_TWO_SIDED_ENABLED := 1;
     get_base_format := get_base_format example_ext;
     translate_format := translate_format example_ext;
     retrieve_render_pass := retrieve_render_pass example_ext;
     retrieve_framebuffer_handle := retrieve_framebuffer_handle example_ext;
     perform_surface_sync := fun _ => Some 3000;
     wait_for_fences_result := wait_for_fences_result example_ext |}.

(** * Reasoning about monadic code *)

(** ** Normalising records

    Setters are unfolded and projections of a constructor are computed;
    nothing else is touched (in particular not the finite maps). *)

Declare Reduction record_norm := cbv beta iota zeta delta [
    set_downscale set_color_surface set_color_base_format
    set_is_gamma_corrected set_is_maskupdate set_width set_height
    set_cmd_buffers set_pre_cmd_buffers set_fences set_fence_idx
    set_cmd_buffer_idx set_last_used_frame set_rendered_fences set_record
    set_render_target set_scene_timestamp set_frames set_is_recording
    set_in_renderpass set_render_cmd set_prerender_cmd
    set_current_render_pass set_current_framebuffer
    set_current_color_attachment set_current_ds_attachment
    set_current_framebuffer_height set_last_vert_texture_count
    set_last_frag_texture_count set_vertex_textures set_fragment_textures
    set_rendertarget_set set_refresh_pipeline set_current_pipeline
    set_is_in_query set_visibility_max_used_idx set_request_queue set_ctx
    set_targets set_next_handle set_has_happened set_trace
    set_pending_fences set_mem set_last_frame_waited set_wait_trace did
    queue_push
    address value colorFormat gamma data downscale zlsControl depthData
    stencilData backgroundDepth control_content color_surface
    depth_stencil_surface color_base_format is_gamma_corrected is_maskupdate
    two_sided multisample_mode width height mask_view cmd_buffers
    pre_cmd_buffers fences fence_idx cmd_buffer_idx last_used_frame
    render_pool prerender_pool descriptor_pool rendered_fences use_mask_bit
    support_memory_mapping features disable_surface_sync attachments_layout
    view query_pool gpu_buffer buffer_offset state record render_target
    current_render_target scene_timestamp frame_timestamp current_frame_idx
    frames is_recording in_renderpass render_cmd prerender_cmd viewport
    scissor current_render_pass current_framebuffer current_color_attachment
    current_ds_attachment current_framebuffer_height last_vert_texture_count
    last_frag_texture_count vertex_textures fragment_textures
    rendertarget_set refresh_pipeline current_pipeline is_in_query
    current_visibility_buffer current_query_idx visibility_max_used_idx
    request_queue ctx targets next_handle has_happened trace pending_fences
    mem last_frame_waited wait_trace ].

Declare Reduction field_norm := cbv beta iota zeta delta [
    address value colorFormat gamma data downscale zlsControl depthData
    stencilData backgroundDepth control_content color_surface
    depth_stencil_surface color_base_format is_gamma_corrected is_maskupdate
    two_sided multisample_mode width height mask_view cmd_buffers
    pre_cmd_buffers fences fence_idx cmd_buffer_idx last_used_frame
    render_pool prerender_pool descriptor_pool rendered_fences use_mask_bit
    support_memory_mapping features disable_surface_sync attachments_layout
    view query_pool gpu_buffer buffer_offset state record render_target
    current_render_target scene_timestamp frame_timestamp current_frame_idx
    frames is_recording in_renderpass render_cmd prerender_cmd viewport
    scissor current_render_pass current_framebuffer current_color_attachment
    current_ds_attachment current_framebuffer_height last_vert_texture_count
    last_frag_texture_count vertex_textures fragment_textures
    rendertarget_set refresh_pipeline current_pipeline is_in_query
    current_visibility_buffer current_query_idx visibility_max_used_idx
    request_queue ctx targets next_handle has_happened trace pending_fences
    mem last_frame_waited wait_trace ].

Ltac rnorm t := let t := eval record_norm in t in t.

Tactic Notation "rsimpl" "in" hyp(H) :=
  let T := type of H in let T' := rnorm T in change T' in H; cbn [fst snd negb] in H.

Tactic Notation "rsimpl" :=
  lazymatch goal with |- ?G => let G' := rnorm G in change G' end; cbn [fst snd negb].

(** The same, leaving the setters of the goal folded. *)
Ltac fsimpl :=
  lazymatch goal with
  | |- ?G => let G' := eval field_norm in G in change G'
  end.

(** ** Inversion of the primitives *)

Lemma bind_Some {A B} (m : M A) (k : A -> M B) w r :
  (m ≫= k) w = Some r -> exists a w1, m w = Some (a, w1) /\ k a w1 = Some r.
Proof.
  unfold mbind, M_bind. destruct (m w) as [[a w1]|]; [eauto|discriminate].
Qed.

Lemma mret_Some {A} (x a : A) w w' :
  (mret x : M A) w = Some (a, w') -> a = x /\ w' = w.
Proof. intros [= <- <-]; auto. Qed.

Lemma get_ctx_Some c w w' : get_ctx w = Some (c, w') -> c = ctx w /\ w' = w.
Proof. intros [= <- <-]; auto. Qed.

Lemma history_Some h w w' : history w = Some (h, w') -> h = trace w /\ w' = w.
Proof. intros [= <- <-]; auto. Qed.

Lemma get_has_happened_Some b w w' :
  get_has_happened w = Some (b, w') -> b = has_happened w /\ w' = w.
Proof. intros [= <- <-]; auto. Qed.

Lemma put_has_happened_Some b u w w' :
  put_has_happened b w = Some (u, w') -> w' = set_has_happened b w.
Proof. intros [= <-]; auto. Qed.

Lemma modify_ctx_Some f u w w' :
  modify_ctx f w = Some (u, w') -> w' = set_ctx (f (ctx w)) w.
Proof. intros [= <-]; auto. Qed.

Lemma emit_Some e u w w' :
  emit e w = Some (u, w') -> w' = set_trace (trace w ++ [e]) w.
Proof. intros [= <-]; auto. Qed.

Lemma fresh_handle_Some h w w' :
  fresh_handle w = Some (h, w') ->
  h = next_handle w /\ w' = set_next_handle (next_handle w + 1) w.
Proof. intros [= <- <-]; auto. Qed.

Lemma load_Some p rt w w' :
  load p w = Some (rt, w') ->
  exists a, p = Some a /\ targets w !! a = Some rt /\ w' = w.
Proof.
  unfold load. destruct p as [a|]; [|discriminate].
  destruct (targets w !! a) eqn:E; [|discriminate]. intros [= <- <-]. eauto.
Qed.

Lemma modify_target_Some p f u w w' :
  modify_target p f w = Some (u, w') ->
  exists a rt, p = Some a /\ targets w !! a = Some rt /\
               w' = set_targets (<[a := f rt]> (targets w)) w.
Proof.
  unfold modify_target. destruct p as [a|]; [|discriminate].
  destruct (targets w !! a) eqn:E; [|discriminate]. intros [= <-]. eauto.
Qed.

Lemma deref_Some {A} (p : option A) x w w' :
  deref p w = Some (x, w') -> p = Some x /\ w' = w.
Proof. destruct p; [intros [= <- <-]; auto | discriminate]. Qed.

Lemma index_Some {A} (v : list A) i x w w' :
  index v i w = Some (x, w') -> v !! i = Some x /\ w' = w.
Proof. apply deref_Some. Qed.

Lemma undefined_Some {A} (r : A * World) w : undefined w = Some r -> False.
Proof. discriminate. Qed.

Lemma lookup_push_back_at {A} i (x : A) vs :
  push_back_at i x vs !! i = (.++ [x]) <$> vs !! i.
Proof.
  unfold push_back_at. rewrite list_lookup_alter.
  destruct (decide (i = i)); congruence.
Qed.

Lemma lookup_vector_insert {A} i (x : A) v :
  (i <= length v)%nat -> vector_insert i x v !! i = Some x.
Proof.
  intros Hi. unfold vector_insert.
  rewrite lookup_app_r by (rewrite length_take; lia).
  rewrite length_take, Nat.min_l, Nat.sub_diag by lia. reflexivity.
Qed.

Lemma length_vector_insert {A} i (x : A) v :
  length (vector_insert i x v) = S (length v).
Proof.
  unfold vector_insert. rewrite length_app. cbn [length].
  rewrite Nat.add_succ_r, <- length_app, take_drop. reflexivity.
Qed.

(** ** Symbolic execution *)

Ltac tsimpl :=
  repeat first
    [ progress simplify_eq
    | match goal with
      | H : context [<[?p:=_]> _ !! ?p] |- _ => rewrite lookup_insert_eq in H
      | H : context [<[?p:=_]> (<[?p:=_]> _)] |- _ => rewrite insert_insert_eq in H
      | H : context [push_back_at ?i _ _ !! ?i] |- _ =>
          rewrite lookup_push_back_at in H
      | H1 : ?l !! ?i = Some _, H : context [_ <$> ?l !! ?i] |- _ =>
          rewrite H1 in H; cbn [fmap option_fmap option_map] in H
      end ].

(** A case distinction on [b] that reaches the goal and every hypothesis. *)
Ltac case_on b :=
  let E := fresh "Hc" in
  repeat match goal with H : context [b] |- _ => revert H end;
  destruct b eqn:E; intros.

(** The pointer [p] dereferenced in [H] is not null. *)
Ltac case_pointer p H :=
  lazymatch p with
  | Some _ => idtac
  | _ => case_on p; [| discriminate H]
  end.

(** Inversion of one primitive step [H : prim w = Some (a, w')]. *)
Ltac mprim H :=
  lazymatch type of H with
  | @mret M _ _ _ _ = Some _ => apply mret_Some in H; destruct H as [? ?]
  | get_ctx _ = Some _ => apply get_ctx_Some in H; destruct H as [? ?]
  | history _ = Some _ => apply history_Some in H; destruct H as [? ?]
  | get_has_happened _ = Some _ =>
      apply get_has_happened_Some in H; destruct H as [? ?]
  | put_has_happened _ _ = Some _ =>
      apply put_has_happened_Some in H; rsimpl in H
  | modify_ctx _ _ = Some _ => apply modify_ctx_Some in H; rsimpl in H
  | emit _ _ = Some _ => apply emit_Some in H; rsimpl in H
  | LOG_ERROR _ _ = Some _ => apply emit_Some in H; rsimpl in H
  | fresh_handle _ = Some _ =>
      let E := fresh "Hw" in
      apply fresh_handle_Some in H; destruct H as [? E]; rsimpl in E
  | load ?p _ = Some _ =>
      let a := fresh "p" in let E := fresh "Hp" in let L := fresh "Hrt" in
      case_pointer p H;
      apply load_Some in H; destruct H as (a & E & L & ?); rsimpl in L
  | modify_target ?p _ _ = Some _ =>
      let a := fresh "p" in let rt := fresh "rt" in
      let E := fresh "Hp" in let L := fresh "Hrt" in let W := fresh "Hw" in
      case_pointer p H;
      apply modify_target_Some in H; destruct H as (a & rt & E & L & W);
      rsimpl in L; rsimpl in W
  | deref ?p _ = Some _ =>
      case_on p; cbn [deref] in H;
      [ apply mret_Some in H; destruct H as [? ?]
      | destruct (undefined_Some _ _ H) ]
  | index ?v ?i _ = Some _ =>
      unfold index in H; case_on (v !! i); cbn [deref] in H;
      [ apply mret_Some in H; destruct H as [? ?]
      | destruct (undefined_Some _ _ H) ]
  | undefined _ = Some _ => destruct (undefined_Some _ _ H)
  end; tsimpl.

Ltac msplit b :=
  lazymatch b with
  | negb ?x => case_on x
  | _ => case_on b
  end; try congruence; cbn [negb when] in *.

(** A function whose specification is already proved is not unfolded:
    [mcall] is extended with one case per such function. *)
Ltac mcall H := fail.

(** Symbolic execution of [H : m w = Some r]. *)
Ltac mrun H :=
  rsimpl in H;
  first
  [ mcall H
  | lazymatch type of H with
    | (_ ≫= _) _ = Some _ =>
        let a := fresh "a" in let w := fresh "w" in let H1 := fresh "H" in
        apply bind_Some in H; destruct H as (a & w & H1 & H);
        mrun H1; mrun H
    | when ?b _ _ = Some _ => msplit b; mrun H
    | (if ?b then _ else _) _ = Some _ => msplit b; mrun H
    | (match ?o with Some _ => _ | None => _ end) _ = Some _ =>
        case_on o; tsimpl; mrun H
    | frame _ = Some _ => unfold frame in H; mrun H
    | allocateCommandBuffers _ _ = Some _ =>
        unfold allocateCommandBuffers in H; mrun H
    | createFence _ = Some _ => unfold createFence in H; mrun H
    | allocateDescriptorSets _ _ _ = Some _ =>
        unfold allocateDescriptorSets in H; mrun H
    | LOG_WARN_IF _ _ _ = Some _ => unfold LOG_WARN_IF in H; mrun H
    | push_request _ _ = Some _ => unfold push_request in H; mrun H
    | push_rendered_fence _ _ = Some _ =>
        unfold push_rendered_fence in H; mrun H
    | do_perform_surface_sync _ _ = Some _ =>
        unfold do_perform_surface_sync in H; mrun H
    | clear_samplers _ _ = Some _ => unfold clear_samplers in H; mrun H
    | modify_record _ _ = Some _ => unfold modify_record in H; mrun H
    | stop_render_pass _ = Some _ => unfold stop_render_pass in H; mrun H
    | grow_pools _ _ = Some _ => unfold grow_pools in H; mrun H
    | _ => first [ mprim H | idtac ]
    end ].

Ltac conjs := repeat match goal with |- _ /\ _ => split end.

(** Closing a path: the facts met on the path that the destructs did not
    substitute, then lists up to associativity. *)
Ltac use_conds :=
  repeat (match goal with
          | H : ?b = true |- context [if ?b then _ else _] => rewrite H
          | H : ?b = false |- context [if ?b then _ else _] => rewrite H
          end; lazy iota beta).

Ltac norm_handles :=
  rewrite <- ?Z.add_assoc; change (1 + 1) with 2; change (1 + 2) with 3.

Ltac close_field :=
  first [ assumption
        | symmetry; assumption
        | apply Z.eqb_eq; assumption
        | rewrite <- ?app_assoc, ?app_nil_r; cbn [app]; reflexivity ].

Ltac close_path :=
  rsimpl; use_conds; norm_handles;
  first [ reflexivity
        | assumption
        | rewrite <- ?app_assoc, ?app_nil_r; cbn [app]; reflexivity
        | f_equal; close_field
        | f_equal; f_equal; close_field
        | idtac ].

(** * What each function does *)


(** ** Calls out of order *)

Lemma start_recording_recording ext w :
  is_recording (ctx w) = true ->
  start_recording ext w =
  Some (tt, log_error "Attempt to start recording while already recording" w).
Proof.
  intros H. unfold start_recording, mbind, M_bind, get_ctx. rewrite H.
  reflexivity.
Qed.

Lemma start_recording_unbound ext w :
  is_recording (ctx w) = false ->
  render_target (ctx w) = None ->
  start_recording ext w =
  Some (tt, log_error "Recording started without a set command buffer" w).
Proof.
  intros H1 H2. unfold start_recording, mbind, M_bind, get_ctx.
  rewrite H1, H2. reflexivity.
Qed.

Lemma start_render_pass_in_renderpass ext w :
  in_renderpass (ctx w) = true ->
  start_render_pass ext w =
  Some (tt, log_error "Starting render pass while already in render pass" w).
Proof.
  intros H. unfold start_render_pass, mbind, M_bind, get_ctx. rewrite H.
  reflexivity.
Qed.

Lemma stop_render_pass_outside w :
  in_renderpass (ctx w) = false ->
  stop_render_pass w =
  Some (tt, log_error "Stopping render pass while not in render pass" w).
Proof.
  intros H. unfold stop_render_pass, mbind, M_bind, get_ctx. rewrite H.
  reflexivity.
Qed.

Lemma stop_recording_not_recording ext n1 n2 w :
  is_recording (ctx w) = false ->
  stop_recording ext n1 n2 w =
  Some (tt, log_error "Stopping recording while not recording" w).
Proof.
  intros H. unfold stop_recording, mbind, M_bind, get_ctx. rewrite H.
  reflexivity.
Qed.

(** ** [start_recording] *)

Lemma start_recording_spec ext w w' p :
  is_recording (ctx w) = false ->
  render_target (ctx w) = Some p ->
  start_recording ext w = Some (tt, w') ->
  let c := ctx w in
  exists rt bufs pre_bufs cmd pre,
    targets w !! p = Some rt /\
    cmd_buffers rt !! current_frame_idx c = Some bufs /\
    pre_cmd_buffers rt !! current_frame_idx c = Some pre_bufs /\
    let base := scene_base c rt in
    let grow := (base =? length bufs)%nat in
    let h := next_handle w in
    (if grow then bufs ++ [h] else bufs) !! base = Some cmd /\
    (if grow then pre_bufs ++ [h + 1] else pre_bufs) !! base = Some pre /\
    (grow = true -> (fence_idx rt <= length (fences rt))%nat) /\
    targets w' =
      <[p := set_cmd_buffer_idx (S base)
               (set_last_used_frame (frame_timestamp c)
                  (if grow then grown c h rt else rt))]> (targets w) /\
    ctx w' = set_is_recording true (set_prerender_cmd pre (set_render_cmd cmd c)) /\
    next_handle w' = (if grow then h + 3 else h) /\
    has_happened w' = (if grow then true else has_happened w) /\
    trace w' = trace w ++
               (if grow then growth_events c h (has_happened w) else []) ++
               begin_events ext c cmd pre.
Proof.
  intros Hrec Hp H c. subst c.
  unfold scene_base, grown, growth_events, begin_events.
  unfold start_recording in H. fsimpl.
  mrun H.
  all: eexists _, _, _, _, _.
  all: do 3 (split; [eassumption|]).
  all: rsimpl; use_conds.
  all: do 2 (split; [eassumption|]).
  all: split; [first [ intros _; apply Nat.leb_le; assumption | discriminate ]|].
  all: conjs; close_path.
Qed.

(** ** [stop_render_pass] *)

Lemma stop_render_pass_spec w :
  in_renderpass (ctx w) = true ->
  stop_render_pass w =
  Some (tt, set_ctx (set_in_renderpass false (ctx w))
              (set_trace (trace w ++ [CmdEndRenderPass (render_cmd (ctx w))]) w)).
Proof.
  intros H. unfold stop_render_pass, mbind, M_bind, get_ctx. rewrite H.
  reflexivity.
Qed.

(** ** [stop_recording] *)

Lemma stop_recording_spec ext n1 n2 w w' :
  is_recording (ctx w) = true ->
  stop_recording ext n1 n2 w = Some (tt, w') ->
  let c := ctx w in
  exists p rt fence fr info,
    render_target c = Some p /\
    targets w !! p = Some rt /\
    fences rt !! fence_idx rt = Some fence /\
    frames c !! current_frame_idx c = Some fr /\
    (support_memory_mapping (features (state c))
     && negb (disable_surface_sync (state c)) = false -> info = None) /\
    trace w' = trace w ++ end_query_events c ++ end_render_pass_events c ++
               copy_query_events c ++ surface_sync_events c info ++
               [CmdEnd (prerender_cmd c); CmdEnd (render_cmd c);
                QueueSubmit [prerender_cmd c; render_cmd c] fence] /\
    targets w' =
      <[p := let rt1 := set_fence_idx (ring_advance rt) rt in
             if upscaled c rt
             then set_height (height rt / 2) (set_width (width rt / 2) rt1)
             else rt1]> (targets w) /\
    ctx w' =
      set_is_recording false (set_prerender_cmd null_handle
        (set_render_cmd null_handle
          (set_request_queue
             (request_queue c ++ wait_requests c n1 n2 fence info)
          (set_frames
             (<[current_frame_idx c :=
                  set_rendered_fences (rendered_fences fr ++ [fence]) fr]>
                (frames c))
          (set_visibility_max_used_idx (-1)
          (set_in_renderpass false (set_is_in_query false c))))))) /\
    next_handle w' = next_handle w /\
    has_happened w' = has_happened w.
Proof.
  intros Hrec H c. subst c.
  unfold end_query_events, end_render_pass_events, copy_query_events,
    surface_sync_events, wait_requests, ring_advance, upscaled.
  unfold stop_recording in H. fsimpl.
  mrun H.
  all: match goal with
       | |- context [PerformSurfaceSync ?i] => eexists _, _, _, _, i
       | _ => eexists _, _, _, _, None
       end.
  all: do 4 (split; [first [eassumption | reflexivity]|]).
  all: split; [first [reflexivity | congruence]|].
  all: conjs; close_path.
Qed.

(** ** [start_render_pass] *)

Lemma clear_samplers_loop n (v : list Handle) :
  (n <= length v)%nat ->
  foldl (fun acc i => <[i := null_handle]> acc) v (seq 0 n)
  = replicate n null_handle ++ drop n v.
Proof.
  induction n as [|n IH]; intros Hn; [reflexivity|].
  rewrite seq_S, foldl_app, IH by lia. cbn [foldl Nat.add].
  rewrite insert_app_r_alt by (rewrite length_replicate; lia).
  rewrite length_replicate, Nat.sub_diag.
  destruct (drop n v) as [|x l] eqn:E.
  - apply (f_equal length) in E. rewrite length_drop in E. cbn in E. lia.
  - cbn [insert list_insert].
    replace (drop (S n) v) with l.
    + rewrite replicate_S_end, <- app_assoc. reflexivity.
    + rewrite <- (Nat.add_1_l n), Nat.add_comm, <- drop_drop, E. reflexivity.
Qed.

Lemma clear_samplers_Some v r w w' :
  clear_samplers v w = Some (r, w') ->
  (16 <= length v)%nat /\ r = cleared v /\ w' = w.
Proof.
  unfold clear_samplers. destruct (16 <=? length v)%nat eqn:E; [|discriminate].
  apply Nat.leb_le in E. intros [= <- <-].
  split; [exact E|]. split; [|reflexivity].
  apply (clear_samplers_loop 16 v E).
Qed.

Ltac mcall H ::=
  lazymatch type of H with
  | clear_samplers _ _ = Some _ =>
      apply clear_samplers_Some in H; destruct H as (? & ? & ?); tsimpl
  end.

Lemma start_render_pass_spec ext w w' :
  in_renderpass (ctx w) = false ->
  start_render_pass ext w = Some (tt, w') ->
  exists w1 p rt fr color,
    (if is_recording (ctx w) then w1 = w
     else start_recording ext w = Some (tt, w1)) /\
    render_target (ctx w1) = Some p /\
    targets w1 !! p = Some rt /\
    frames (ctx w1) !! current_frame_idx (ctx w1) = Some fr /\
    current_color_attachment (ctx w1) = Some color /\
    (16 <= length (vertex_textures (ctx w)))%nat /\
    (16 <= length (fragment_textures (ctx w)))%nat /\
    let c := ctx w1 in
    let set := next_handle w1 in
    let ds := depth_stencil_surface (record c) in
    trace w' = trace w1 ++
      [CmdBeginRenderPass (render_cmd c) (current_render_pass c)
         (current_framebuffer c) (width rt) (height rt) (backgroundDepth ds)
         (Z.land (control_content ds) (stencil_bits ext));
       AllocateDescriptorSets (descriptor_pool fr)
         (attachments_layout (state c)) set;
       UpdateDescriptorSets
         (if use_mask_bit (features (state c)) then 2 else 1)
         set (view color) (mask_view rt)] /\
    ctx w' =
      set_in_renderpass true (set_current_pipeline null_handle
        (set_refresh_pipeline true (set_rendertarget_set set
          (set_fragment_textures (cleared (fragment_textures (ctx w)))
          (set_vertex_textures (cleared (vertex_textures (ctx w)))
          (set_last_frag_texture_count (-1)
          (set_last_vert_texture_count (-1) c))))))) /\
    targets w' = targets w1 /\
    next_handle w' = set + 1 /\
    has_happened w' = has_happened w1.
Proof.
  intros Hin H. unfold start_render_pass in H. fsimpl.
  mrun H.
  all: repeat match goal with u : unit |- _ => destruct u end.
  all: eexists _, _, _, _, _.
  all: do 7 (split; [first [eassumption | reflexivity]|]).
  all: conjs; close_path.
Qed.

(** ** [set_context] *)

Lemma set_context_spec ext rt feats w w' :
  set_context ext rt feats w = Some (tt, w') ->
  let c := ctx w in
  let r := scene_record ext (record c) in
  exists p target w2 target2,
    bound_target rt c = Some p /\
    targets w !! p = Some target /\
    start_recording ext
      (set_trace (trace w ++ [SetRenderTarget (Some p)])
         (set_targets
            (<[p := if multisample_mode target
                       && negb (downscale (color_surface r))
                    then doubled ext target else target]> (targets w))
            (set_ctx
               (set_record r
                  (set_scene_timestamp ((scene_timestamp c + 1) mod 2 ^ 64)
                     (set_render_target (Some p) c))) w)))
    = Some (tt, w2) /\
    targets w2 !! p = Some target2 /\
    let c2 := ctx w2 in
    let fmt := scene_format ext (record c) in
    let zls := zlsControl (depth_stencil_surface (record c2)) in
    let pass := retrieve_render_pass ext (trace w2) fmt zls in
    let color := color_surface_fin (record c) (record c2) in
    let ds := ds_surface_fin (record c) (record c2) in
    let found :=
      retrieve_framebuffer_handle ext
        (trace w2 ++ [RetrieveRenderPass fmt zls pass]) color ds pass
        (current_color_attachment c2, current_ds_attachment c2,
         current_framebuffer_height c2)
        (width target2) (height target2) in
    start_render_pass ext
      (set_trace
         (trace w2 ++
          [RetrieveRenderPass fmt zls pass;
           RetrieveFramebufferHandle color ds pass (width target2)
             (height target2) (fst found)] ++
          (if use_mask_bit (features (state c2)) then [SyncMask] else []))
         (set_ctx
            (set_current_framebuffer (fst found)
               (set_current_framebuffer_height (snd (snd found))
                  (set_current_ds_attachment (snd (fst (snd found)))
                     (set_current_color_attachment (fst (fst (snd found)))
                        (set_current_render_pass pass c2))))) w2))
    = Some (tt, w').
Proof.
  intros H c r. subst c r.
  unfold scene_record, scene_format, color_surface_fin, ds_surface_fin,
    color_is_null, doubled, bound_target.
  unfold set_context in H. fsimpl.
  mrun H.
  all: repeat match goal with u : unit |- _ => destruct u end.
  all: eexists _, _, _, _.
  all: do 2 (split; [first [eassumption | reflexivity]|]).
  all: rsimpl; use_conds.
  all: rewrite ?insert_id by eassumption.
  all: do 2 (split; [eassumption|]).
  all: use_conds; rewrite <- ?app_assoc in H; rewrite <- ?app_assoc.
  all: exact H.
Qed.

(** ** What a call leaves alone *)

Lemma Forall_app_2 {A} (P : A -> Prop) l1 l2 :
  Forall P l1 -> Forall P l2 -> Forall P (l1 ++ l2).
Proof. intros. apply Forall_app; auto. Qed.

Ltac events :=
  repeat lazymatch goal with
  | |- Forall _ [] => apply Forall_nil_2
  | |- Forall _ (_ :: _) => apply Forall_cons_2; [repeat split; reflexivity|]
  | |- Forall _ (_ ++ _) => apply Forall_app_2
  | |- Forall _ (if ?b then _ else _) => destruct b
  | |- Forall _ (match ?o with Some _ => _ | None => _ end) => destruct o
  end.

Lemma no_setup_no_lookup e :
  is_scene_setup e = false -> is_cache_lookup e = false.
Proof. destruct e; cbn; congruence. Qed.

Lemma growth_events_no_lookup c h b :
  Forall (fun e => is_scene_setup e = false /\ is_submit e = false
                   /\ is_surface_sync e = false
                   /\ is_begin_render_pass e = false)
    (growth_events c h b).
Proof. unfold growth_events. events. Qed.

Lemma begin_events_no_lookup ext c cmd pre :
  Forall (fun e => is_scene_setup e = false) (begin_events ext c cmd pre).
Proof. unfold begin_events. events. Qed.

Lemma same_binding_refl c : same_binding c c.
Proof. repeat split. Qed.

Lemma same_extent_refl rt : same_extent rt rt.
Proof. repeat split. Qed.

Lemma log_error_frame msg w :
  ctx (log_error msg w) = ctx w /\ targets (log_error msg w) = targets w /\
  next_handle (log_error msg w) = next_handle w /\
  has_happened (log_error msg w) = has_happened w /\
  trace (log_error msg w) = trace w ++ [LogError msg].
Proof. repeat split. Qed.

(** Whatever [start_recording] does, it keeps the binding and the extent
    of every render target, keeps valid fence indices valid, and looks
    nothing up in the caches. *)
Lemma start_recording_frame ext w w' :
  start_recording ext w = Some (tt, w') ->
  same_binding (ctx w) (ctx w') /\
  in_renderpass (ctx w') = in_renderpass (ctx w) /\
  frames (ctx w') = frames (ctx w) /\
  request_queue (ctx w') = request_queue (ctx w) /\
  (render_target (ctx w) <> None -> is_recording (ctx w') = true) /\
  (forall q rt, targets w !! q = Some rt ->
     exists rt', targets w' !! q = Some rt' /\ same_extent rt rt' /\
       ((fence_idx rt < length (fences rt))%nat ->
        (fence_idx rt' < length (fences rt'))%nat)) /\
  exists evs, trace w' = trace w ++ evs /\
              Forall (fun e => is_scene_setup e = false) evs.
Proof.
  intros H.
  destruct (is_recording (ctx w)) eqn:Hrec.
  { rewrite start_recording_recording in H by assumption.
    injection H as <-. repeat split; auto.
    - intros q rt Hq. exists rt. repeat split; auto.
    - eexists; split; [reflexivity|]. events. }
  destruct (render_target (ctx w)) as [p|] eqn:Hp.
  2: { rewrite start_recording_unbound in H by assumption.
       injection H as <-. repeat split; auto.
       - intros q rt Hq. exists rt. repeat split; auto.
       - eexists; split; [reflexivity|]. events. }
  destruct (start_recording_spec _ _ _ _ Hrec Hp H)
    as (rt & bufs & pre_bufs & cmd & pre & Hrt & Hb & Hpb & Hcmd & Hpre
        & Hfence & Htg & Hctx & Hnh & Hhh & Htr).
  rewrite Hctx, Htg. repeat split.
  - intros q rt0 Hq. destruct (decide (q = p)) as [->|Hne].
    + rewrite lookup_insert_eq. eexists; split; [reflexivity|].
      assert (rt0 = rt) as -> by congruence.
      destruct (scene_base (ctx w) rt =? length bufs)%nat eqn:Hg.
      * split; [repeat split|]. cbn. rewrite length_vector_insert. lia.
      * split; [repeat split|]. cbn. auto.
    + rewrite lookup_insert_ne by congruence. exists rt0.
      repeat split; auto.
  - eexists; split; [exact Htr|].
    apply Forall_app_2; [|apply begin_events_no_lookup].
    destruct (_ =? _)%nat; [|constructor].
    eapply Forall_impl; [apply growth_events_no_lookup|]. intros e He; apply He.
Qed.

(** [start_render_pass] while recording leaves the render targets, the
    binding and the recording flag alone, and looks nothing up. *)
Lemma start_render_pass_frame ext w w' :
  is_recording (ctx w) = true ->
  start_render_pass ext w = Some (tt, w') ->
  same_binding (ctx w) (ctx w') /\
  is_recording (ctx w') = true /\
  frames (ctx w') = frames (ctx w) /\
  request_queue (ctx w') = request_queue (ctx w) /\
  current_render_pass (ctx w') = current_render_pass (ctx w) /\
  current_framebuffer (ctx w') = current_framebuffer (ctx w) /\
  targets w' = targets w /\
  exists evs, trace w' = trace w ++ evs /\
              Forall (fun e => is_scene_setup e = false) evs.
Proof.
  intros Hrec H.
  destruct (in_renderpass (ctx w)) eqn:Hin.
  { rewrite start_render_pass_in_renderpass in H by assumption.
    injection H as <-. repeat split; auto.
    eexists; split; [reflexivity|]. events. }
  destruct (start_render_pass_spec _ _ _ Hin H)
    as (w1 & p & rt & fr & color & Hw1 & Hp & Hrt & Hfr & Hcol & Hv & Hf
        & Htr & Hctx & Htg & Hnh & Hhh).
  rewrite Hrec in Hw1. subst w1.
  rewrite Hctx, Htg. repeat split; auto.
  eexists; split; [exact Htr|]. events.
Qed.

(** ** [set_context], summed up *)

Lemma set_context_summary ext rt feats w w' :
  set_context ext rt feats w = Some (tt, w') ->
  let c := ctx w in
  let r := scene_record ext (record c) in
  exists p target target' tr1 tr2 pass fb,
    bound_target rt c = Some p /\
    targets w !! p = Some target /\
    targets w' !! p = Some target' /\
    same_extent
      (if multisample_mode target && negb (downscale (color_surface r))
       then doubled ext target else target) target' /\
    ((fence_idx target < length (fences target))%nat ->
     (fence_idx target' < length (fences target'))%nat) /\
    (forall q rt0, q <> p -> targets w !! q = Some rt0 ->
       exists rt1, targets w' !! q = Some rt1 /\ same_extent rt0 rt1) /\
    state (ctx w') = state c /\
    record (ctx w') = r /\
    render_target (ctx w') = Some p /\
    current_render_target (ctx w') = current_render_target c /\
    scene_timestamp (ctx w') = (scene_timestamp c + 1) mod 2 ^ 64 /\
    frame_timestamp (ctx w') = frame_timestamp c /\
    request_queue (ctx w') = request_queue c /\
    is_recording (ctx w') = true /\
    current_render_pass (ctx w') = pass /\
    current_framebuffer (ctx w') = fb /\
    trace w' =
      trace w ++ [SetRenderTarget (Some p)] ++ tr1 ++
      [RetrieveRenderPass (scene_format ext (record c))
         (zlsControl (depth_stencil_surface r)) pass;
       RetrieveFramebufferHandle
         (color_surface_fin (record c) r) (ds_surface_fin (record c) r)
         pass (width target') (height target') fb] ++
      (if use_mask_bit (features (state c)) then [SyncMask] else []) ++
      tr2 /\
    Forall (fun e => is_scene_setup e = false) (tr1 ++ tr2).
Proof.
  intros H c r.
  destruct (set_context_spec _ _ _ _ _ H)
    as (p & target & w2 & target2 & Hp & Hrt & Hstart & Hrt2 & Hpass).
  fold c r in Hstart.
  set (w1 := set_trace _ _) in Hstart.
  destruct (start_recording_frame _ _ _ Hstart)
    as (Hb1 & Hin1 & Hfr1 & Hq1 & Hrec1 & Htg1 & evs1 & Htr1 & Hev1).
  specialize (Hrec1 ltac:(discriminate)).
  destruct Hb1 as (Hst1 & Hr1 & Hp1 & Hcur1 & Hsc1 & Hft1 & Hfi1).
  cbn zeta in Hpass.
  set (w3 := set_trace _ _) in Hpass.
  assert (is_recording (ctx w3) = true) as Hrec3 by exact Hrec1.
  destruct (start_render_pass_frame _ _ _ Hrec3 Hpass)
    as (Hb3 & Hrec' & Hfr3 & Hq3 & Hrp3 & Hfb3 & Htg3 & evs3 & Htr3 & Hev3).
  destruct Hb3 as (Hst3 & Hr3 & Hp3 & Hcur3 & Hsc3 & Hft3 & Hfi3).
  assert (targets w1 !! p = Some
            (if multisample_mode target && negb (downscale (color_surface r))
             then doubled ext target else target)) as Hrt1
    by apply lookup_insert_eq.
  destruct (Htg1 _ _ Hrt1) as (t2 & Ht2 & Hext & Hfv).
  assert (t2 = target2) as -> by congruence.
  exists p, target, target2, evs1, evs3, (current_render_pass (ctx w')),
    (current_framebuffer (ctx w')).
  split; [exact Hp|]. split; [exact Hrt|].
  split; [rewrite Htg3; exact Hrt2|].
  split; [exact Hext|].
  split.
  { intros Hv. apply Hfv. destruct (_ && _); exact Hv. }
  split.
  { intros q rt0 Hne Hq.
    assert (targets w1 !! q = Some rt0) as Hq1'
      by (unfold w1; cbn; rewrite lookup_insert_ne by congruence; exact Hq).
    destruct (Htg1 _ _ Hq1') as (rt1 & Hrt1' & He & _).
    exists rt1. rewrite Htg3. auto. }
  split; [rewrite Hst3; exact Hst1|].
  split; [rewrite Hr3; cbn; rewrite Hr1; reflexivity|].
  split; [rewrite Hp3; cbn; rewrite Hp1; reflexivity|].
  split; [rewrite Hcur3; cbn; rewrite Hcur1; reflexivity|].
  split; [rewrite Hsc3; cbn; rewrite Hsc1; reflexivity|].
  split; [rewrite Hft3; cbn; rewrite Hft1; reflexivity|].
  split; [rewrite Hq3; cbn; rewrite Hq1; reflexivity|].
  split; [exact Hrec'|].
  split; [reflexivity|]. split; [reflexivity|].
  split.
  - rewrite Htr3. unfold w3. cbn [trace set_trace].
    rewrite Htr1. unfold w1. cbn [trace set_trace].
    rewrite <- !app_assoc. cbn [app].
    rewrite Hrp3, Hfb3. unfold w3. cbn.
    rewrite Hr1, Hst1, Htr1. unfold w1. cbn.
    rewrite <- !app_assoc. reflexivity.
  - apply Forall_app_2; assumption.
Qed.

(** * The dispatcher *)

Lemma signaled_app tr1 tr2 : signaled (tr1 ++ tr2) = signaled tr1 ++ signaled tr2.
Proof. apply flat_map_app. Qed.

Lemma fences_of_app q1 q2 : fences_of (q1 ++ q2) = fences_of q1 ++ fences_of q2.
Proof. apply flat_map_app. Qed.

Lemma signaled_effects r : signaled (effects_of r) = [].
Proof.
  destruct r as [[n0 n1] f|ts|info]; cbn; try reflexivity.
  unfold writes.
  destruct (negb (address n0 =? 0) || negb (address n1 =? 0)); [|reflexivity].
  destruct (address n0 =? 0), (address n1 =? 0); reflexivity.
Qed.

Lemma effects_no_wait r :
  Forall (fun e => match e with WaitForFences _ _ => False | _ => True end)
    (effects_of r).
Proof.
  destruct r as [[n0 n1] f|ts|info]; cbn; unfold writes;
    repeat first [ destruct (negb _ || negb _) | destruct (_ =? _) ];
    repeat constructor.
Qed.

(** ** The flush *)

Lemma wait_for_fences_cases ext st :
  let batch := pending_fences st in
  let result := wait_for_fences_result ext (wait_trace st) batch in
  wait_for_fences ext st =
  match batch with
  | [] => (st, true)
  | _ :: _ =>
    if result =? eSuccess
    then (set_pending_fences []
            (set_wait_trace (wait_trace st ++ [WaitForFences batch result]) st),
          true)
    else (set_wait_trace (wait_trace st ++ failed_wait batch result) st, false)
  end.
Proof.
  unfold wait_for_fences, failed_wait, did. cbn zeta.
  destruct (pending_fences st) eqn:E; [reflexivity|].
  rewrite <- E. destruct (_ =? eSuccess); cbn [negb]; rsimpl;
    rewrite <- ?app_assoc; reflexivity.
Qed.

Lemma wait_for_fences_ok ext st st' :
  wait_for_fences ext st = (st', true) ->
  pending_fences st' = [] /\ mem st' = mem st /\
  last_frame_waited st' = last_frame_waited st /\
  exists tr, wait_trace st' = wait_trace st ++ tr /\
             signaled tr = pending_fences st /\
             Forall (fun e => is_side_effect e = false) tr.
Proof.
  rewrite wait_for_fences_cases. cbn zeta.
  destruct (pending_fences st) as [|f fs] eqn:E.
  - intros [= <-]. repeat split; auto. exists []. rewrite app_nil_r. auto.
  - destruct (_ =? eSuccess) eqn:R; intros [= <-]. repeat split.
    eexists; split; [reflexivity|]. split; [|repeat constructor].
    cbn. rewrite R, app_nil_r. reflexivity.
Qed.

Lemma wait_for_fences_failed ext st st' :
  wait_for_fences ext st = (st', false) ->
  let result := wait_for_fences_result ext (wait_trace st) (pending_fences st) in
  result <> eSuccess /\ pending_fences st <> [] /\
  st' = set_wait_trace
          (wait_trace st ++ failed_wait (pending_fences st) result) st.
Proof.
  rewrite wait_for_fences_cases. cbn zeta.
  destruct (pending_fences st) as [|f fs] eqn:E; [discriminate|].
  destruct (_ =? eSuccess) eqn:R; intros [= <-].
  apply Z.eqb_neq in R. repeat split; auto.
Qed.

(** ** One request *)

Lemma deliver_spec n st :
  deliver n st =
  set_wait_trace (wait_trace st ++ writes n) (set_mem (store n (mem st)) st).
Proof.
  unfold deliver, writes, store, did. destruct (address n =? 0).
  - cbn. rewrite app_nil_r. reflexivity.
  - reflexivity.
Qed.

Lemma handle_request_cases ext r st :
  handle_request ext r st =
  if flushes r then
    let (st1, ok) := wait_for_fences ext (batched r st) in
    if ok then (effected r st1, true) else (st1, false)
  else (batched r st, true).
Proof.
  destruct r as [[n0 n1] f|ts|info]; unfold handle_request, batched, effected.
  - cbn [flushes fences_of flat_map app effects_of].
    destruct (negb (address n0 =? 0) || negb (address n1 =? 0)); [|reflexivity].
    destruct (wait_for_fences ext _) as [st1 [|]]; [|reflexivity].
    rewrite !deliver_spec. rsimpl.
    rewrite <- !app_assoc. reflexivity.
  - cbn [flushes fences_of flat_map app effects_of]. rewrite app_nil_r.
    replace (set_pending_fences (pending_fences st) st) with st by reflexivity.
    destruct (wait_for_fences ext st) as [st1 [|]]; rsimpl;
      rewrite <- ?app_assoc; reflexivity.
  - cbn [flushes fences_of flat_map app effects_of]. rewrite app_nil_r.
    replace (set_pending_fences (pending_fences st) st) with st by reflexivity.
    destruct (wait_for_fences ext st) as [st1 [|]]; rsimpl;
      rewrite <- ?app_assoc; reflexivity.
Qed.

Lemma signaled_no_wait tr :
  Forall (fun e => match e with WaitForFences _ _ => False | _ => True end) tr ->
  signaled tr = [].
Proof.
  induction 1 as [|e tr He _ IH]; [reflexivity|].
  cbn. fold (signaled tr). rewrite IH. destruct e; try reflexivity. tauto.
Qed.

Lemma wait_trace_effected r st :
  wait_trace (effected r st) = wait_trace st ++ effects_of r.
Proof.
  destruct r as [[n0 n1] f|ts|info]; try reflexivity.
Qed.

Lemma pending_fences_effected r st :
  pending_fences (effected r st) = pending_fences st.
Proof.
  destruct r as [[n0 n1] f|ts|info]; try reflexivity.
  unfold effected. destruct (flushes _); reflexivity.
Qed.

(** A request handled to its end: the new events are a flush without
    side effects followed by the effects of the request, and every fence
    batched so far is signaled or still batched. *)
Lemma handle_request_ok ext r st st' :
  handle_request ext r st = (st', true) ->
  exists tr,
    wait_trace st' = wait_trace st ++ tr ++ effects_of r /\
    Forall (fun e => is_side_effect e = false) tr /\
    signaled tr ++ pending_fences st' = pending_fences st ++ fences_of [r] /\
    (flushes r = true -> pending_fences st' = []).
Proof.
  rewrite handle_request_cases. destruct (flushes r) eqn:F.
  - destruct (wait_for_fences ext (batched r st)) as [st1 [|]] eqn:W;
      [|discriminate].
    intros [= <-].
    destruct (wait_for_fences_ok _ _ _ W) as (Hp & Hm & Hl & tr & Htr & Hs & Hn).
    exists tr.
    rewrite wait_trace_effected, pending_fences_effected.
    rewrite Htr, Hp, Hs, <- app_assoc, app_nil_r.
    repeat split; auto.
  - intros [= <-]. exists [].
    assert (effects_of r = []) as ->.
    { destruct r as [[n0 n1] f|ts|info]; try discriminate.
      unfold effects_of. rewrite F. reflexivity. }
    cbn. rewrite app_nil_r. repeat split; auto. discriminate.
Qed.

(** A request whose flush fails: nothing but the failed wait happens. *)
Lemma handle_request_failed ext r st st' :
  handle_request ext r st = (st', false) ->
  let batch := pending_fences st ++ fences_of [r] in
  let result := wait_for_fences_result ext (wait_trace st) batch in
  flushes r = true /\ result <> eSuccess /\
  st' = set_wait_trace (wait_trace st ++ failed_wait batch result)
          (batched r st).
Proof.
  rewrite handle_request_cases. destruct (flushes r) eqn:F; [|discriminate].
  destruct (wait_for_fences ext (batched r st)) as [st1 [|]] eqn:W;
    [discriminate|].
  intros [= <-]. apply wait_for_fences_failed in W.
  destruct W as (Hr & _ & ->). repeat split; auto.
Qed.

(** ** The loop *)

Lemma wait_thread_loop_pop ext q st :
  wait_thread_loop ext q st =
  match queue_pop q with
  | None => (st, true)
  | Some (r, q') =>
    let (st', ok) := handle_request ext r st in
    if ok then wait_thread_loop ext q' st' else (st', false)
  end.
Proof. destruct q; reflexivity. Qed.

Lemma wait_thread_loop_app ext q1 q2 st :
  wait_thread_loop ext (q1 ++ q2) st =
  let (st1, ok) := wait_thread_loop ext q1 st in
  if ok then wait_thread_loop ext q2 st1 else (st1, false).
Proof.
  revert st. induction q1 as [|r q1 IH]; intros st; cbn.
  - reflexivity.
  - destruct (handle_request ext r st) as [st1 [|]]; [apply IH|reflexivity].
Qed.

(** After a run that came to its end, every fence of the requests
    handled has been seen signaled or is still batched, in order. *)
Lemma wait_thread_loop_ok ext q st st' :
  wait_thread_loop ext q st = (st', true) ->
  exists tr,
    wait_trace st' = wait_trace st ++ tr /\
    signaled tr ++ pending_fences st' = pending_fences st ++ fences_of q.
Proof.
  revert st. induction q as [|r q IH]; intros st; cbn [wait_thread_loop].
  - intros [= <-]. exists []. cbn. rewrite !app_nil_r. auto.
  - destruct (handle_request ext r st) as [st1 [|]] eqn:Hr; [|discriminate].
    intros H. apply IH in H. destruct H as (tr2 & Htr2 & Hs2).
    apply handle_request_ok in Hr. destruct Hr as (tr1 & Htr1 & _ & Hs1 & _).
    exists ((tr1 ++ effects_of r) ++ tr2). split.
    + rewrite Htr2, Htr1, <- !app_assoc. reflexivity.
    + rewrite !signaled_app, signaled_effects, app_nil_r, <- app_assoc, Hs2.
      rewrite app_assoc, Hs1.
      change (r :: q) with ([r] ++ q). rewrite fences_of_app, app_assoc.
      reflexivity.
Qed.

(** A run that stops early stopped at a failed flush. *)
Lemma wait_thread_loop_failed ext q st st' :
  wait_thread_loop ext q st = (st', false) ->
  exists q1 r q2 st1,
    q = q1 ++ r :: q2 /\
    wait_thread_loop ext q1 st = (st1, true) /\
    handle_request ext r st1 = (st', false).
Proof.
  revert st. induction q as [|r q IH]; intros st; cbn [wait_thread_loop].
  - discriminate.
  - destruct (handle_request ext r st) as [st1 [|]] eqn:Hr.
    + intros H. apply IH in H. destruct H as (q1 & r' & q2 & st2 & -> & H1 & H2).
      exists (r :: q1), r', q2, st2. cbn [wait_thread_loop app].
      rewrite Hr. auto.
    + intros [= <-]. exists [], r, q, st. auto.
Qed.

Lemma wait_thread_function_ok ext q st st' :
  wait_thread_function ext q st = (st', true) ->
  exists tr,
    wait_trace st' = wait_trace st ++ tr /\
    signaled tr ++ pending_fences st' = fences_of q.
Proof.
  unfold wait_thread_function. intros H. apply wait_thread_loop_ok in H.
  exact H.
Qed.

(** A run up to one of its requests. *)
Lemma run_then_request ext q1 r q2 st st' ok :
  wait_thread_function ext (q1 ++ r :: q2) st = (st', ok) ->
  exists st1 ok1,
    wait_thread_function ext q1 st = (st1, ok1) /\
    if ok1 then
      exists st2 ok2,
        handle_request ext r st1 = (st2, ok2) /\
        if ok2 then
          wait_thread_loop ext q2 st2 = (st', ok) /\
          exists tr,
            wait_trace st2 = wait_trace st ++ tr ++ effects_of r /\
            signaled tr ++ pending_fences st2 = fences_of (q1 ++ [r]) /\
            (flushes r = true -> pending_fences st2 = [])
        else
          (st', ok) = (st2, false) /\ flushes r = true /\
          exists tr result,
            result <> eSuccess /\
            wait_trace st' =
              wait_trace st ++ tr ++
              failed_wait (pending_fences st1 ++ fences_of [r]) result /\
            signaled tr ++ pending_fences st1 = fences_of q1 /\
            mem st' = mem st1 /\
            last_frame_waited st' = last_frame_waited st1
    else (st', ok) = (st1, false).
Proof.
  unfold wait_thread_function. rewrite wait_thread_loop_app.
  destruct (wait_thread_loop ext q1 _) as [st1 [|]] eqn:H1.
  2: { intros [= <- <-]. exists st1, false. auto. }
  intros H. exists st1, true. split; [reflexivity|].
  cbn [wait_thread_loop] in H.
  destruct (handle_request ext r st1) as [st2 [|]] eqn:H2.
  - exists st2, true. split; [reflexivity|]. split; [exact H|].
    apply wait_thread_loop_ok in H1. destruct H1 as (tr1 & Htr1 & Hs1).
    apply handle_request_ok in H2. destruct H2 as (tr2 & Htr2 & _ & Hs2 & Hf).
    exists (tr1 ++ tr2). split; [|split; [|exact Hf]].
    + rewrite Htr2, Htr1, <- !app_assoc. reflexivity.
    + rewrite signaled_app, fences_of_app, <- app_assoc, Hs2, app_assoc, Hs1.
      reflexivity.
  - injection H as <- <-. exists st2, false. split; [reflexivity|].
    split; [reflexivity|].
    apply wait_thread_loop_ok in H1. destruct H1 as (tr1 & Htr1 & Hs1).
    apply handle_request_failed in H2. destruct H2 as (Hfl & Hres & ->).
    split; [exact Hfl|].
    exists tr1, (wait_for_fences_result ext (wait_trace st1)
                   (pending_fences st1 ++ fences_of [r])).
    split; [exact Hres|]. cbn. rewrite Htr1, <- app_assoc.
    repeat split; auto.
Qed.

(** ** More on the dispatcher *)




Lemma handle_request_last_frame ext r st st' ok :
  handle_request ext r st = (st', ok) ->
  last_frame_waited st' =
  match r with
  | FrameDoneRequest ts => if ok then ts else last_frame_waited st
  | _ => last_frame_waited st
  end.
Proof.
  rewrite handle_request_cases. destruct (flushes r) eqn:F.
  - destruct (wait_for_fences ext (batched r st)) as [st1 [|]] eqn:W;
      intros [= <- <-].
    + apply wait_for_fences_ok in W. destruct W as (_ & _ & Hl & _).
      destruct r as [[n0 n1] f|ts|info]; try exact Hl; [|reflexivity].
      unfold effected. rewrite F. exact Hl.
    + apply wait_for_fences_failed in W. destruct W as (_ & _ & ->).
      destruct r as [[n0 n1] f|ts|info]; reflexivity.
  - intros [= <- <-]. destruct r as [[n0 n1] f|ts|info]; try discriminate.
    reflexivity.
Qed.


(** A run over requests that only batch. *)
Lemma wait_thread_loop_only_batched ext q st :
  forallb only_batched q = true ->
  wait_thread_loop ext q st =
  (set_pending_fences (pending_fences st ++ fences_of q) st, true).
Proof.
  revert st. induction q as [|r q IH]; intros st; cbn [forallb wait_thread_loop].
  - intros _. cbn. rewrite app_nil_r. reflexivity.
  - intros H. apply andb_prop in H. destruct H as [Hr Hq].
    unfold only_batched in Hr. apply negb_true_iff in Hr.
    rewrite handle_request_cases, Hr, (IH _ Hq). unfold batched.
    change (r :: q) with ([r] ++ q). rewrite fences_of_app, app_assoc.
    reflexivity.
Qed.

(** ** More on the render thread *)

Lemma scene_record_depth_stencil ext r :
  depth_stencil_surface (scene_record ext r) = depth_stencil_surface r.
Proof. unfold scene_record. destruct (color_is_null r); reflexivity. Qed.

Lemma scene_record_downscale ext r :
  downscale (color_surface (scene_record ext r)) =
  if data (color_surface r) =? 0 then false else downscale (color_surface r).
Proof.
  unfold scene_record, color_is_null.
  destruct (data (color_surface r) =? 0); reflexivity.
Qed.

Lemma length_cleared v : (16 <= length v)%nat -> length (cleared v) = length v.
Proof.
  intros H. unfold cleared.
  rewrite length_app, length_replicate, length_drop. lia.
Qed.

Lemma lookup_cleared_lt v i :
  (i < 16)%nat -> cleared v !! i = Some null_handle.
Proof.
  intros H. unfold cleared.
  rewrite lookup_app_l by (rewrite length_replicate; exact H).
  apply lookup_replicate_2. exact H.
Qed.

Lemma lookup_cleared_ge v i :
  (16 <= i)%nat -> cleared v !! i = v !! i.
Proof.
  intros H. unfold cleared.
  rewrite lookup_app_r by (rewrite length_replicate; exact H).
  rewrite length_replicate, lookup_drop. f_equal. lia.
Qed.

(** What [stop_recording] leaves alone. *)
Lemma stop_recording_frame ext n1 n2 w w' :
  is_recording (ctx w) = true ->
  stop_recording ext n1 n2 w = Some (tt, w') ->
  same_binding (ctx w) (ctx w') /\
  next_handle w' = next_handle w /\
  has_happened w' = has_happened w /\
  is_recording (ctx w') = false /\
  in_renderpass (ctx w') = false /\
  forall q rt,
    targets w !! q = Some rt ->
    exists rt',
      targets w' !! q = Some rt' /\
      same_pools rt rt' /\
      cmd_buffer_idx rt' = cmd_buffer_idx rt /\
      last_used_frame rt' = last_used_frame rt /\
      multisample_mode rt' = multisample_mode rt /\
      mask_view rt' = mask_view rt /\
      (render_target (ctx w) <> Some q -> rt' = rt).
Proof.
  intros Hrec H.
  destruct (stop_recording_spec _ _ _ _ _ Hrec H)
    as (p & rt0 & fence & fr & info & Hp & Hrt & Hf & Hfr & Hinfo & Htr & Htg
        & Hctx & Hnh & Hhh).
  rewrite Hctx, Htg. split; [repeat split|].
  do 4 (split; [first [assumption | reflexivity]|]).
  intros q rt Hq. destruct (decide (q = p)) as [->|Hne].
  - rewrite lookup_insert_eq. eexists; split; [reflexivity|].
    assert (rt0 = rt) as -> by congruence.
    cbn zeta. destruct (upscaled (ctx w) rt); repeat split; congruence.
  - rewrite lookup_insert_ne by congruence. exists rt.
    repeat split; auto.
Qed.

(** One scene, from a world that is not recording. *)
Lemma scene_step ext rt f n1 n2 w w' p target :
  is_recording (ctx w) = false ->
  bound_target rt (ctx w) = Some p ->
  targets w !! p = Some target ->
  scene ext rt f n1 n2 w = Some (tt, w') ->
  exists target',
    targets w' !! p = Some target' /\
    cmd_buffer_idx target' = S (scene_base (ctx w) target) /\
    last_used_frame target' = frame_timestamp (ctx w) /\
    is_recording (ctx w') = false /\
    in_renderpass (ctx w') = false /\
    render_target (ctx w') = Some p /\
    current_render_target (ctx w') = current_render_target (ctx w) /\
    frame_timestamp (ctx w') = frame_timestamp (ctx w).
Proof.
  intros Hrec Hp Hrt H. unfold scene in H.
  apply bind_Some in H. destruct H as ([] & wc & Hset & Hstop).
  destruct (set_context_spec _ _ _ _ _ Hset)
    as (p0 & target0 & w2 & target2 & Hp0 & Hrt0 & Hstart & Hrt2 & Hpass).
  assert (p0 = p) as -> by congruence.
  assert (target0 = target) as -> by congruence.
  set (w1 := set_trace _ _) in Hstart.
  set (target1 := if _ && _ then doubled ext target else target) in *.
  assert (is_recording (ctx w1) = false) as Hrec1 by exact Hrec.
  assert (render_target (ctx w1) = Some p) as Hp1 by reflexivity.
  destruct (start_recording_spec _ _ _ _ Hrec1 Hp1 Hstart)
    as (t1 & bufs & pre_bufs & cmd & pre & Ht1 & _ & _ & _ & _ & _ & Htg2
        & Hctx2 & _).
  assert (t1 = target1) as ->.
  { unfold w1 in Ht1. cbn in Ht1. rewrite lookup_insert_eq in Ht1. congruence. }
  cbn zeta in Hpass. set (w3 := set_trace _ _) in Hpass.
  assert (is_recording (ctx w3) = true) as Hrec3
    by (unfold w3; cbn; rewrite Hctx2; reflexivity).
  destruct (start_render_pass_frame _ _ _ Hrec3 Hpass)
    as (Hb & Hrecc & _ & _ & _ & _ & Htgc & _).
  destruct (stop_recording_frame _ _ _ _ _ Hrecc Hstop)
    as (Hb' & _ & _ & Hrec' & Hin' & Htg').
  assert (targets wc !! p = Some target2) as Htc
    by (rewrite Htgc; exact Hrt2).
  destruct (Htg' _ _ Htc) as (target' & Ht' & _ & Hidx & Hluf & _).
  exists target'. split; [exact Ht'|].
  rewrite Htg2, lookup_insert_eq in Hrt2. injection Hrt2 as <-.
  assert (scene_base (ctx w1) target1 = scene_base (ctx w) target) as Hbase.
  { unfold scene_base, target1. destruct (_ && _); reflexivity. }
  destruct Hb as (_ & _ & Hrt3 & Hcur3 & _ & Hft3 & _).
  destruct Hb' as (_ & _ & Hrtc & Hcurc & _ & Hftc & _).
  split; [rewrite Hidx, <- Hbase; reflexivity|].
  split; [rewrite Hluf; reflexivity|].
  split; [exact Hrec'|]. split; [exact Hin'|].
  split; [rewrite Hrtc, Hrt3; unfold w3; cbn; rewrite Hctx2; reflexivity|].
  split; [rewrite Hcurc, Hcur3; unfold w3; cbn; rewrite Hctx2; reflexivity|].
  rewrite Hftc, Hft3. unfold w3. cbn. rewrite Hctx2. reflexivity.
Qed.

(** A [start_recording] that grows the pools has found its frame. *)
Lemma start_recording_grows_in_frame ext w w' p rt bufs :
  is_recording (ctx w) = false ->
  render_target (ctx w) = Some p ->
  targets w !! p = Some rt ->
  cmd_buffers rt !! current_frame_idx (ctx w) = Some bufs ->
  (scene_base (ctx w) rt =? length bufs)%nat = true ->
  start_recording ext w = Some (tt, w') ->
  exists fr, frames (ctx w) !! current_frame_idx (ctx w) = Some fr.
Proof.
  intros Hrec Hp Hrt Hb Hg H. unfold scene_base in Hg.
  unfold start_recording in H. fsimpl.
  mrun H.
  all: try (eexists; first [eassumption|reflexivity]).
  all: exfalso; rsimpl in Hg;
    match goal with
    | E : (_ =? _) = _ |- _ => rewrite E in Hg
    end; congruence.
Qed.

(** * The properties of the specification *)

(** C1: a successful [start_recording] (not yet recording, a render target
    bound) leaves the target's [cmd_buffer_idx] one above the index the
    session starts from, which is zero exactly when the target's
    [last_used_frame] differs from the context's [frame_timestamp] and the
    old index otherwise; [last_used_frame] is the current frame timestamp
    afterwards. *)
Theorem C1_start_recording_advances_cmd_buffer_idx ext w w' p rt :
  is_recording (ctx w) = false ->
  render_target (ctx w) = Some p ->
  targets w !! p = Some rt ->
  start_recording ext w = Some (tt, w') ->
  exists rt',
    targets w' !! p = Some rt' /\
    last_used_frame rt' = frame_timestamp (ctx w) /\
    cmd_buffer_idx rt' =
      S (if last_used_frame rt =? frame_timestamp (ctx w)
         then cmd_buffer_idx rt else 0%nat).
Proof.
  intros Hrec Hp Hrt H.
  destruct (start_recording_spec _ _ _ _ Hrec Hp H)
    as (rt0 & bufs & pre_bufs & cmd & pre & Hrt0 & _ & _ & _ & _ & _ & Htg & _).
  assert (rt0 = rt) as -> by congruence.
  rewrite Htg, lookup_insert_eq. eexists; split; [reflexivity|].
  split; reflexivity.
Qed.

Lemma C1_witness :
  exists rt',
    targets (run (start_recording example_ext) example_bound_world) !! 7%nat
      = Some rt' /\
    last_used_frame rt' = 1 /\ cmd_buffer_idx rt' = 1%nat.
Proof.
  apply (C1_start_recording_advances_cmd_buffer_idx example_ext
           example_bound_world
           (run (start_recording example_ext) example_bound_world)
           7%nat example_target);
    vm_compute; reflexivity.
Defined.

(** C5: when [start_recording] finds the scene budget of the current
    frame exhausted (the index the session starts from equals the size of
    the frame's command-buffer vector), the frame's command-buffer vector,
    its pre-render vector and the fence pool each grow by exactly one
    handle, all three fresh; the new fence is inserted at [fence_idx],
    which does not move, so it is the fence the next [stop_recording]
    submits with, and it is none of the fences the pool held.  Otherwise
    the pools are left as they are. *)
Theorem C5_exhausted_budget_grows_pools_by_one ext w w' p rt bufs pre_bufs :
  is_recording (ctx w) = false ->
  render_target (ctx w) = Some p ->
  targets w !! p = Some rt ->
  cmd_buffers rt !! current_frame_idx (ctx w) = Some bufs ->
  pre_cmd_buffers rt !! current_frame_idx (ctx w) = Some pre_bufs ->
  Forall (fun f => f < next_handle w) (fences rt) ->
  start_recording ext w = Some (tt, w') ->
  let i := current_frame_idx (ctx w) in
  let h := next_handle w in
  exists rt',
    targets w' !! p = Some rt' /\
    if (scene_base (ctx w) rt =? length bufs)%nat then
      cmd_buffers rt' = push_back_at i h (cmd_buffers rt) /\
      cmd_buffers rt' !! i = Some (bufs ++ [h]) /\
      pre_cmd_buffers rt' = push_back_at i (h + 1) (pre_cmd_buffers rt) /\
      pre_cmd_buffers rt' !! i = Some (pre_bufs ++ [h + 1]) /\
      fences rt' = vector_insert (fence_idx rt) (h + 2) (fences rt) /\
      length (fences rt') = S (length (fences rt)) /\
      fence_idx rt' = fence_idx rt /\
      fences rt' !! fence_idx rt' = Some (h + 2) /\
      ((h + 2) ∉ fences rt) /\
      (forall n1 n2 w'',
         stop_recording ext n1 n2 w' = Some (tt, w'') ->
         exists evs,
           trace w'' = trace w' ++ evs ++
             [QueueSubmit [prerender_cmd (ctx w'); render_cmd (ctx w')]
                (h + 2)])
    else same_pools rt rt'.
Proof.
  intros Hrec Hp Hrt Hb Hpb Hfresh H i h. subst i h.
  destruct (start_recording_spec _ _ _ _ Hrec Hp H)
    as (rt0 & bufs0 & pre_bufs0 & cmd & pre & Hrt0 & Hb0 & Hpb0 & _ & _
        & Hfence & Htg & Hctx & _).
  assert (rt0 = rt) as -> by congruence.
  assert (bufs0 = bufs) as -> by congruence.
  assert (pre_bufs0 = pre_bufs) as -> by congruence.
  destruct (scene_base (ctx w) rt =? length bufs)%nat eqn:Hg;
    rewrite Htg, lookup_insert_eq; (eexists; split; [reflexivity|]);
    [|repeat split].
  specialize (Hfence eq_refl).
  assert (vector_insert (fence_idx rt) (next_handle w + 2) (fences rt)
          !! fence_idx rt = Some (next_handle w + 2)) as Hnew
    by (apply lookup_vector_insert; exact Hfence).
  cbn. repeat split.
  - rewrite lookup_push_back_at, Hb. reflexivity.
  - rewrite lookup_push_back_at, Hpb. reflexivity.
  - apply length_vector_insert.
  - exact Hnew.
  - intros Hin. rewrite Forall_forall in Hfresh. apply Hfresh in Hin. lia.
  - intros n1 n2 w'' Hstop.
    assert (is_recording (ctx w') = true) as Hrec' by (rewrite Hctx; reflexivity).
    destruct (stop_recording_spec _ _ _ _ _ Hrec' Hstop)
      as (p' & rt' & fence & fr & info & Hp' & Hrt' & Hf & _ & _ & Htr & _).
    rewrite Hctx in Hp'. cbn in Hp'.
    assert (p' = p) as -> by congruence.
    rewrite Htg, lookup_insert_eq in Hrt'. injection Hrt' as <-.
    cbn in Hf. rewrite Hnew in Hf. injection Hf as <-.
    exists (end_query_events (ctx w') ++ end_render_pass_events (ctx w') ++
            copy_query_events (ctx w') ++ surface_sync_events (ctx w') info ++
            [CmdEnd (prerender_cmd (ctx w')); CmdEnd (render_cmd (ctx w'))]).
    rewrite Htr, <- !app_assoc. reflexivity.
Qed.

Lemma C5_witness :
  exists rt',
    targets (run (start_recording example_ext) example_world_after_two)
      !! 7%nat = Some rt' /\
    cmd_buffers rt' !! 0%nat = Some [10; 11; 102] /\
    pre_cmd_buffers rt' !! 0%nat = Some [20; 21; 103] /\
    fences rt' = [104; 30; 31] /\
    fences rt' !! fence_idx rt' = Some 104.
Proof.
  destruct (C5_exhausted_budget_grows_pools_by_one example_ext
              example_world_after_two
              (run (start_recording example_ext) example_world_after_two)
              7%nat
              {| multisample_mode := true; width := 960; height := 544;
                 mask_view := 50; cmd_buffers := [[10; 11]; [12; 13]];
                 pre_cmd_buffers := [[20; 21]; [22; 23]]; fences := [30; 31];
                 fence_idx := 0; cmd_buffer_idx := 2; last_used_frame := 1 |}
              [10; 11] [20; 21])
    as (rt' & Hrt' & Hgrow); try (vm_compute; reflexivity).
  - repeat (constructor; [vm_compute; reflexivity|]). constructor.
  - vm_compute in Hgrow. exists rt'. split; [exact Hrt'|].
    destruct Hgrow as (_ & Hc & _ & Hpc & Hf & _ & _ & Hnew & _).
    repeat split; assumption.
Defined.

(** C6: every call out of order returns after logging one error and
    changes nothing else in the world (context, render targets, handle
    allocator): [start_recording] while recording, [start_recording]
    without a bound render target, [start_render_pass] inside a render
    pass, [stop_render_pass] outside one, [stop_recording] while not
    recording. *)
Theorem C6_out_of_order_calls_only_log ext n1 n2 w :
  (is_recording (ctx w) = true ->
   start_recording ext w =
   Some (tt, log_error "Attempt to start recording while already recording" w))
  /\
  (is_recording (ctx w) = false -> render_target (ctx w) = None ->
   start_recording ext w =
   Some (tt, log_error "Recording started without a set command buffer" w))
  /\
  (in_renderpass (ctx w) = true ->
   start_render_pass ext w =
   Some (tt, log_error "Starting render pass while already in render pass" w))
  /\
  (in_renderpass (ctx w) = false ->
   stop_render_pass w =
   Some (tt, log_error "Stopping render pass while not in render pass" w))
  /\
  (is_recording (ctx w) = false ->
   stop_recording ext n1 n2 w =
   Some (tt, log_error "Stopping recording while not recording" w)).
Proof.
  repeat split.
  - apply start_recording_recording.
  - apply start_recording_unbound.
  - apply start_render_pass_in_renderpass.
  - apply stop_render_pass_outside.
  - apply stop_recording_not_recording.
Qed.

Lemma C6_witness :
  start_recording example_ext example_recording_world =
  Some (tt, log_error "Attempt to start recording while already recording"
              example_recording_world) /\
  start_render_pass example_ext example_recording_world =
  Some (tt, log_error "Starting render pass while already in render pass"
              example_recording_world) /\
  start_recording example_ext example_world =
  Some (tt, log_error "Recording started without a set command buffer"
              example_world) /\
  stop_render_pass example_world =
  Some (tt, log_error "Stopping render pass while not in render pass"
              example_world) /\
  stop_recording example_ext notification_a notification_b example_world =
  Some (tt, log_error "Stopping recording while not recording" example_world).
Proof.
  destruct (C6_out_of_order_calls_only_log example_ext notification_a
              notification_b example_recording_world) as (H1 & _ & H3 & _).
  destruct (C6_out_of_order_calls_only_log example_ext notification_a
              notification_b example_world) as (_ & H2 & _ & H4 & H5).
  split; [apply H1; vm_compute; reflexivity|].
  split; [apply H3; vm_compute; reflexivity|].
  split; [apply H2; vm_compute; reflexivity|].
  split; [apply H4; vm_compute; reflexivity|].
  apply H5; vm_compute; reflexivity.
Defined.

(** C7: a [stop_recording] while recording takes the fence at the render
    target's [fence_idx] and ring-advances [fence_idx] (back to 0 at the
    size of the pool); makes exactly one queue submission, the last call
    of all, of the pre-render command buffer followed by the render
    command buffer, with that fence; appends the fence to the fences of
    the current frame; and, with memory mapping supported, pushes a
    [NotificationRequest] with the two notifications and the fence, then a
    [PostSurfaceSyncRequest] if and only if the surface sync gave a
    handle, and with that handle: [info] below is the handle of the
    surface sync of this call, [Some i] exactly when the call of
    [perform_surface_sync] returned [i], and [None] when it returned a
    null pointer or was not made. *)
Theorem C7_stop_recording_submits_with_next_fence ext n1 n2 w w' :
  is_recording (ctx w) = true ->
  stop_recording ext n1 n2 w = Some (tt, w') ->
  let c := ctx w in
  exists p rt rt' fence fr info evs,
    render_target c = Some p /\
    targets w !! p = Some rt /\
    fences rt !! fence_idx rt = Some fence /\
    targets w' !! p = Some rt' /\
    fences rt' = fences rt /\
    fence_idx rt' =
      (if (S (fence_idx rt) =? length (fences rt))%nat then 0%nat
       else S (fence_idx rt)) /\
    trace w' = trace w ++ evs ++
               [QueueSubmit [prerender_cmd c; render_cmd c] fence] /\
    Forall (fun e => is_submit e = false) evs /\
    frames c !! current_frame_idx c = Some fr /\
    frames (ctx w') =
      <[current_frame_idx c :=
          set_rendered_fences (rendered_fences fr ++ [fence]) fr]> (frames c) /\
    (forall i, PerformSurfaceSync (Some i) ∈ evs <-> info = Some i) /\
    (support_memory_mapping (features (state c)) = true ->
     request_queue (ctx w') =
       request_queue c ++
       NotificationRequest (n1, n2) fence ::
       match info with
       | Some i => [PostSurfaceSyncRequest i]
       | None => []
       end).
Proof.
  intros Hrec H c. subst c.
  destruct (stop_recording_spec _ _ _ _ _ Hrec H)
    as (p & rt & fence & fr & info & Hp & Hrt & Hf & Hfr & Hinfo & Htr & Htg
        & Hctx & _).
  exists p, rt.
  eexists _, fence, fr, info,
    (end_query_events (ctx w) ++ end_render_pass_events (ctx w) ++
     copy_query_events (ctx w) ++ surface_sync_events (ctx w) info ++
     [CmdEnd (prerender_cmd (ctx w)); CmdEnd (render_cmd (ctx w))]).
  do 3 (split; [assumption|]).
  split; [rewrite Htg; apply lookup_insert_eq|].
  split; [cbn zeta; destruct (upscaled _ _); reflexivity|].
  split; [cbn zeta; destruct (upscaled _ _); reflexivity|].
  split; [rewrite Htr, <- !app_assoc; reflexivity|].
  split.
  { unfold end_query_events, end_render_pass_events, copy_query_events,
      surface_sync_events. events. }
  split; [assumption|].
  split; [rewrite Hctx; reflexivity|].
  split.
  - intros i. split.
    + unfold end_query_events, end_render_pass_events, copy_query_events,
        surface_sync_events.
      intros Hin.
      destruct (is_in_query _), (current_visibility_buffer _),
        (in_renderpass _), (visibility_max_used_idx _ =? -1), (_ && _);
        cbn [app] in Hin;
        repeat match goal with
               | E : _ ∈ _ :: _ |- _ =>
                 apply elem_of_cons in E; destruct E as [E|E];
                 [first [discriminate E | injection E as E; congruence]|]
               | E : _ ∈ [] |- _ => apply elem_of_nil in E; destruct E
               end.
    + intros ->. unfold surface_sync_events.
      destruct (support_memory_mapping _ && negb _) eqn:E.
      * rewrite !elem_of_app. do 3 right. left. constructor.
      * specialize (Hinfo eq_refl). discriminate.
  - intros Hsmm. rewrite Hctx. cbn. unfold wait_requests. rewrite Hsmm.
    reflexivity.
Qed.

Lemma C7_witness :
  exists evs,
    trace (run (stop_recording syncing_ext notification_a notification_b)
             example_recording_world)
    = trace example_recording_world ++ evs ++ [QueueSubmit [20; 10] 30] /\
    PerformSurfaceSync (Some 3000) ∈ evs /\
    request_queue
      (ctx (run (stop_recording syncing_ext notification_a notification_b)
              example_recording_world))
    = [NotificationRequest (notification_a, notification_b) 30;
       PostSurfaceSyncRequest 3000].
Proof.
  destruct (C7_stop_recording_submits_with_next_fence syncing_ext
              notification_a notification_b example_recording_world
              (run (stop_recording syncing_ext notification_a notification_b)
                 example_recording_world))
    as (p & rt & rt' & fence & fr & info & evs & Hp & Hrt & Hf & _ & _ & _
        & Htr & _ & _ & _ & Hinfo & Hq);
    [vm_compute; reflexivity | vm_compute; reflexivity |].
  vm_compute in Hp. injection Hp as <-.
  vm_compute in Hrt. injection Hrt as <-.
  vm_compute in Hf. injection Hf as <-.
  specialize (Hq ltac:(vm_compute; reflexivity)).
  assert (info = Some 3000) as Hi.
  { destruct info as [i|]; vm_compute in Hq; congruence. }
  exists evs. split; [exact Htr|]. split; [apply Hinfo; exact Hi|].
  vm_compute. reflexivity.
Defined.

(** C9: with memory mapping unsupported, a [stop_recording] while
    recording leaves the request queue as it is (neither request is
    created, the notifications go nowhere) and asks for no surface sync,
    while the rest happens: both command buffers are ended and submitted
    with the fence at [fence_idx], [fence_idx] ring-advances, the command
    buffers are dropped and the recording flag is cleared. *)
Theorem C9_no_requests_without_memory_mapping ext n1 n2 w w' :
  is_recording (ctx w) = true ->
  support_memory_mapping (features (state (ctx w))) = false ->
  stop_recording ext n1 n2 w = Some (tt, w') ->
  let c := ctx w in
  request_queue (ctx w') = request_queue c /\
  is_recording (ctx w') = false /\
  render_cmd (ctx w') = null_handle /\
  prerender_cmd (ctx w') = null_handle /\
  exists p rt rt' fence evs,
    render_target c = Some p /\
    targets w !! p = Some rt /\
    fences rt !! fence_idx rt = Some fence /\
    targets w' !! p = Some rt' /\
    fence_idx rt' = ring_advance rt /\
    trace w' = trace w ++ evs ++
               [CmdEnd (prerender_cmd c); CmdEnd (render_cmd c);
                QueueSubmit [prerender_cmd c; render_cmd c] fence] /\
    Forall (fun e => is_surface_sync e = false /\ is_submit e = false) evs.
Proof.
  intros Hrec Hsmm H c. subst c.
  destruct (stop_recording_spec _ _ _ _ _ Hrec H)
    as (p & rt & fence & fr & info & Hp & Hrt & Hf & Hfr & Hinfo & Htr & Htg
        & Hctx & _).
  rewrite Hctx. cbn. unfold wait_requests. rewrite Hsmm, app_nil_r.
  do 4 (split; [reflexivity|]).
  exists p, rt.
  eexists _, fence,
    (end_query_events (ctx w) ++ end_render_pass_events (ctx w) ++
     copy_query_events (ctx w)).
  do 3 (split; [assumption|]).
  split; [rewrite Htg; apply lookup_insert_eq|].
  split; [cbn zeta; destruct (upscaled _ _); reflexivity|].
  split.
  - rewrite Htr. unfold surface_sync_events. rewrite Hsmm. cbn [andb app].
    rewrite <- !app_assoc. reflexivity.
  - unfold end_query_events, end_render_pass_events, copy_query_events.
    events.
Qed.

Lemma C9_witness :
  request_queue
    (ctx (run (stop_recording example_ext notification_a notification_b)
            example_unmapped_world)) = [] /\
  is_recording
    (ctx (run (stop_recording example_ext notification_a notification_b)
            example_unmapped_world)) = false.
Proof.
  destruct (C9_no_requests_without_memory_mapping example_ext
              notification_a notification_b example_unmapped_world
              (run (stop_recording example_ext notification_a notification_b)
                 example_unmapped_world))
    as (Hq & Hr & _); try (vm_compute; reflexivity).
  split; [|exact Hr]. rewrite Hq. vm_compute. reflexivity.
Defined.

(** C10: for every render target whose [fence_idx] is a valid index of
    its fence pool, [fence_idx] is still a valid index of the pool after
    [start_recording] and after [stop_recording], whatever path the call
    takes. *)
Theorem C10_fence_idx_stays_valid ext n1 n2 w w' q rt :
  targets w !! q = Some rt ->
  (fence_idx rt < length (fences rt))%nat ->
  start_recording ext w = Some (tt, w') \/
  stop_recording ext n1 n2 w = Some (tt, w') ->
  exists rt',
    targets w' !! q = Some rt' /\
    (fence_idx rt' < length (fences rt'))%nat.
Proof.
  intros Hq Hvalid [H|H].
  - destruct (start_recording_frame _ _ _ H) as (_ & _ & _ & _ & _ & Htg & _).
    destruct (Htg q rt Hq) as (rt' & Hrt' & _ & Hv). eauto.
  - destruct (is_recording (ctx w)) eqn:Hrec.
    2: { rewrite stop_recording_not_recording in H by assumption.
         injection H as <-. eauto. }
    destruct (stop_recording_spec _ _ _ _ _ Hrec H)
      as (p & rt0 & fence & fr & info & Hp & Hrt & Hf & _ & _ & _ & Htg & _).
    rewrite Htg. destruct (decide (q = p)) as [->|Hne].
    + rewrite lookup_insert_eq. eexists; split; [reflexivity|].
      assert (rt0 = rt) as -> by congruence.
      assert (forall b : bool,
                (fence_idx
                   (if b
                    then set_height (height rt / 2)
                           (set_width (width rt / 2)
                              (set_fence_idx (ring_advance rt) rt))
                    else set_fence_idx (ring_advance rt) rt)
                 < length
                     (fences
                        (if b
                         then set_height (height rt / 2)
                                (set_width (width rt / 2)
                                   (set_fence_idx (ring_advance rt) rt))
                         else set_fence_idx (ring_advance rt) rt)))%nat) as Hb.
      { intros [|]; cbn; unfold ring_advance;
          destruct (S (fence_idx rt) =? length (fences rt))%nat eqn:E;
          try lia; apply Nat.eqb_neq in E; lia. }
      apply Hb.
    + rewrite lookup_insert_ne by congruence. eauto.
Qed.

Lemma C10_witness :
  exists rt',
    targets (run (stop_recording example_ext notification_a notification_b)
               example_recording_world) !! 7%nat = Some rt' /\
    (fence_idx rt' < length (fences rt'))%nat.
Proof.
  apply (C10_fence_idx_stays_valid example_ext notification_a notification_b
           example_recording_world
           (run (stop_recording example_ext notification_a notification_b)
              example_recording_world)
           7%nat
           (set_cmd_buffer_idx 1 (set_last_used_frame 1
              (set_height 1088 (set_width 1920 example_target))))).
  - vm_compute. reflexivity.
  - vm_compute. lia.
  - right. vm_compute. reflexivity.
Defined.

(** Halving a doubled dimension: the dimension itself in the lower half
    of the range of its type, and half the range less in the upper half. *)
Lemma double_extent_halved ext x :
  0 < extent_bits ext ->
  0 <= x < 2 ^ extent_bits ext ->
  double_extent ext x / 2 =
  if 2 ^ (extent_bits ext - 1) <=? x then x - 2 ^ (extent_bits ext - 1)
  else x.
Proof.
  intros Hbits Hx. unfold double_extent.
  assert (2 ^ extent_bits ext = 2 * 2 ^ (extent_bits ext - 1)) as Hpow.
  { rewrite <- Z.pow_succ_r by lia. f_equal. lia. }
  assert (0 < 2 ^ (extent_bits ext - 1)) as Hpos
    by (apply Z.pow_pos_nonneg; lia).
  destruct (Z.leb_spec (2 ^ (extent_bits ext - 1)) x) as [Hge|Hlt].
  - assert ((x * 2) mod 2 ^ extent_bits ext
            = (x - 2 ^ (extent_bits ext - 1)) * 2) as ->.
    { symmetry. apply Z.mod_unique with (q := 1); lia. }
    apply Z.div_mul. lia.
  - rewrite Z.mod_small by lia. apply Z.div_mul. lia.
Qed.

(** C4 (a defect of the code): [stop_recording] halves the width and the
    height that [set_context] doubled, "revert changes made in
    set_context", but the doubling is arithmetic in the unsigned type of
    the two fields and wraps.  After [set_context] followed by
    [stop_recording], a dimension of the bound render target is what it
    was before for every target that is not upscaled (not multisampled,
    or downscaled), and for an upscaled one when it lies in the lower
    half of the range of its type; an upscaled dimension of the upper
    half comes back reduced by half the range.  So the width and the
    height are what they were exactly when the target is not upscaled or
    both lie in the lower half: the property as stated fails for the
    others, whatever the width of the type. *)
Theorem C4_extent_restored_unless_doubling_wraps
    ext rt feats n1 n2 w w' p target :
  bound_target rt (ctx w) = Some p ->
  targets w !! p = Some target ->
  0 < extent_bits ext ->
  0 <= width target < 2 ^ extent_bits ext ->
  0 <= height target < 2 ^ extent_bits ext ->
  (set_context ext rt feats;; stop_recording ext n1 n2) w = Some (tt, w') ->
  let cs := color_surface (record (ctx w)) in
  let upscale :=
    multisample_mode target
    && negb (if data cs =? 0 then false else downscale cs) in
  let half := 2 ^ (extent_bits ext - 1) in
  let after x := if upscale && (half <=? x) then x - half else x in
  exists target',
    targets w' !! p = Some target' /\
    width target' = after (width target) /\
    height target' = after (height target) /\
    (width target' = width target /\ height target' = height target <->
     (upscale = true -> width target < half /\ height target < half)).
Proof.
  intros Hp Hrt Hbits Hwr Hhr H cs upscale half after.
  apply bind_Some in H. destruct H as ([] & w1 & Hset & Hstop).
  destruct (set_context_summary _ _ _ _ _ Hset)
    as (p0 & target0 & target1 & tr1 & tr2 & pass & fb & Hp0 & Hrt0 & Hrt1
        & Hext & _ & _ & _ & Hrec & Hbound & _ & _ & _ & _ & Hrecording & _).
  assert (p0 = p) as -> by congruence.
  assert (target0 = target) as -> by congruence.
  destruct (stop_recording_spec _ _ _ _ _ Hrecording Hstop)
    as (p1 & rt1 & fence & fr & info & Hp1 & Hrt1' & _ & _ & _ & _ & Htg & _).
  assert (p1 = p) as -> by congruence.
  assert (rt1 = target1) as -> by congruence.
  rewrite scene_record_downscale in Hext. fold cs upscale in Hext.
  assert (multisample_mode target1 = multisample_mode target) as Hms.
  { destruct Hext as (Hms & _). rewrite Hms. destruct upscale; reflexivity. }
  assert (upscaled (ctx w1) target1 = upscale) as Hup.
  { unfold upscaled. rewrite Hrec, Hms, scene_record_downscale.
    reflexivity. }
  assert (0 < half) as Hhalf by (apply Z.pow_pos_nonneg; lia).
  rewrite Htg, lookup_insert_eq, Hup. eexists; split; [reflexivity|].
  assert (forall x, 0 <= x < 2 ^ extent_bits ext ->
            (if upscale then double_extent ext x / 2 else x) = after x)
    as Hafter.
  { intros x Hx. unfold after. destruct upscale; [|reflexivity].
    rewrite (double_extent_halved ext x Hbits Hx). reflexivity. }
  assert (forall x, after x = x <-> (upscale = true -> x < half)) as Hiff.
  { intros x. unfold after. destruct upscale; cbn [andb].
    - destruct (Z.leb_spec half x); split; intros; try lia; try reflexivity.
    - split; [discriminate|reflexivity]. }
  destruct Hext as (_ & Hw & Hh & _).
  assert (width (if upscale
                 then set_height (height target1 / 2)
                        (set_width (width target1 / 2)
                           (set_fence_idx (ring_advance target1) target1))
                 else set_fence_idx (ring_advance target1) target1)
          = after (width target)) as Hw'.
  { rewrite <- (Hafter _ Hwr). destruct upscale; [|exact Hw].
    change (width target1 / 2 = double_extent ext (width target) / 2).
    rewrite Hw. reflexivity. }
  assert (height (if upscale
                  then set_height (height target1 / 2)
                         (set_width (width target1 / 2)
                            (set_fence_idx (ring_advance target1) target1))
                  else set_fence_idx (ring_advance target1) target1)
          = after (height target)) as Hh'.
  { rewrite <- (Hafter _ Hhr). destruct upscale; [|exact Hh].
    change (height target1 / 2 = double_extent ext (height target) / 2).
    rewrite Hh. reflexivity. }
  split; [exact Hw'|]. split; [exact Hh'|].
  cbn zeta. rewrite Hw', Hh', !Hiff. tauto.
Qed.

Lemma C4_witness :
  exists target',
    targets (run example_scene example_wide_world) !! 7%nat = Some target' /\
    width target' = 0 /\ height target' = 544 /\
    ~ (width target' = 32768 /\ height target' = 544).
Proof.
  destruct (C4_extent_restored_unless_doubling_wraps example_ext None
              example_features notification_a no_notification
              example_wide_world (run example_scene example_wide_world)
              7%nat (set_width 32768 example_target))
    as (target' & Ht & Hw & Hh & Hiff);
    [ reflexivity | vm_compute; reflexivity | vm_compute; reflexivity
    | vm_compute; split; [discriminate | reflexivity]
    | vm_compute; split; [discriminate | reflexivity]
    | vm_compute; reflexivity | ].
  exists target'. split; [exact Ht|].
  vm_compute in Hw. vm_compute in Hh.
  split; [exact Hw|]. split; [exact Hh|].
  intros [Hne _]. discriminate (eq_trans (eq_sym Hw) Hne).
Defined.

(** C8: a [set_context] whose color surface has a null data address asks
    for the render pass with the format R8G8B8A8 unorm and hands the
    framebuffer lookup a null color surface (these are its only two
    cache lookups), and leaves the record with gamma correction off, the
    downscale and mask-update flags false and the base format U8U8U8U8. *)
Theorem C8_null_color_surface_takes_defaults ext rt feats w w' :
  data (color_surface (record (ctx w))) = 0 ->
  set_context ext rt feats w = Some (tt, w') ->
  let r' := record (ctx w') in
  is_gamma_corrected r' = false /\
  downscale (color_surface r') = false /\
  is_maskupdate r' = false /\
  color_base_format r' = SCE_GXM_COLOR_BASE_FORMAT_U8U8U8U8 ext /\
  exists tr1 tr2 zls ds pass width height fb,
    trace w' =
      trace w ++ tr1 ++
      [RetrieveRenderPass eR8G8B8A8Unorm zls pass;
       RetrieveFramebufferHandle None ds pass width height fb] ++ tr2 /\
    Forall (fun e => is_cache_lookup e = false) (tr1 ++ tr2).
Proof.
  intros Hdata H r'. subst r'.
  destruct (set_context_summary _ _ _ _ _ H)
    as (p & target & target' & tr1 & tr2 & pass & fb & _ & _ & _ & _ & _ & _
        & _ & Hrec & _ & _ & _ & _ & _ & _ & _ & _ & Htr & Hev).
  rewrite Hrec.
  assert (color_is_null (record (ctx w)) = true) as Hnull
    by (unfold color_is_null; rewrite Hdata; reflexivity).
  unfold scene_record. rewrite Hnull.
  do 4 (split; [reflexivity|]).
  unfold scene_format, color_surface_fin in Htr. rewrite Hnull in Htr.
  assert (Forall (fun e => is_cache_lookup e = false) (tr1 ++ tr2)) as Hev'
    by (eapply Forall_impl; [exact Hev|]; apply no_setup_no_lookup).
  apply Forall_app in Hev'. destruct Hev' as [Hev1 Hev2].
  eexists (SetRenderTarget (Some p) :: tr1),
    ((if use_mask_bit (features (state (ctx w))) then [SyncMask] else [])
     ++ tr2), _, _, pass, _, _, fb.
  split.
  - rewrite Htr. cbn [app]. reflexivity.
  - apply Forall_app_2; [constructor; [reflexivity|assumption]|].
    apply Forall_app_2; [|assumption]. events.
Qed.

Lemma C8_witness :
  let w' := run (set_context example_ext None example_features)
              example_null_color_world in
  is_gamma_corrected (record (ctx w')) = false /\
  downscale (color_surface (record (ctx w'))) = false /\
  is_maskupdate (record (ctx w')) = false.
Proof.
  destruct (C8_null_color_surface_takes_defaults example_ext None
              example_features example_null_color_world
              (run (set_context example_ext None example_features)
                 example_null_color_world))
    as (H1 & H2 & H3 & _); try (vm_compute; reflexivity).
  repeat split; assumption.
Defined.

(** C2: the dispatcher handles the requests in queue order: a run over
    [q1 ++ PostSurfaceSyncRequest info :: q2] is the run over [q1], then
    the request, then the run over [q2], and stops at the first failed
    wait.  When the request is reached and its flush succeeds, the call
    of [perform_post_surface_sync] comes after successful waits on every
    fence of the requests of [q1] (none is left in the batch); when the
    flush fails the call is not made and the thread stops. *)
Theorem C2_post_surface_sync_after_earlier_fences
    ext q1 info q2 st st' ok :
  wait_thread_function ext (q1 ++ PostSurfaceSyncRequest info :: q2) st
  = (st', ok) ->
  exists st1 ok1,
    wait_thread_function ext q1 st = (st1, ok1) /\
    if ok1 then
      exists st2 ok2,
        handle_request ext (PostSurfaceSyncRequest info) st1 = (st2, ok2) /\
        if ok2 then
          wait_thread_loop ext q2 st2 = (st', ok) /\
          pending_fences st2 = [] /\
          exists tr,
            wait_trace st2 =
              wait_trace st ++ tr ++ [PerformPostSurfaceSync info] /\
            signaled tr = fences_of q1
        else
          (st', ok) = (st2, false) /\
          exists tr result,
            result <> eSuccess /\
            wait_trace st' =
              wait_trace st ++ tr ++ failed_wait (pending_fences st1) result /\
            signaled tr ++ pending_fences st1 = fences_of q1
    else (st', ok) = (st1, false).
Proof.
  intros H. apply run_then_request in H.
  destruct H as (st1 & ok1 & H1 & H). exists st1, ok1. split; [exact H1|].
  destruct ok1; [|exact H].
  destruct H as (st2 & ok2 & H2 & H). exists st2, ok2. split; [exact H2|].
  destruct ok2.
  - destruct H as (Hloop & tr & Htr & Hs & Hf). specialize (Hf eq_refl).
    split; [exact Hloop|]. split; [exact Hf|].
    exists tr. split; [exact Htr|].
    rewrite Hf, fences_of_app, !app_nil_r in Hs. exact Hs.
  - destruct H as (Heq & _ & tr & result & Hres & Htr & Hs & _).
    split; [exact Heq|]. exists tr, result.
    cbn [fences_of flat_map] in Htr. rewrite app_nil_r in Htr. auto.
Qed.

Lemma C2_witness :
  let q1 := [NotificationRequest (no_notification, no_notification) 30;
             NotificationRequest (no_notification, no_notification) 31] in
  exists tr,
    wait_trace
      (fst (wait_thread_function example_ext
              (q1 ++ [PostSurfaceSyncRequest 3000]) example_thread))
    = tr ++ [PerformPostSurfaceSync 3000] /\
    signaled tr = [30; 31].
Proof.
  intros q1.
  destruct (C2_post_surface_sync_after_earlier_fences example_ext q1 3000 []
              example_thread
              (fst (wait_thread_function example_ext
                      (q1 ++ [PostSurfaceSyncRequest 3000]) example_thread))
              true) as (st1 & ok1 & H1 & H); [vm_compute; reflexivity|].
  vm_compute in H1. injection H1 as <- <-.
  destruct H as (st2 & ok2 & H2 & H).
  vm_compute in H2. injection H2 as <- <-.
  destruct H as (_ & _ & tr & Htr & Hs).
  exists tr. split; [|exact Hs].
  vm_compute in Htr. vm_compute. exact Htr.
Defined.

(** C3: when the dispatcher reaches a [NotificationRequest]: if neither
    notification has an address, handling it only adds its fence to the
    batch (no wait, no guest write, no notify); otherwise the batch with
    this fence is waited on first, and only if that wait succeeds are the
    notification mutex taken, the value of each notification that has an
    address stored at that address, the mutex released and the waiters
    notified, in this order and after successful waits on every fence of
    the earlier requests and this one; if the wait fails guest memory
    is untouched and the thread stops. *)
Theorem C3_notification_written_after_successful_wait
    ext q1 n0 n1 fence q2 st st' ok :
  wait_thread_function ext (q1 ++ NotificationRequest (n0, n1) fence :: q2) st
  = (st', ok) ->
  exists st1 ok1,
    wait_thread_function ext q1 st = (st1, ok1) /\
    if ok1 then
      exists st2 ok2,
        handle_request ext (NotificationRequest (n0, n1) fence) st1
        = (st2, ok2) /\
        if (address n0 =? 0) && (address n1 =? 0) then
          ok2 = true /\
          st2 = set_pending_fences (pending_fences st1 ++ [fence]) st1
        else if ok2 then
          pending_fences st2 = [] /\
          mem st2 = store n1 (store n0 (mem st1)) /\
          exists tr,
            wait_trace st2 =
              wait_trace st ++ tr ++
              [LockNotificationMutex] ++ writes n0 ++ writes n1 ++
              [UnlockNotificationMutex; NotifyAllNotificationReady] /\
            signaled tr = fences_of q1 ++ [fence]
        else
          (st', ok) = (st2, false) /\
          mem st2 = mem st1 /\
          exists tr result,
            result <> eSuccess /\
            wait_trace st2 =
              wait_trace st ++ tr ++
              failed_wait (pending_fences st1 ++ [fence]) result
    else (st', ok) = (st1, false).
Proof.
  intros H. apply run_then_request in H.
  destruct H as (st1 & ok1 & H1 & H). exists st1, ok1. split; [exact H1|].
  destruct ok1; [|exact H].
  destruct H as (st2 & ok2 & H2 & H). exists st2, ok2. split; [exact H2|].
  assert (flushes (NotificationRequest (n0, n1) fence)
          = negb ((address n0 =? 0) && (address n1 =? 0))) as Hfl
    by (cbn; destruct (address n0 =? 0), (address n1 =? 0); reflexivity).
  pose proof (handle_request_cases ext (NotificationRequest (n0, n1) fence)
                st1) as Hc.
  rewrite H2, Hfl in Hc. unfold effects_of in H. rewrite Hfl in H.
  destruct ((address n0 =? 0) && (address n1 =? 0)); cbn [negb] in *.
  - injection Hc as -> ->. split; reflexivity.
  - destruct (wait_for_fences ext _) as [st3 [|]] eqn:W.
    + injection Hc as -> ->.
      destruct H as (_ & tr & Htr & Hs & Hf). specialize (Hf eq_refl).
      split; [exact Hf|]. split.
      * apply wait_for_fences_ok in W. destruct W as (_ & Hm & _).
        unfold effected. rewrite Hfl. cbn. rewrite Hm. reflexivity.
      * exists tr. split; [exact Htr|].
        rewrite Hf, fences_of_app, app_nil_r in Hs. exact Hs.
    + injection Hc as -> ->.
      destruct H as (Heq & _ & tr & result & Hres & Htr & _ & Hm & _).
      injection Heq as -> ->.
      split; [reflexivity|]. split; [exact Hm|]. exists tr, result. auto.
Qed.

Lemma C3_witness :
  let r := NotificationRequest (notification_a, notification_b) 31 in
  let q1 := [NotificationRequest (no_notification, no_notification) 30] in
  let st' := fst (wait_thread_function example_ext (q1 ++ [r])
                    example_thread) in
  mem st' = {[ 4096 := 1; 4100 := 2 ]} /\
  exists tr,
    wait_trace st' =
      tr ++ [LockNotificationMutex; GuestWrite 4096 1; GuestWrite 4100 2;
             UnlockNotificationMutex; NotifyAllNotificationReady] /\
    signaled tr = [30; 31].
Proof.
  intros r q1 st'.
  destruct (C3_notification_written_after_successful_wait example_ext q1
              notification_a notification_b 31 [] example_thread st' true)
    as (st1 & ok1 & H1 & H); [vm_compute; reflexivity|].
  vm_compute in H1. injection H1 as <- <-.
  destruct H as (st2 & ok2 & H2 & H).
  vm_compute in H2. injection H2 as <- <-.
  cbn [address notification_a notification_b Z.eqb andb] in H.
  destruct H as (_ & Hm & tr & Htr & Hs).
  split; [vm_compute; reflexivity|].
  exists tr. split; [|exact Hs].
  vm_compute in Htr. vm_compute. exact Htr.
Defined.

(** * Further properties of the dispatcher *)

(** X16: no fence is lost or reordered: after a run that came to the end
    of the queue, the fences of the successful waits followed by the
    fences still in the batch are exactly the fences of the
    [NotificationRequest]s of the queue, in queue order. *)
Theorem X16_fences_signaled_or_batched_in_order ext q st st' :
  wait_thread_function ext q st = (st', true) ->
  exists tr,
    wait_trace st' = wait_trace st ++ tr /\
    signaled tr ++ pending_fences st' = fences_of q.
Proof.
  unfold wait_thread_function. intros H.
  apply wait_thread_loop_ok in H. exact H.
Qed.

Lemma X16_witness :
  let q := [NotificationRequest (notification_a, no_notification) 30;
            NotificationRequest (no_notification, no_notification) 31] in
  exists tr,
    wait_trace (fst (wait_thread_function example_ext q example_thread))
    = [] ++ tr /\
    signaled tr
    ++ pending_fences (fst (wait_thread_function example_ext q example_thread))
    = [30; 31].
Proof.
  intros q.
  apply (X16_fences_signaled_or_batched_in_order example_ext q example_thread
           (fst (wait_thread_function example_ext q example_thread))).
  vm_compute. reflexivity.
Defined.

(** X17: a frame is reported done only after its fences: when a run
    reaches a [FrameDoneRequest] and handles it, [last_frame_waited] is
    the request's timestamp, set under the new-frame mutex and followed by
    one [notify_one], after successful waits on every fence of the
    requests before it; the batch is empty afterwards. *)
Theorem X17_frame_done_after_all_fences ext q ts st st' :
  wait_thread_function ext (q ++ [FrameDoneRequest ts]) st = (st', true) ->
  last_frame_waited st' = ts /\
  pending_fences st' = [] /\
  exists tr,
    wait_trace st' =
      wait_trace st ++ tr ++
      [LockNewFrameMutex; SetLastFrameWaited ts; UnlockNewFrameMutex;
       NotifyOneNewFrame] /\
    signaled tr = fences_of q.
Proof.
  intros H. apply run_then_request in H.
  destruct H as (st1 & [|] & H1 & H); [|discriminate].
  destruct H as (st2 & [|] & H2 & H).
  2: { destruct H as (H & _). discriminate. }
  destruct H as (Hloop & tr & Htr & Hs & Hf).
  cbn in Hloop. injection Hloop as <-.
  specialize (Hf eq_refl).
  split; [apply handle_request_last_frame in H2; exact H2|].
  split; [exact Hf|].
  exists tr. split; [exact Htr|].
  rewrite Hf, fences_of_app, !app_nil_r in Hs. exact Hs.
Qed.

Lemma X17_witness :
  let q := [NotificationRequest (no_notification, no_notification) 30] in
  last_frame_waited
    (fst (wait_thread_function example_ext (q ++ [FrameDoneRequest 9])
            example_thread)) = 9.
Proof.
  intros q.
  apply (X17_frame_done_after_all_fences example_ext q 9 example_thread
           (fst (wait_thread_function example_ext (q ++ [FrameDoneRequest 9])
                   example_thread))).
  vm_compute. reflexivity.
Defined.

(** X18: a failed wait is the last thing the dispatcher does: a run that
    stops early stopped in a request that flushes; the requests before it
    were handled to their end, and after them there are only the failed
    wait on the batch, the error message and the assertion: no guest
    write, no notify, no new [last_frame_waited], and none of the
    requests behind it is handled. *)
Theorem X18_failed_wait_ends_the_dispatcher ext q st st' :
  wait_thread_function ext q st = (st', false) ->
  exists q1 r q2 st1 result,
    q = q1 ++ r :: q2 /\
    wait_thread_function ext q1 st = (st1, true) /\
    flushes r = true /\
    result <> eSuccess /\
    wait_trace st' =
      wait_trace st1 ++
      failed_wait (pending_fences st1 ++ fences_of [r]) result /\
    mem st' = mem st1 /\
    last_frame_waited st' = last_frame_waited st1.
Proof.
  unfold wait_thread_function. intros H.
  apply wait_thread_loop_failed in H.
  destruct H as (q1 & r & q2 & st1 & -> & H1 & H2).
  apply handle_request_failed in H2. destruct H2 as (Hf & Hres & ->).
  exists q1, r, q2, st1. eexists. repeat split; eauto.
Qed.

Lemma X18_witness :
  let q := [NotificationRequest (no_notification, no_notification) 30;
            FrameDoneRequest 9;
            NotificationRequest (notification_a, notification_b) 31] in
  exists q1 r q2 st1,
    q = q1 ++ r :: q2 /\
    mem (fst (wait_thread_function failing_ext q example_thread)) = mem st1 /\
    last_frame_waited (fst (wait_thread_function failing_ext q example_thread))
    = last_frame_waited st1.
Proof.
  intros q.
  destruct (X18_failed_wait_ends_the_dispatcher failing_ext q example_thread
              (fst (wait_thread_function failing_ext q example_thread)))
    as (q1 & r & q2 & st1 & result & Hq & _ & _ & _ & _ & Hm & Hl);
    [vm_compute; reflexivity|].
  exists q1, r, q2, st1. auto.
Defined.


(** X21: notification requests without an address cost no device call: a
    queue of such requests leaves the thread with nothing done (no wait,
    no write, no notify) and all their fences, in order, in the batch. *)
Theorem X21_requests_without_address_only_batch ext q st :
  forallb only_batched q = true ->
  let (st', ok) := wait_thread_function ext q st in
  ok = true /\
  pending_fences st' = fences_of q /\
  wait_trace st' = wait_trace st /\
  mem st' = mem st /\
  last_frame_waited st' = last_frame_waited st.
Proof.
  intros H. unfold wait_thread_function.
  rewrite (wait_thread_loop_only_batched _ _ _ H). repeat split.
Qed.

Lemma X21_witness :
  let q := [NotificationRequest (no_notification, no_notification) 30;
            NotificationRequest (no_notification, no_notification) 31] in
  let (st', ok) := wait_thread_function example_ext q example_thread in
  ok = true /\
  pending_fences st' = fences_of q /\
  wait_trace st' = wait_trace example_thread /\
  mem st' = mem example_thread /\
  last_frame_waited st' = last_frame_waited example_thread.
Proof.
  intros q.
  apply (X21_requests_without_address_only_batch example_ext q example_thread).
  vm_compute. reflexivity.
Defined.

(** X22: a burst of fences costs one wait: when requests that only batch
    are followed by a [FrameDoneRequest], the device is asked to wait
    exactly once, for all the fences of the burst together (and not at
    all when there is none), before the frame is reported done. *)
Theorem X22_burst_is_flushed_by_one_wait ext q ts st :
  forallb only_batched q = true ->
  wait_for_fences_result ext (wait_trace st) (fences_of q) = eSuccess ->
  wait_thread_function ext (q ++ [FrameDoneRequest ts]) st =
  ({| pending_fences := [];
      mem := mem st;
      last_frame_waited := ts;
      wait_trace :=
        wait_trace st ++
        match fences_of q with
        | [] => []
        | _ :: _ => [WaitForFences (fences_of q) eSuccess]
        end ++
        [LockNewFrameMutex; SetLastFrameWaited ts; UnlockNewFrameMutex;
         NotifyOneNewFrame] |}, true).
Proof.
  intros Hq Hres. unfold wait_thread_function.
  rewrite wait_thread_loop_app, (wait_thread_loop_only_batched _ _ _ Hq).
  cbn [wait_thread_loop]. rewrite handle_request_cases. cbn [flushes].
  unfold batched. cbn [fences_of flat_map]. rewrite wait_for_fences_cases.
  cbn. rewrite !app_nil_r.
  destruct (fences_of q) as [|f fs] eqn:E.
  - reflexivity.
  - rewrite Hres. cbn. unfold effected. cbn [effects_of]. rsimpl.
    rewrite <- ?app_assoc. reflexivity.
Qed.

Lemma X22_witness :
  let q := [NotificationRequest (no_notification, no_notification) 30;
            NotificationRequest (no_notification, no_notification) 31] in
  wait_trace
    (fst (wait_thread_function example_ext (q ++ [FrameDoneRequest 9])
            example_thread))
  = [WaitForFences [30; 31] eSuccess; LockNewFrameMutex; SetLastFrameWaited 9;
     UnlockNewFrameMutex; NotifyOneNewFrame].
Proof.
  intros q.
  rewrite (X22_burst_is_flushed_by_one_wait example_ext q 9 example_thread);
    vm_compute; reflexivity.
Defined.

(** * Further properties of the render thread *)

(** X1: [set_context] binds the render target it is given, or the
    current one when it is given a null pointer; it advances the scene
    timestamp by one (modulo 2^64) and leaves the context recording; the
    state, the frame timestamp, the current render target and the request
    queue are as before. *)
Theorem X1_set_context_binds_target_and_records ext rt f w w' :
  set_context ext rt f w = Some (tt, w') ->
  render_target (ctx w') =
    match rt with
    | Some _ => rt
    | None => current_render_target (ctx w)
    end /\
  scene_timestamp (ctx w') = (scene_timestamp (ctx w) + 1) mod 2 ^ 64 /\
  is_recording (ctx w') = true /\
  state (ctx w') = state (ctx w) /\
  frame_timestamp (ctx w') = frame_timestamp (ctx w) /\
  current_render_target (ctx w') = current_render_target (ctx w) /\
  request_queue (ctx w') = request_queue (ctx w).
Proof.
  intros H.
  destruct (set_context_summary _ _ _ _ _ H)
    as (p & target & target' & tr1 & tr2 & pass & fb & Hp & _ & _ & _ & _ & _
        & Hst & _ & Hrt & Hcur & Hsc & Hft & Hq & Hrec & _).
  unfold bound_target in Hp. rewrite Hrt, <- Hp. auto 10.
Qed.

Lemma X1_witness :
  render_target
    (ctx (run (set_context example_ext None example_features) example_world))
  = Some 7%nat /\
  scene_timestamp
    (ctx (run (set_context example_ext None example_features) example_world))
  = 1.
Proof.
  destruct (X1_set_context_binds_target_and_records example_ext None
              example_features example_world
              (run (set_context example_ext None example_features)
                 example_world)) as (H1 & H2 & _);
    [vm_compute; reflexivity|].
  split; [exact H1|]. rewrite H2. reflexivity.
Defined.

(** X2: the [features] argument of [set_context] is not read: the mask
    bit that decides on [sync_mask] and on the descriptor count is the one
    of the context's own state. *)
Theorem X2_set_context_ignores_features_argument ext rt f1 f2 w w' :
  set_context ext rt f1 w = Some (tt, w') ->
  set_context ext rt f2 w = Some (tt, w') /\
  exists tr,
    trace w' = trace w ++ tr /\
    (SyncMask ∈ tr <-> use_mask_bit (features (state (ctx w))) = true).
Proof.
  intros H. split; [exact H|].
  destruct (set_context_summary _ _ _ _ _ H)
    as (p & target & target' & tr1 & tr2 & pass & fb & _ & _ & _ & _ & _ & _
        & _ & _ & _ & _ & _ & _ & _ & _ & _ & _ & Htr & Hev).
  eexists; split; [exact Htr|].
  apply Forall_app in Hev. destruct Hev as [Hev1 Hev2].
  rewrite Forall_forall in Hev1, Hev2.
  rewrite !elem_of_app, !elem_of_cons, elem_of_nil.
  destruct (use_mask_bit (features (state (ctx w)))).
  - split; [reflexivity|]. intros _. do 3 right. left. constructor.
  - split; [|discriminate]. intros Hin. exfalso.
    rewrite elem_of_nil in Hin.
    destruct Hin as [[Hin|[]]|[Hin|[[Hin|[Hin|[]]]|[[]|Hin]]]];
      try discriminate.
    + apply Hev1 in Hin. discriminate.
    + apply Hev2 in Hin. discriminate.
Qed.

Lemma X2_witness :
  set_context example_ext None
    {| use_mask_bit := false; support_memory_mapping := false |} example_world
  = Some (tt, run (set_context example_ext None example_features)
                example_world).
Proof.
  apply (X2_set_context_ignores_features_argument example_ext None
           example_features
           {| use_mask_bit := false; support_memory_mapping := false |}
           example_world).
  vm_compute. reflexivity.
Defined.

(** X3: a gamma-corrected color surface whose format translates to
    R8G8B8A8 unorm is rendered as sRGB: with a non-null data address and a
    non-zero gamma, the one render pass lookup of [set_context] asks for
    R8G8B8A8 sRGB, the framebuffer lookup gets the color surface itself,
    and the record has gamma correction on and the base format of the
    surface. *)
Theorem X3_gamma_corrected_unorm_is_rendered_as_srgb ext rt f w w' cs :
  color_surface (record (ctx w)) = cs ->
  data cs <> 0 ->
  gamma cs <> 0 ->
  translate_format ext (get_base_format ext (colorFormat cs)) = eR8G8B8A8Unorm ->
  set_context ext rt f w = Some (tt, w') ->
  is_gamma_corrected (record (ctx w')) = true /\
  color_base_format (record (ctx w')) = get_base_format ext (colorFormat cs) /\
  color_surface (record (ctx w')) = cs /\
  exists tr1 tr2 zls ds pass width height fb,
    trace w' =
      trace w ++ tr1 ++
      [RetrieveRenderPass eR8G8B8A8Srgb zls pass;
       RetrieveFramebufferHandle (Some cs) ds pass width height fb] ++ tr2 /\
    Forall (fun e => is_cache_lookup e = false) (tr1 ++ tr2).
Proof.
  intros <- Hdata Hgamma Hfmt H.
  destruct (set_context_summary _ _ _ _ _ H)
    as (p & target & target' & tr1 & tr2 & pass & fb & _ & _ & _ & _ & _ & _
        & _ & Hrec & _ & _ & _ & _ & _ & _ & _ & _ & Htr & Hev).
  rewrite Hrec.
  assert (color_is_null (record (ctx w)) = false) as Hnull
    by (unfold color_is_null; apply Z.eqb_neq; exact Hdata).
  apply Z.eqb_neq in Hgamma.
  unfold scene_record. rewrite Hnull. cbn. rewrite Hgamma.
  do 3 (split; [reflexivity|]).
  unfold scene_format, color_surface_fin in Htr.
  rewrite Hnull, Hgamma, Hfmt in Htr. cbn [negb andb Z.eqb Pos.eqb] in Htr.
  unfold scene_record in Htr. rewrite Hnull in Htr. cbn in Htr.
  assert (Forall (fun e => is_cache_lookup e = false) (tr1 ++ tr2)) as Hev'
    by (eapply Forall_impl; [exact Hev|]; apply no_setup_no_lookup).
  apply Forall_app in Hev'. destruct Hev' as [Hev1 Hev2].
  eexists (SetRenderTarget (Some p) :: tr1),
    ((if use_mask_bit (features (state (ctx w))) then [SyncMask] else [])
     ++ tr2), _, _, pass, _, _, fb.
  split.
  - rewrite Htr. cbn [app]. reflexivity.
  - apply Forall_app_2; [constructor; [reflexivity|assumption]|].
    apply Forall_app_2; [|assumption]. events.
Qed.

Lemma X3_witness :
  is_gamma_corrected
    (record (ctx (run (set_context example_ext None example_features)
                    example_gamma_world))) = true.
Proof.
  destruct (X3_gamma_corrected_unorm_is_rendered_as_srgb example_ext None
              example_features example_gamma_world
              (run (set_context example_ext None example_features)
                 example_gamma_world)
              {| colorFormat := 0; gamma := 1; data := 4096;
                 downscale := false |}) as (H1 & _);
    [vm_compute; reflexivity | vm_compute; discriminate
    | vm_compute; discriminate | vm_compute; reflexivity
    | vm_compute; reflexivity | exact H1].
Defined.

(** X4: what [set_context] hands to the framebuffer lookup: the
    depth-stencil surface of the record, or a null pointer when both its
    depth and its stencil data address are null; the render pass just
    looked up with that surface's [zlsControl]; and the extent of the
    bound render target as the scene sees it, doubled (modulo the width
    of the fields) for a multisampled target that is not downscaled.  The
    render target holds that extent when [set_context] returns. *)
Theorem X4_framebuffer_lookup_arguments ext rt f w w' p target :
  bound_target rt (ctx w) = Some p ->
  targets w !! p = Some target ->
  set_context ext rt f w = Some (tt, w') ->
  let cs := color_surface (record (ctx w)) in
  let ds := depth_stencil_surface (record (ctx w)) in
  let upscale :=
    multisample_mode target
    && negb (if data cs =? 0 then false else downscale cs) in
  let width' :=
    if upscale then double_extent ext (width target) else width target in
  let height' :=
    if upscale then double_extent ext (height target) else height target in
  exists target' tr1 tr2 fmt color pass fb,
    targets w' !! p = Some target' /\
    width target' = width' /\ height target' = height' /\
    trace w' =
      trace w ++ tr1 ++
      [RetrieveRenderPass fmt (zlsControl ds) pass;
       RetrieveFramebufferHandle color
         (if (depthData ds =? 0) && (stencilData ds =? 0) then None
          else Some ds)
         pass width' height' fb] ++ tr2 /\
    Forall (fun e => is_cache_lookup e = false) (tr1 ++ tr2).
Proof.
  intros Hp Hrt H cs ds upscale width' height'.
  destruct (set_context_summary _ _ _ _ _ H)
    as (p0 & target0 & target' & tr1 & tr2 & pass & fb & Hp0 & Hrt0 & Hrt'
        & Hext & _ & _ & _ & _ & _ & _ & _ & _ & _ & _ & _ & _ & Htr & Hev).
  assert (p0 = p) as -> by congruence.
  assert (target0 = target) as -> by congruence.
  rewrite scene_record_downscale in Hext. fold cs upscale in Hext.
  destruct Hext as (_ & Hw & Hh & _).
  assert (width target' = width' /\ height target' = height') as [Hw' Hh'].
  { unfold width', height'. rewrite Hw, Hh.
    destruct upscale; split; reflexivity. }
  assert (Forall (fun e => is_cache_lookup e = false) (tr1 ++ tr2)) as Hev'
    by (eapply Forall_impl; [exact Hev|]; apply no_setup_no_lookup).
  apply Forall_app in Hev'. destruct Hev' as [Hev1 Hev2].
  exists target', (SetRenderTarget (Some p) :: tr1),
    ((if use_mask_bit (features (state (ctx w))) then [SyncMask] else [])
     ++ tr2).
  eexists _, _, pass, fb.
  split; [exact Hrt'|]. split; [exact Hw'|]. split; [exact Hh'|].
  split.
  - rewrite Htr, Hw', Hh'. unfold ds_surface_fin.
    rewrite !scene_record_depth_stencil. cbn [app]. reflexivity.
  - apply Forall_app_2; [constructor; [reflexivity|assumption]|].
    apply Forall_app_2; [|assumption]. events.
Qed.

Lemma X4_witness :
  exists target',
    targets (run (set_context example_ext None example_features)
               example_world) !! 7%nat = Some target' /\
    width target' = 1920 /\ height target' = 1088.
Proof.
  destruct (X4_framebuffer_lookup_arguments example_ext None example_features
              example_world
              (run (set_context example_ext None example_features)
                 example_world) 7%nat example_target)
    as (target' & _ & _ & _ & _ & _ & _ & Ht & Hw & Hh & _);
    [vm_compute; reflexivity | vm_compute; reflexivity
    | vm_compute; reflexivity |].
  exists target'. split; [exact Ht|].
  rewrite Hw, Hh. vm_compute. split; reflexivity.
Defined.

(** X14: doubling a dimension and halving it again gives the dimension
    back exactly for the values below half the range of its unsigned
    type; for the values of the upper half the doubling wraps and the
    dimension is lost. *)
Theorem X14_doubling_is_undone_below_half_the_range ext x :
  0 < extent_bits ext ->
  0 <= x < 2 ^ extent_bits ext ->
  double_extent ext x / 2 = x <-> x < 2 ^ (extent_bits ext - 1).
Proof.
  intros Hbits Hx. unfold double_extent.
  assert (2 ^ extent_bits ext = 2 * 2 ^ (extent_bits ext - 1)) as Hpow.
  { rewrite <- Z.pow_succ_r by lia. f_equal. lia. }
  assert (0 < 2 ^ (extent_bits ext - 1)) as Hpos
    by (apply Z.pow_pos_nonneg; lia).
  split.
  - intros Heq. destruct (Z_lt_ge_dec x (2 ^ (extent_bits ext - 1)))
      as [Hlt|Hge]; [exact Hlt|]. exfalso.
    assert ((x * 2) mod 2 ^ extent_bits ext
            = x * 2 - 2 ^ extent_bits ext) as Hmod.
    { symmetry. apply Z.mod_unique with (q := 1); lia. }
    rewrite Hmod, Hpow in Heq.
    replace (x * 2 - 2 * 2 ^ (extent_bits ext - 1))
      with ((x - 2 ^ (extent_bits ext - 1)) * 2) in Heq by lia.
    rewrite Z.div_mul in Heq by lia. lia.
  - intros Hlt. rewrite Z.mod_small by lia. apply Z.div_mul. lia.
Qed.

Lemma X14_witness :
  double_extent example_ext 960 / 2 = 960 <-> 960 < 2 ^ (16 - 1).
Proof.
  apply (X14_doubling_is_undone_below_half_the_range example_ext 960);
    vm_compute; [reflexivity | split; [discriminate|reflexivity]].
Defined.

(** X8: the order in which [stop_recording] closes a scene that has a
    query open, a render pass open and query results pending: the query is
    ended first, then the render pass, then the results of the queries 0
    to [visibility_max_used_idx] are copied, all on the render command
    buffer; then comes the surface sync, if any, and only then are the
    pre-render and the render command buffer ended and submitted.
    Afterwards no query and no render pass is open and no result is
    pending. *)
Theorem X8_stop_recording_closes_in_order ext n1 n2 w w' c vb :
  ctx w = c ->
  is_recording c = true ->
  is_in_query c = true ->
  in_renderpass c = true ->
  visibility_max_used_idx c <> -1 ->
  current_visibility_buffer c = Some vb ->
  stop_recording ext n1 n2 w = Some (tt, w') ->
  exists fence sync,
    trace w' =
      trace w ++
      [CmdEndQuery (render_cmd c) (query_pool vb) (current_query_idx c);
       CmdEndRenderPass (render_cmd c);
       CmdCopyQueryPoolResults (render_cmd c) (query_pool vb) 0
         (visibility_max_used_idx c + 1) (gpu_buffer vb) (buffer_offset vb)]
      ++ sync ++
      [CmdEnd (prerender_cmd c); CmdEnd (render_cmd c);
       QueueSubmit [prerender_cmd c; render_cmd c] fence] /\
    (sync = [] \/ exists info, sync = [PerformSurfaceSync info]) /\
    is_in_query (ctx w') = false /\
    in_renderpass (ctx w') = false /\
    visibility_max_used_idx (ctx w') = -1.
Proof.
  intros <- Hrec Hq Hin Hvis Hvb H.
  destruct (stop_recording_spec _ _ _ _ _ Hrec H)
    as (p & rt & fence & fr & info & _ & _ & _ & _ & _ & Htr & _ & Hctx & _).
  exists fence, (surface_sync_events (ctx w) info).
  split.
  - rewrite Htr. unfold end_query_events, end_render_pass_events,
      copy_query_events. apply Z.eqb_neq in Hvis.
    rewrite Hq, Hin, Hvis, Hvb. reflexivity.
  - split.
    + unfold surface_sync_events. destruct (_ && _); eauto.
    + rewrite Hctx. repeat split.
Qed.

Lemma X8_witness :
  exists fence sync,
    trace (run (stop_recording example_ext notification_a notification_b)
             example_query_world)
    = trace example_query_world ++
      [CmdEndQuery 10 40 5; CmdEndRenderPass 10;
       CmdCopyQueryPoolResults 10 40 0 6 41 64] ++ sync ++
      [CmdEnd 20; CmdEnd 10; QueueSubmit [20; 10] fence].
Proof.
  destruct (X8_stop_recording_closes_in_order example_ext notification_a
              notification_b example_query_world
              (run (stop_recording example_ext notification_a notification_b)
                 example_query_world)
              (ctx example_query_world)
              {| query_pool := 40; gpu_buffer := 41; buffer_offset := 64 |})
    as (fence & sync & Htr & _);
    [reflexivity | vm_compute; reflexivity | vm_compute; reflexivity
    | vm_compute; reflexivity | vm_compute; discriminate
    | vm_compute; reflexivity | vm_compute; reflexivity |].
  exists fence, sync. rewrite Htr. vm_compute. reflexivity.
Defined.

(** X9: [stop_recording] asks the surface cache for a sync exactly when
    memory mapping is supported and surface sync is not disabled, and then
    exactly once. *)
Theorem X9_surface_sync_iff_mapped_and_enabled ext n1 n2 w w' :
  is_recording (ctx w) = true ->
  stop_recording ext n1 n2 w = Some (tt, w') ->
  exists evs,
    trace w' = trace w ++ evs /\
    length (List.filter is_surface_sync evs) =
      if support_memory_mapping (features (state (ctx w)))
         && negb (disable_surface_sync (state (ctx w)))
      then 1%nat else 0%nat.
Proof.
  intros Hrec H.
  destruct (stop_recording_spec _ _ _ _ _ Hrec H)
    as (p & rt & fence & fr & info & _ & _ & _ & _ & _ & Htr & _).
  eexists; split; [exact Htr|].
  unfold end_query_events, end_render_pass_events, copy_query_events,
    surface_sync_events.
  rewrite !List.filter_app.
  destruct (is_in_query _), (current_visibility_buffer _), (in_renderpass _),
    (visibility_max_used_idx _ =? -1), (_ && _); reflexivity.
Qed.

Lemma X9_witness :
  exists evs,
    trace (run (stop_recording example_ext notification_a notification_b)
             example_unmapped_world)
    = trace example_unmapped_world ++ evs /\
    length (List.filter is_surface_sync evs) = 0%nat.
Proof.
  apply (X9_surface_sync_iff_mapped_and_enabled example_ext notification_a
           notification_b example_unmapped_world
           (run (stop_recording example_ext notification_a notification_b)
              example_unmapped_world));
    vm_compute; reflexivity.
Defined.

(** X10: what [stop_recording] leaves alone: it allocates no handle and
    keeps the binding (state, record, render target, timestamps, frame
    index); of the render targets it touches only the bound one, and of
    that one only [fence_idx] and the extent: pools, [cmd_buffer_idx],
    [last_used_frame], multisample mode and mask are as before. *)
Theorem X10_stop_recording_touches_only_fence_idx_and_extent
    ext n1 n2 w w' q rt :
  is_recording (ctx w) = true ->
  targets w !! q = Some rt ->
  stop_recording ext n1 n2 w = Some (tt, w') ->
  same_binding (ctx w) (ctx w') /\
  next_handle w' = next_handle w /\
  exists rt',
    targets w' !! q = Some rt' /\
    same_pools rt rt' /\
    cmd_buffer_idx rt' = cmd_buffer_idx rt /\
    last_used_frame rt' = last_used_frame rt /\
    multisample_mode rt' = multisample_mode rt /\
    mask_view rt' = mask_view rt /\
    (render_target (ctx w) <> Some q -> rt' = rt).
Proof.
  intros Hrec Hq H.
  destruct (stop_recording_frame _ _ _ _ _ Hrec H)
    as (Hb & Hnh & _ & _ & _ & Htg).
  split; [exact Hb|]. split; [exact Hnh|]. exact (Htg q rt Hq).
Qed.

Lemma X10_witness :
  next_handle (run (stop_recording example_ext notification_a notification_b)
                 example_recording_world)
  = next_handle example_recording_world.
Proof.
  destruct (X10_stop_recording_touches_only_fence_idx_and_extent example_ext
              notification_a notification_b example_recording_world
              (run (stop_recording example_ext notification_a notification_b)
                 example_recording_world)
              7%nat
              (set_cmd_buffer_idx 1%nat (set_last_used_frame 1
                 (set_height 1088 (set_width 1920 example_target)))))
    as (_ & H & _);
    [vm_compute; reflexivity | vm_compute; reflexivity
    | vm_compute; reflexivity | exact H].
Defined.

(** X13: the warning about the scene budget is logged once: a
    [start_recording] that grows the pools logs it exactly when no earlier
    growth has, and remembers the growth; one that does not grow logs
    nothing of the kind and remembers what was remembered. *)
Theorem X13_budget_warning_is_logged_once ext w w' p rt bufs :
  is_recording (ctx w) = false ->
  render_target (ctx w) = Some p ->
  targets w !! p = Some rt ->
  cmd_buffers rt !! current_frame_idx (ctx w) = Some bufs ->
  start_recording ext w = Some (tt, w') ->
  let grows := (scene_base (ctx w) rt =? length bufs)%nat in
  has_happened w' = has_happened w || grows /\
  exists evs,
    trace w' = trace w ++ evs /\
    length (List.filter is_warning evs) =
      if grows && negb (has_happened w) then 1%nat else 0%nat.
Proof.
  intros Hrec Hp Hrt Hb H grows.
  destruct (start_recording_spec _ _ _ _ Hrec Hp H)
    as (rt0 & bufs0 & pre_bufs & cmd & pre & Hrt0 & Hb0 & _ & _ & _ & _ & _
        & _ & _ & Hhh & Htr).
  assert (rt0 = rt) as -> by congruence.
  assert (bufs0 = bufs) as -> by congruence.
  pose proof (start_recording_grows_in_frame ext w w' p rt bufs Hrec Hp Hrt Hb)
    as Hfr.
  subst grows. cbn zeta in Hhh, Htr.
  destruct (scene_base (ctx w) rt =? length bufs)%nat.
  - destruct (Hfr eq_refl H) as (fr & Hfr').
    split; [rewrite Hhh; destruct (has_happened w); reflexivity|].
    eexists; split; [exact Htr|].
    unfold growth_events, begin_events. rewrite Hfr', !List.filter_app.
    destruct (has_happened w), (two_sided _ =? _); reflexivity.
  - split; [rewrite Hhh; destruct (has_happened w); reflexivity|].
    eexists; split; [exact Htr|].
    unfold begin_events. rewrite !List.filter_app.
    destruct (two_sided _ =? _); reflexivity.
Qed.

Lemma X13_witness :
  has_happened (run (start_recording example_ext) example_world_after_two)
  = true /\
  exists evs,
    trace (run (start_recording example_ext) example_world_after_two)
    = trace example_world_after_two ++ evs /\
    length (List.filter is_warning evs) = 1%nat.
Proof.
  destruct (X13_budget_warning_is_logged_once example_ext
              example_world_after_two
              (run (start_recording example_ext) example_world_after_two)
              7%nat
              (set_fence_idx 0%nat (set_cmd_buffer_idx 2%nat
                 (set_last_used_frame 1 example_target)))
              [10; 11])
    as (Hh & evs & Htr & Hn);
    [vm_compute; reflexivity | vm_compute; reflexivity
    | vm_compute; reflexivity | vm_compute; reflexivity
    | vm_compute; reflexivity |].
  split; [rewrite Hh; vm_compute; reflexivity|].
  exists evs. split; [exact Htr|]. rewrite Hn. vm_compute. reflexivity.
Defined.

(** X5: [start_render_pass] starts the recording itself when there is
    none: outside a recording session and with a render target bound, it
    does what [start_recording] followed by [start_render_pass] does. *)
Theorem X5_start_render_pass_starts_recording_first ext w p :
  is_recording (ctx w) = false ->
  in_renderpass (ctx w) = false ->
  render_target (ctx w) = Some p ->
  start_render_pass ext w = (start_recording ext;; start_render_pass ext) w.
Proof.
  intros Hrec Hin Hp.
  change ((start_recording ext;; start_render_pass ext) w)
    with (match start_recording ext w with
          | Some (_, w1) => start_render_pass ext w1
          | None => None
          end).
  destruct (start_recording ext w) as [[[] w1]|] eqn:E.
  - destruct (start_recording_spec _ _ _ _ Hrec Hp E)
      as (rt & bufs & pre_bufs & cmd & pre & _ & _ & _ & _ & _ & _ & _
          & Hctx & _).
    unfold start_render_pass, mbind, M_bind, get_ctx, when, mret, M_ret.
    assert (negb (is_recording (ctx w)) = true) as Hn
      by (rewrite Hrec; reflexivity).
    rewrite Hctx. rsimpl. rsimpl in Hin. rsimpl in Hn. use_conds.
    rewrite E.
    reflexivity.
  - unfold start_render_pass, mbind, M_bind, get_ctx. rewrite Hin, Hrec.
    cbn [negb when]. rewrite E. reflexivity.
Qed.

Lemma X5_witness :
  start_render_pass example_ext (run example_scene example_world)
  = (start_recording example_ext;; start_render_pass example_ext)
      (run example_scene example_world).
Proof.
  apply (X5_start_render_pass_starts_recording_first example_ext
           (run example_scene example_world) 7%nat);
    vm_compute; reflexivity.
Defined.

(** X6: a render pass starts with a clean texture state: after
    [start_render_pass] the first 16 vertex and fragment samplers are
    null and the remaining ones are as before, both texture counts are
    [~0], the pipeline is to be refreshed and none is current, and the
    render target descriptor set is the one just allocated.  The render
    targets are those [start_recording] left, or the ones before. *)
Theorem X6_render_pass_starts_with_clean_texture_state ext w w' :
  in_renderpass (ctx w) = false ->
  start_render_pass ext w = Some (tt, w') ->
  let c' := ctx w' in
  in_renderpass c' = true /\
  refresh_pipeline c' = true /\
  current_pipeline c' = null_handle /\
  last_vert_texture_count c' = -1 /\
  last_frag_texture_count c' = -1 /\
  rendertarget_set c' = next_handle w' - 1 /\
  length (vertex_textures c') = length (vertex_textures (ctx w)) /\
  length (fragment_textures c') = length (fragment_textures (ctx w)) /\
  (forall i, (i < 16)%nat ->
     vertex_textures c' !! i = Some null_handle /\
     fragment_textures c' !! i = Some null_handle) /\
  (forall i, (16 <= i)%nat ->
     vertex_textures c' !! i = vertex_textures (ctx w) !! i /\
     fragment_textures c' !! i = fragment_textures (ctx w) !! i) /\
  (is_recording (ctx w) = true -> targets w' = targets w).
Proof.
  intros Hin H c'. subst c'.
  destruct (start_render_pass_spec _ _ _ Hin H)
    as (w1 & p & rt & fr & color & Hw1 & _ & _ & _ & _ & Hlv & Hlf & _
        & Hctx & Htg & Hnh & _).
  assert (is_recording (ctx w) = true -> targets w' = targets w) as Hlast
    by (intros Hrec; rewrite Hrec in Hw1; subst w1; exact Htg).
  rewrite Hctx, Hnh. rsimpl.
  do 5 (split; [reflexivity|]).
  split; [lia|].
  split; [apply length_cleared; exact Hlv|].
  split; [apply length_cleared; exact Hlf|].
  split; [intros i Hi; split; apply lookup_cleared_lt; exact Hi|].
  split; [intros i Hi; split; apply lookup_cleared_ge; exact Hi|].
  exact Hlast.
Qed.

Lemma X6_witness :
  vertex_textures
    (ctx (run (start_render_pass example_ext) example_between_passes)) !! 3%nat
  = Some null_handle.
Proof.
  destruct (X6_render_pass_starts_with_clean_texture_state example_ext
              example_between_passes
              (run (start_render_pass example_ext) example_between_passes))
    as (_ & _ & _ & _ & _ & _ & _ & _ & H & _);
    [vm_compute; reflexivity | vm_compute; reflexivity |].
  apply (H 3%nat). vm_compute. lia.
Defined.

(** X7: a render pass begun is ended on the command buffer it was begun
    on: inside a recording session, [start_render_pass] followed by
    [stop_render_pass] records the begin of the current render pass on
    the current framebuffer over the extent of the bound render target,
    the descriptor set calls, and the end of the pass, all for the render
    command buffer; the session is then outside a render pass and still
    recording, with the render targets untouched. *)
Theorem X7_render_pass_round_trip ext w w' :
  is_recording (ctx w) = true ->
  in_renderpass (ctx w) = false ->
  (start_render_pass ext;; stop_render_pass) w = Some (tt, w') ->
  let c := ctx w in
  let ds := depth_stencil_surface (record c) in
  exists p rt fr color,
    render_target c = Some p /\
    targets w !! p = Some rt /\
    frames c !! current_frame_idx c = Some fr /\
    current_color_attachment c = Some color /\
    trace w' = trace w ++
      [CmdBeginRenderPass (render_cmd c) (current_render_pass c)
         (current_framebuffer c) (width rt) (height rt) (backgroundDepth ds)
         (Z.land (control_content ds) (stencil_bits ext));
       AllocateDescriptorSets (descriptor_pool fr)
         (attachments_layout (state c)) (next_handle w);
       UpdateDescriptorSets
         (if use_mask_bit (features (state c)) then 2 else 1)
         (next_handle w) (view color) (mask_view rt);
       CmdEndRenderPass (render_cmd c)] /\
    in_renderpass (ctx w') = false /\
    is_recording (ctx w') = true /\
    same_binding c (ctx w') /\
    targets w' = targets w /\
    next_handle w' = next_handle w + 1.
Proof.
  intros Hrec Hin H c ds. subst c ds.
  apply bind_Some in H. destruct H as ([] & w1 & H1 & H2).
  destruct (start_render_pass_spec _ _ _ Hin H1)
    as (w0 & p & rt & fr & color & Hw0 & Hp & Hrt & Hfr & Hcol & _ & _ & Htr
        & Hctx & Htg & Hnh & _).
  rewrite Hrec in Hw0. subst w0.
  assert (in_renderpass (ctx w1) = true) as Hin1 by (rewrite Hctx; reflexivity).
  rewrite (stop_render_pass_spec _ Hin1) in H2.
  injection H2 as <-.
  exists p, rt, fr, color.
  do 4 (split; [assumption|]).
  rsimpl. rsimpl in Htr. rsimpl in Hctx. rsimpl in Htg. rsimpl in Hnh.
  rewrite Htr, Hctx, Htg, Hnh. rsimpl.
  split; [rewrite <- app_assoc; reflexivity|].
  split; [reflexivity|]. split; [exact Hrec|].
  split; [repeat split|]. split; reflexivity.
Qed.

Lemma X7_witness :
  in_renderpass
    (ctx (run (start_render_pass example_ext;; stop_render_pass)
            example_between_passes)) = false /\
  next_handle
    (run (start_render_pass example_ext;; stop_render_pass)
       example_between_passes)
  = next_handle example_between_passes + 1.
Proof.
  destruct (X7_render_pass_round_trip example_ext example_between_passes
              (run (start_render_pass example_ext;; stop_render_pass)
                 example_between_passes))
    as (p & rt & fr & color & _ & _ & _ & _ & _ & Hin & _ & _ & _ & Hnh);
    [vm_compute; reflexivity | vm_compute; reflexivity
    | vm_compute; reflexivity |].
  split; [exact Hin | exact Hnh].
Defined.

(** X11: [set_context] called inside a scene (recording, in a render
    pass) begins nothing: it logs the two errors of [start_recording] and
    [start_render_pass] around the two cache lookups and leaves the
    command buffers and the recording state as they are; but it has bound
    the render target and doubled the extent of an upscaled one once
    more, and the lookups see the doubled extent. *)
Theorem X11_set_context_inside_a_scene ext rt f w w' :
  is_recording (ctx w) = true ->
  in_renderpass (ctx w) = true ->
  set_context ext rt f w = Some (tt, w') ->
  let c := ctx w in
  let r := scene_record ext (record c) in
  exists p target target' pass fb,
    bound_target rt c = Some p /\
    targets w !! p = Some target /\
    target' = (if multisample_mode target && negb (downscale (color_surface r))
               then doubled ext target else target) /\
    targets w' = <[p := target']> (targets w) /\
    render_target (ctx w') = Some p /\
    is_recording (ctx w') = true /\
    in_renderpass (ctx w') = true /\
    render_cmd (ctx w') = render_cmd c /\
    prerender_cmd (ctx w') = prerender_cmd c /\
    next_handle w' = next_handle w /\
    trace w' = trace w ++
      [SetRenderTarget (Some p);
       LogError "Attempt to start recording while already recording";
       RetrieveRenderPass (scene_format ext (record c))
         (zlsControl (depth_stencil_surface r)) pass;
       RetrieveFramebufferHandle
         (color_surface_fin (record c) r) (ds_surface_fin (record c) r)
         pass (width target') (height target') fb] ++
      (if use_mask_bit (features (state c)) then [SyncMask] else []) ++
      [LogError "Starting render pass while already in render pass"].
Proof.
  intros Hrec Hin H c r.
  destruct (set_context_spec _ _ _ _ _ H)
    as (p & target & w2 & target2 & Hp & Hrt & Hstart & Hrt2 & Hpass).
  fold c r in Hstart. cbn zeta in Hpass.
  rewrite start_recording_recording in Hstart by exact Hrec.
  injection Hstart as <-.
  rewrite start_render_pass_in_renderpass in Hpass by exact Hin.
  injection Hpass as <-.
  unfold log_error in Hrt2. rsimpl in Hrt2.
  rewrite lookup_insert_eq in Hrt2. injection Hrt2 as <-.
  eexists p, target, _, _, _.
  split; [exact Hp|]. split; [exact Hrt|]. split; [reflexivity|].
  unfold log_error. rsimpl.
  split; [reflexivity|]. split; [reflexivity|].
  split; [exact Hrec|]. split; [exact Hin|].
  do 3 (split; [reflexivity|]).
  rewrite <- !app_assoc. cbn [app]. reflexivity.
Qed.

Lemma X11_witness :
  is_recording
    (ctx (run (set_context example_ext None example_features)
            example_recording_world)) = true /\
  next_handle
    (run (set_context example_ext None example_features)
       example_recording_world)
  = next_handle example_recording_world.
Proof.
  destruct (X11_set_context_inside_a_scene example_ext None example_features
              example_recording_world
              (run (set_context example_ext None example_features)
                 example_recording_world))
    as (p & target & target' & pass & fb & _ & _ & _ & _ & _ & Hrec & _ & _
        & _ & Hnh & _);
    [vm_compute; reflexivity | vm_compute; reflexivity
    | vm_compute; reflexivity |].
  split; [exact Hrec | exact Hnh].
Defined.

(** X12: the scenes of a frame use consecutive command buffers: after
    [n + 1] scenes in a row on the same render target, each a
    [set_context] followed by a [stop_recording], the command-buffer index
    of the target is the one the first scene started from plus [n + 1],
    and the context is outside a recording session again. *)
Theorem X12_scenes_use_consecutive_command_buffers
    ext rt f n1 n2 n w w' p target :
  is_recording (ctx w) = false ->
  bound_target rt (ctx w) = Some p ->
  targets w !! p = Some target ->
  scenes ext rt f n1 n2 (S n) w = Some (tt, w') ->
  exists target',
    targets w' !! p = Some target' /\
    cmd_buffer_idx target' = (scene_base (ctx w) target + S n)%nat /\
    last_used_frame target' = frame_timestamp (ctx w) /\
    is_recording (ctx w') = false /\
    in_renderpass (ctx w') = false.
Proof.
  revert w target. induction n as [|n IH]; intros w target Hrec Hp Hrt H.
  - cbn [scenes] in H. apply bind_Some in H.
    destruct H as ([] & w1 & H1 & H2). apply mret_Some in H2.
    destruct H2 as [_ ->].
    destruct (scene_step _ _ _ _ _ _ _ _ _ Hrec Hp Hrt H1)
      as (target' & Ht & Hidx & Hluf & Hrec' & Hin' & _).
    exists target'. rewrite Hidx. repeat split; try assumption. lia.
  - change (scenes ext rt f n1 n2 (S (S n)))
      with (scene ext rt f n1 n2;; scenes ext rt f n1 n2 (S n)) in H.
    apply bind_Some in H. destruct H as ([] & w1 & H1 & H2).
    destruct (scene_step _ _ _ _ _ _ _ _ _ Hrec Hp Hrt H1)
      as (target1 & Ht & Hidx & Hluf & Hrec1 & _ & Hp1 & Hcur1 & Hft1).
    assert (bound_target rt (ctx w1) = Some p) as Hb1.
    { destruct rt; [exact Hp|]. cbn in *. congruence. }
    destruct (IH w1 target1 Hrec1 Hb1 Ht H2)
      as (target' & Ht' & Hidx' & Hluf' & Hrec' & Hin').
    exists target'.
    assert (scene_base (ctx w1) target1 = S (scene_base (ctx w) target))
      as Hbase.
    { unfold scene_base at 1. rewrite Hluf, Hft1, Z.eqb_refl. exact Hidx. }
    rewrite Hidx', Hluf', Hbase, Hft1.
    repeat split; try assumption. lia.
Qed.

Lemma X12_witness :
  exists target',
    targets (run (scenes example_ext None example_features notification_a
                    no_notification 2) example_world) !! 7%nat
    = Some target' /\
    cmd_buffer_idx target' = 2%nat.
Proof.
  destruct (X12_scenes_use_consecutive_command_buffers example_ext None
              example_features notification_a no_notification 1 example_world
              (run (scenes example_ext None example_features notification_a
                      no_notification 2) example_world)
              7%nat example_target)
    as (target' & Ht & Hidx & _);
    [vm_compute; reflexivity | vm_compute; reflexivity
    | vm_compute; reflexivity | vm_compute; reflexivity |].
  exists target'. split; [exact Ht|]. rewrite Hidx. vm_compute. reflexivity.
Defined.
